(** * Sony IMX662 sensor driver: register sequencing and control ranges

    A shallow embedding of [drivers/media/i2c/imx662.c].  The driver talks to
    the sensor through [regmap_write] on a 16-bit address / 8-bit value
    register map; everything it does is a sequence of such writes, a few
    mandatory delays, and updates of the V4L2 control block.  The embedding
    threads the device context [struct imx662] through a state monad and
    records every bus transaction, with its result, in a trace. *)

From Stdlib Require Import ZArith List Bool Lia.
Import ListNotations.
Open Scope Z_scope.

(** ** Machine integers *)

Definition u8 (x : Z) : Z := x mod 2 ^ 8.
Definition u16 (x : Z) : Z := x mod 2 ^ 16.
Definition u32 (x : Z) : Z := x mod 2 ^ 32.

(** Conversion of an [int] to [bool], as done for the [grabbed] argument of
    [__v4l2_ctrl_grab]. *)
Definition truthy (x : Z) : bool := negb (x =? 0).

(** ** Register map *)

Definition IMX662_STANDBY : Z := 0x3000.
Definition IMX662_REGHOLD : Z := 0x3001.
Definition IMX662_XMSTA : Z := 0x3002.
Definition IMX662_INCK_SEL : Z := 0x3014.
Definition IMX662_INCK_SEL_74_25 : Z := 0x00.
Definition IMX662_INCK_SEL_37_125 : Z := 0x01.
Definition IMX662_INCK_SEL_72 : Z := 0x02.
Definition IMX662_INCK_SEL_27 : Z := 0x03.
Definition IMX662_INCK_SEL_24 : Z := 0x04.
Definition IMX662_LANE_RATE : Z := 0x3015.
Definition IMX662_LANE_RATE_1188 : Z := 0x04.
Definition IMX662_LANE_RATE_594 : Z := 0x07.
Definition IMX662_FLIP_WINMODEH : Z := 0x3020.
Definition IMX662_FLIP_WINMODEV : Z := 0x3021.
Definition IMX662_ADBIT : Z := 0x3022.
Definition IMX662_MDBIT : Z := 0x3023.
Definition IMX662_VMAX : Z := 0x3028.
Definition IMX662_VMAX_MAX : Z := 0x03ffff.
Definition IMX662_HMAX : Z := 0x302c.
Definition IMX662_HMAX_MAX : Z := 0xffff.
Definition IMX662_FR_FDG_SEL0 : Z := 0x3030.
Definition IMX662_FDG_SEL0_LCG : Z := 0x00.
Definition IMX662_FDG_SEL0_HCG : Z := 0x01.
Definition IMX662_FR_FDG_SEL1 : Z := 0x3031.
Definition IMX662_FR_FDG_SEL2 : Z := 0x3032.
Definition IMX662_CSI_LANE_MODE : Z := 0x3040.
Definition IMX662_EXPOSURE : Z := 0x3050.
Definition IMX662_GAIN : Z := 0x3070.

Definition IMX662_EXPOSURE_MIN : Z := 1.
Definition IMX662_EXPOSURE_STEP : Z := 1.
(** Exposure must be this many lines less than VMAX. *)
Definition IMX662_EXPOSURE_OFFSET : Z := 4.

Definition IMX662_NATIVE_WIDTH : Z := 1956.
Definition IMX662_NATIVE_HEIGHT : Z := 1110.
Definition IMX662_PIXEL_ARRAY_LEFT : Z := 0.
Definition IMX662_PIXEL_ARRAY_TOP : Z := 20.
Definition IMX662_PIXEL_ARRAY_WIDTH : Z := 1936.
Definition IMX662_PIXEL_ARRAY_HEIGHT : Z := 1100.

(** Kernel error numbers used by the driver and by the control framework. *)
Definition ENOMEM : Z := 12.
Definition EBUSY : Z := 16.
Definition ENODEV : Z := 19.
Definition EINVAL : Z := 22.
Definition ERANGE : Z := 34.

(** Media bus codes, from [uapi/linux/media-bus-format.h]. *)
Definition MEDIA_BUS_FMT_Y10_1X10 : Z := 0x200a.
Definition MEDIA_BUS_FMT_Y12_1X12 : Z := 0x2013.
Definition MEDIA_BUS_FMT_SRGGB10_1X10 : Z := 0x300f.
Definition MEDIA_BUS_FMT_SRGGB12_1X12 : Z := 0x3012.

Definition V4L2_FIELD_NONE : Z := 1.
Definition V4L2_COLORSPACE_RAW : Z := 11.

(** ** Static tables *)

Record imx662_regval := { reg : Z; regval_val : Z }.

Definition rv (r v : Z) : imx662_regval := {| reg := r; regval_val := v |}.

Record v4l2_rect := { left : Z; top : Z; rect_width : Z; rect_height : Z }.

Record imx662_mode := {
  width : Z;
  height : Z;
  hmax : Z;
  vmax : Z;
  crop : v4l2_rect;
  mode_data : list imx662_regval
}.

Record imx662_pixfmt := { code : Z; pixfmt_bpp : Z }.

Definition IMX662_NUM_FORMATS : Z := 2.

Definition imx662_colour_formats : list imx662_pixfmt :=
  [ {| code := MEDIA_BUS_FMT_SRGGB10_1X10; pixfmt_bpp := 10 |};
    {| code := MEDIA_BUS_FMT_SRGGB12_1X12; pixfmt_bpp := 12 |} ].

Definition imx662_mono_formats : list imx662_pixfmt :=
  [ {| code := MEDIA_BUS_FMT_Y10_1X10; pixfmt_bpp := 10 |};
    {| code := MEDIA_BUS_FMT_Y12_1X12; pixfmt_bpp := 12 |} ].

Definition imx662_global_settings : list imx662_regval :=
  [ rv 0x3002 0x00; rv 0x301A 0x00; rv 0x301B 0x00; rv 0x301C 0x00;
    rv 0x301E 0x01; rv 0x303C 0x00; rv 0x303D 0x00; rv 0x303E 0x90;
    rv 0x303F 0x07; rv 0x3044 0x00; rv 0x3045 0x00; rv 0x3046 0x4C;
    rv 0x3047 0x04; rv 0x3060 0x16; rv 0x3061 0x01; rv 0x3062 0x00;
    rv 0x3064 0xC4; rv 0x3065 0x0C; rv 0x3066 0x00; rv 0x3069 0x00;
    rv 0x3072 0x00; rv 0x3073 0x00; rv 0x3074 0x00; rv 0x3075 0x00;
    rv 0x3081 0x00; rv 0x308C 0x00; rv 0x308D 0x01; rv 0x3094 0x00;
    rv 0x3095 0x00; rv 0x3096 0x00; rv 0x3097 0x00; rv 0x309C 0x00;
    rv 0x309D 0x00; rv 0x30A4 0xAA; rv 0x30A6 0x0F; rv 0x30CC 0x00;
    rv 0x30CD 0x00; rv 0x3400 0x01; rv 0x3444 0xAC; rv 0x3460 0x21;
    rv 0x3492 0x08; rv 0x3A50 0xFF; rv 0x3A51 0x03; rv 0x3A52 0x00;
    rv 0x3B00 0x39; rv 0x3B23 0x2D; rv 0x3B45 0x04; rv 0x3C0A 0x1F;
    rv 0x3C0B 0x1E; rv 0x3C38 0x21; rv 0x3C40 0x06; rv 0x3C44 0x00;
    rv 0x3CB6 0xD8; rv 0x3CC4 0xDA; rv 0x3E24 0x79; rv 0x3E2C 0x15;
    rv 0x3EDC 0x2D; rv 0x4498 0x05; rv 0x449C 0x19; rv 0x449D 0x00;
    rv 0x449E 0x32; rv 0x449F 0x01; rv 0x44A0 0x92; rv 0x44A2 0x91;
    rv 0x44A4 0x8C; rv 0x44A6 0x87; rv 0x44A8 0x82; rv 0x44AA 0x78;
    rv 0x44AC 0x6E; rv 0x44AE 0x69; rv 0x44B0 0x92; rv 0x44B2 0x91;
    rv 0x44B4 0x8C; rv 0x44B6 0x87; rv 0x44B8 0x82; rv 0x44BA 0x78;
    rv 0x44BC 0x6E; rv 0x44BE 0x69; rv 0x44C1 0x01; rv 0x44C2 0x7F;
    rv 0x44C3 0x01; rv 0x44C4 0x7A; rv 0x44C5 0x01; rv 0x44C6 0x7A;
    rv 0x44C7 0x01; rv 0x44C8 0x70; rv 0x44C9 0x01; rv 0x44CA 0x6B;
    rv 0x44CB 0x01; rv 0x44CC 0x6B; rv 0x44CD 0x01; rv 0x44CE 0x5C;
    rv 0x44CF 0x01; rv 0x44D0 0x7F; rv 0x44D1 0x01; rv 0x44D2 0x7F;
    rv 0x44D3 0x01; rv 0x44D4 0x7A; rv 0x44D5 0x01; rv 0x44D6 0x7A;
    rv 0x44D7 0x01; rv 0x44D8 0x70; rv 0x44D9 0x01; rv 0x44DA 0x6B;
    rv 0x44DB 0x01; rv 0x44DC 0x6B; rv 0x44DD 0x01; rv 0x44DE 0x5C;
    rv 0x44DF 0x01; rv 0x4534 0x1C; rv 0x4535 0x03; rv 0x4538 0x1C;
    rv 0x4539 0x1C; rv 0x453A 0x1C; rv 0x453B 0x1C; rv 0x453C 0x1C;
    rv 0x453D 0x1C; rv 0x453E 0x1C; rv 0x453F 0x1C; rv 0x4540 0x1C;
    rv 0x4541 0x03; rv 0x4542 0x03; rv 0x4543 0x03; rv 0x4544 0x03;
    rv 0x4545 0x03; rv 0x4546 0x03; rv 0x4547 0x03; rv 0x4548 0x03;
    rv 0x4549 0x03 ].

Definition imx662_1080p_common_settings : list imx662_regval :=
  [ rv 0x3018 0x00; rv IMX662_FR_FDG_SEL1 0x00; rv IMX662_FR_FDG_SEL2 0x00 ].

Definition imx662_mode_1080p : imx662_mode :=
  {| width := 1936;
     height := 1100;
     hmax := 0x3de * 2;
     vmax := 0x04e2;
     crop := {| left := IMX662_PIXEL_ARRAY_LEFT;
                top := IMX662_PIXEL_ARRAY_TOP;
                rect_width := IMX662_NATIVE_WIDTH;
                rect_height := IMX662_NATIVE_HEIGHT |};
     mode_data := imx662_1080p_common_settings |}.

Definition imx662_modes : list imx662_mode := [ imx662_mode_1080p ].

(** ** The register transport

    [regmap_write] either succeeds (returns 0) or fails with a negative errno.
    Whether a given write fails is decided by the transport, which the driver
    does not control: it is modelled by a fault oracle that sees everything
    that happened on the bus so far and the write being issued.  The trace
    keeps every transaction the driver attempted, with its result, and the
    delays it inserted between them. *)

Inductive bus_event :=
| RegWrite (addr value result : Z)
| Usleep (min_us max_us : Z)
| Msleep (ms : Z).

Definition fault_oracle := list bus_event -> Z -> Z -> option positive.

(** ** V4L2 controls

    A control of the kernel's control framework, reduced to what the driver
    reads and writes: its range, the staged value [val] (what [ctrl->val]
    denotes inside [s_ctrl]) and the committed value [cur_val]
    ([ctrl->cur.val]). *)

Record v4l2_ctrl := {
  minimum : Z;
  maximum : Z;
  step : Z;
  default_value : Z;
  val : Z;
  cur_val : Z;
  read_only : bool;
  grabbed : bool
}.

Inductive ctrl_id :=
| V4L2_CID_ANALOGUE_GAIN
| V4L2_CID_HBLANK
| V4L2_CID_VBLANK
| V4L2_CID_EXPOSURE
| V4L2_CID_HFLIP
| V4L2_CID_VFLIP
| V4L2_CID_LINK_FREQ
| V4L2_CID_PIXEL_RATE.

Definition ctrl_id_eqb (a b : ctrl_id) : bool :=
  match a, b with
  | V4L2_CID_ANALOGUE_GAIN, V4L2_CID_ANALOGUE_GAIN
  | V4L2_CID_HBLANK, V4L2_CID_HBLANK
  | V4L2_CID_VBLANK, V4L2_CID_VBLANK
  | V4L2_CID_EXPOSURE, V4L2_CID_EXPOSURE
  | V4L2_CID_HFLIP, V4L2_CID_HFLIP
  | V4L2_CID_VFLIP, V4L2_CID_VFLIP
  | V4L2_CID_LINK_FREQ, V4L2_CID_LINK_FREQ
  | V4L2_CID_PIXEL_RATE, V4L2_CID_PIXEL_RATE => true
  | _, _ => false
  end.

(** The type the framework gives each control: [v4l2_ctrl_new_std] and
    [v4l2_ctrl_new_int_menu] take it from the control id. *)
Inductive v4l2_ctrl_type :=
| V4L2_CTRL_TYPE_INTEGER
| V4L2_CTRL_TYPE_BOOLEAN
| V4L2_CTRL_TYPE_INTEGER_MENU
| V4L2_CTRL_TYPE_INTEGER64.

Definition ctrl_type (id : ctrl_id) : v4l2_ctrl_type :=
  match id with
  | V4L2_CID_ANALOGUE_GAIN | V4L2_CID_HBLANK
  | V4L2_CID_VBLANK | V4L2_CID_EXPOSURE => V4L2_CTRL_TYPE_INTEGER
  | V4L2_CID_HFLIP | V4L2_CID_VFLIP => V4L2_CTRL_TYPE_BOOLEAN
  | V4L2_CID_LINK_FREQ => V4L2_CTRL_TYPE_INTEGER_MENU
  | V4L2_CID_PIXEL_RATE => V4L2_CTRL_TYPE_INTEGER64
  end.

(** [ctrl->is_int]: the control holds a 32-bit integer value. *)
Definition is_int (id : ctrl_id) : bool :=
  match ctrl_type id with
  | V4L2_CTRL_TYPE_INTEGER64 => false
  | _ => true
  end.

Definition with_range (c : v4l2_ctrl) (mn mx stp def : Z) : v4l2_ctrl :=
  {| minimum := mn; maximum := mx; step := stp; default_value := def;
     val := val c; cur_val := cur_val c;
     read_only := read_only c; grabbed := grabbed c |}.

Definition with_val (c : v4l2_ctrl) (v : Z) : v4l2_ctrl :=
  {| minimum := minimum c; maximum := maximum c; step := step c;
     default_value := default_value c;
     val := v; cur_val := cur_val c;
     read_only := read_only c; grabbed := grabbed c |}.

Definition with_cur (c : v4l2_ctrl) (v : Z) : v4l2_ctrl :=
  {| minimum := minimum c; maximum := maximum c; step := step c;
     default_value := default_value c;
     val := val c; cur_val := v;
     read_only := read_only c; grabbed := grabbed c |}.

Definition with_grabbed (c : v4l2_ctrl) (g : bool) : v4l2_ctrl :=
  {| minimum := minimum c; maximum := maximum c; step := step c;
     default_value := default_value c;
     val := val c; cur_val := cur_val c;
     read_only := read_only c; grabbed := g |}.

Definition cur_to_new (c : v4l2_ctrl) : v4l2_ctrl := with_val c (cur_val c).
Definition new_to_cur (c : v4l2_ctrl) : v4l2_ctrl := with_cur c (val c).

(** ** The device context *)

Inductive v4l2_subdev_format_whence :=
| V4L2_SUBDEV_FORMAT_TRY
| V4L2_SUBDEV_FORMAT_ACTIVE.

Record v4l2_mbus_framefmt := {
  fmt_width : Z;
  fmt_height : Z;
  fmt_code : Z;
  fmt_field : Z;
  fmt_colorspace : Z
}.

Record v4l2_subdev_format := {
  which : v4l2_subdev_format_whence;
  format : v4l2_mbus_framefmt
}.

(** [struct imx662].  [ctrls] is the control handler; the members [hblank],
    [vblank], [exposure], ... of the C structure are pointers into it and are
    read here as [ctrls st V4L2_CID_HBLANK] and so on.  [regmap] and [bus]
    stand for the register transport: its fault behaviour and the trace of
    what was issued on it.  [pm_usage] is the runtime-PM usage counter of the
    device and [power_fault] what resuming the device would report.
    [try_format] is the pad's try format kept in the subdev state. *)
Record imx662 := {
  regmap : fault_oracle;
  bus : list bus_event;
  pm_usage : Z;
  power_fault : option positive;
  inck_sel : Z;
  nlanes : Z;
  bpp : Z;
  formats : list imx662_pixfmt;
  current_format : v4l2_mbus_framefmt;
  try_format : v4l2_mbus_framefmt;
  current_mode : imx662_mode;
  ctrls : ctrl_id -> v4l2_ctrl
}.

Definition set_bus (st : imx662) (b : list bus_event) : imx662 :=
  {| regmap := regmap st; bus := b; pm_usage := pm_usage st;
     power_fault := power_fault st; inck_sel := inck_sel st;
     nlanes := nlanes st; bpp := bpp st; formats := formats st;
     current_format := current_format st; try_format := try_format st;
     current_mode := current_mode st; ctrls := ctrls st |}.

Definition set_pm_usage (st : imx662) (n : Z) : imx662 :=
  {| regmap := regmap st; bus := bus st; pm_usage := n;
     power_fault := power_fault st; inck_sel := inck_sel st;
     nlanes := nlanes st; bpp := bpp st; formats := formats st;
     current_format := current_format st; try_format := try_format st;
     current_mode := current_mode st; ctrls := ctrls st |}.

Definition set_bpp (st : imx662) (b : Z) : imx662 :=
  {| regmap := regmap st; bus := bus st; pm_usage := pm_usage st;
     power_fault := power_fault st; inck_sel := inck_sel st;
     nlanes := nlanes st; bpp := b; formats := formats st;
     current_format := current_format st; try_format := try_format st;
     current_mode := current_mode st; ctrls := ctrls st |}.

Definition set_current_format (st : imx662) (f : v4l2_mbus_framefmt) : imx662 :=
  {| regmap := regmap st; bus := bus st; pm_usage := pm_usage st;
     power_fault := power_fault st; inck_sel := inck_sel st;
     nlanes := nlanes st; bpp := bpp st; formats := formats st;
     current_format := f; try_format := try_format st;
     current_mode := current_mode st; ctrls := ctrls st |}.

Definition set_try_format (st : imx662) (f : v4l2_mbus_framefmt) : imx662 :=
  {| regmap := regmap st; bus := bus st; pm_usage := pm_usage st;
     power_fault := power_fault st; inck_sel := inck_sel st;
     nlanes := nlanes st; bpp := bpp st; formats := formats st;
     current_format := current_format st; try_format := f;
     current_mode := current_mode st; ctrls := ctrls st |}.

Definition set_current_mode (st : imx662) (m : imx662_mode) : imx662 :=
  {| regmap := regmap st; bus := bus st; pm_usage := pm_usage st;
     power_fault := power_fault st; inck_sel := inck_sel st;
     nlanes := nlanes st; bpp := bpp st; formats := formats st;
     current_format := current_format st; try_format := try_format st;
     current_mode := m; ctrls := ctrls st |}.

Definition set_ctrls (st : imx662) (h : ctrl_id -> v4l2_ctrl) : imx662 :=
  {| regmap := regmap st; bus := bus st; pm_usage := pm_usage st;
     power_fault := power_fault st; inck_sel := inck_sel st;
     nlanes := nlanes st; bpp := bpp st; formats := formats st;
     current_format := current_format st; try_format := try_format st;
     current_mode := current_mode st; ctrls := h |}.

Definition upd_ctrl (st : imx662) (id : ctrl_id) (c : v4l2_ctrl) : imx662 :=
  set_ctrls st (fun i => if ctrl_id_eqb i id then c else ctrls st i).

(** ** Sequencing: every driver function runs on the device context *)

Definition M (A : Type) : Type := imx662 -> A * imx662.

Definition Ret {A} (a : A) : M A := fun st => (a, st).

Definition bind {A B} (m : M A) (k : A -> M B) : M B :=
  fun st => let '(a, st') := m st in k a st'.

Notation "x <- m ;; k" := (bind m (fun x => k))
  (at level 61, m at next level, right associativity).
Notation "m ;;; k" := (bind m (fun _ => k))
  (at level 61, right associativity).

Definition gets {A} (f : imx662 -> A) : M A := fun st => (f st, st).
Definition modify (f : imx662 -> imx662) : M unit := fun st => (tt, f st).

Definition get_ctrl (id : ctrl_id) : M v4l2_ctrl := gets (fun st => ctrls st id).
Definition modify_ctrl (id : ctrl_id) (f : v4l2_ctrl -> v4l2_ctrl) : M unit :=
  modify (fun st => upd_ctrl st id (f (ctrls st id))).

(** The part of the bus trace a computation adds. *)
Definition trace_of {A} (m : M A) (st : imx662) : list bus_event :=
  skipn (length (bus st)) (bus (snd (m st))).

(** *** Kernel services used by the driver *)

Definition errno_result (f : option positive) : Z :=
  match f with
  | None => 0
  | Some e => - Z.pos e
  end.

Definition regmap_write (addr value : Z) : M Z :=
  fun st =>
    let r := errno_result (regmap st (bus st) addr value) in
    (r, set_bus st (bus st ++ [RegWrite addr value r])).

Definition usleep_range (lo hi : Z) : M unit :=
  modify (fun st => set_bus st (bus st ++ [Usleep lo hi])).

Definition msleep (ms : Z) : M unit :=
  modify (fun st => set_bus st (bus st ++ [Msleep ms])).

(** Runtime PM.  The device is powered exactly while its usage counter is
    held; [pm_runtime_get_if_in_use] takes a reference only then. *)
Definition pm_runtime_get_if_in_use : M Z :=
  fun st => if 0 <? pm_usage st
            then (1, set_pm_usage st (pm_usage st + 1))
            else (0, st).

Definition pm_runtime_put : M unit :=
  modify (fun st => set_pm_usage st (Z.max 0 (pm_usage st - 1))).

Definition pm_runtime_resume_and_get : M Z :=
  fun st => match power_fault st with
            | Some e => (- Z.pos e, st)
            | None => (0, set_pm_usage st (pm_usage st + 1))
            end.

(** ** Register access *)

Definition imx662_write_reg (addr value : Z) : M Z :=
  ret <- regmap_write addr value ;;
  if negb (ret =? 0) then Ret ret else Ret ret.

Fixpoint imx662_set_register_array_loop (settings : list imx662_regval) : M Z :=
  match settings with
  | [] => Ret 0
  | s :: rest =>
      ret <- imx662_write_reg (reg s) (regval_val s) ;;
      if ret <? 0 then Ret ret
      else imx662_set_register_array_loop rest
  end.

Definition imx662_set_register_array (settings : list imx662_regval) : M Z :=
  ret <- imx662_set_register_array_loop settings ;;
  if ret <? 0 then Ret ret
  else
    (* Provide 10ms settle time *)
    usleep_range 10000 11000 ;;;
    Ret 0.

(** The body of the [for] loop of [imx662_write_buffered_reg], from index
    [i], with [n] iterations left; a non-zero result is the early return. *)
Fixpoint imx662_write_buffered_loop (address_low value i : Z) (n : nat) : M Z :=
  match n with
  | O => Ret 0
  | S n' =>
      ret <- imx662_write_reg (u16 (address_low + i))
                              (u8 (Z.shiftr value (i * 8))) ;;
      if negb (ret =? 0) then Ret ret
      else imx662_write_buffered_loop address_low value (i + 1) n'
  end.

Definition imx662_write_buffered_reg (address_low : Z) (nr_regs : nat)
                                     (value : Z) : M Z :=
  ret <- imx662_write_reg IMX662_REGHOLD 0x01 ;;
  if negb (ret =? 0) then Ret ret
  else
    ret <- imx662_write_buffered_loop address_low value 0 nr_regs ;;
    if negb (ret =? 0) then Ret ret
    else
      ret <- imx662_write_reg IMX662_REGHOLD 0x00 ;;
      if negb (ret =? 0) then Ret ret else Ret ret.

Definition imx662_set_gain (value : Z) : M Z :=
  ret <- imx662_write_buffered_reg IMX662_GAIN 2 value ;;
  if negb (ret =? 0) then Ret ret
  else
    imx662_write_reg IMX662_FR_FDG_SEL0
      (if value <? 0x22 then IMX662_FDG_SEL0_LCG else IMX662_FDG_SEL0_LCG).

Definition imx662_set_exposure (value : Z) : M Z :=
  mode <- gets current_mode ;;
  vblank <- get_ctrl V4L2_CID_VBLANK ;;
  let exposure := u32 (u32 (u32 (height mode + u32 (val vblank)) - value) - 1) in
  imx662_write_buffered_reg IMX662_EXPOSURE 3 exposure.

Definition imx662_set_hmax (v : Z) : M Z :=
  mode <- gets current_mode ;;
  let hmax := Z.shiftr (u32 (v + width mode)) 1 in
  imx662_write_buffered_reg IMX662_HMAX 2 hmax.

(** Stop streaming *)
Definition imx662_stop_streaming : M Z :=
  ret <- imx662_write_reg IMX662_STANDBY 0x01 ;;
  if ret <? 0 then Ret ret
  else
    msleep 30 ;;;
    imx662_write_reg IMX662_XMSTA 0x01.

(** ** The V4L2 control framework, as the driver uses it

    The driver's [s_ctrl] operation is a callback of the framework; the
    framework entry points below take it as an argument.  Validating a
    staged value depends on the type of the control: an integer value is
    rounded into the range, which for the step 1 of every integer control of
    this driver is clamping; a boolean value is normalised to 0 or 1; a menu
    index outside the range, or masked out, is refused. *)

Definition s_ctrl_op := ctrl_id -> M Z.

Definition clamp (lo hi v : Z) : Z := Z.min (Z.max v lo) hi.

Definition round_to_range (c : v4l2_ctrl) : v4l2_ctrl :=
  with_val c (clamp (minimum c) (maximum c) (val c)).

Definition validate_new (id : ctrl_id) : M Z :=
  c <- get_ctrl id ;;
  match ctrl_type id with
  | V4L2_CTRL_TYPE_INTEGER | V4L2_CTRL_TYPE_INTEGER64 =>
      modify_ctrl id round_to_range ;;;
      Ret 0
  | V4L2_CTRL_TYPE_BOOLEAN =>
      modify_ctrl id (fun c => with_val c (if val c =? 0 then 0 else 1)) ;;;
      Ret 0
  | V4L2_CTRL_TYPE_INTEGER_MENU =>
      if (val c <? minimum c) || (maximum c <? val c) then Ret (- ERANGE)
      (* for a menu the step field holds the mask of skipped entries *)
      else if (val c <? 64) && Z.testbit (step c) (val c) then Ret (- EINVAL)
      else Ret 0
  end.

Definition check_range (type : v4l2_ctrl_type) (mn mx stp def : Z) : Z :=
  match type with
  | V4L2_CTRL_TYPE_BOOLEAN =>
      if negb (stp =? 1) || (1 <? mx) || (mn <? 0) then - ERANGE
      else if (stp =? 0) || (mx <? mn) || (def <? mn) || (mx <? def)
      then - ERANGE else 0
  | V4L2_CTRL_TYPE_INTEGER | V4L2_CTRL_TYPE_INTEGER64 =>
      if (stp =? 0) || (mx <? mn) || (def <? mn) || (mx <? def)
      then - ERANGE else 0
  | V4L2_CTRL_TYPE_INTEGER_MENU =>
      if (mx <? mn) || (def <? mn) || (mx <? def) then - ERANGE
      else if negb (stp =? 0) && Z.testbit stp def then - EINVAL
      else 0
  end.

(** [set_ctrl]: validate the staged value, refuse a grabbed control, skip
    the driver when nothing changes, otherwise call [s_ctrl] and commit the
    staged value only if the driver reported success. *)
Definition set_ctrl (s_ctrl : s_ctrl_op) (id : ctrl_id) : M Z :=
  ret <- validate_new id ;;
  if negb (ret =? 0) then Ret ret
  else
    c <- get_ctrl id ;;
    if grabbed c then Ret (- EBUSY)
    else if val c =? cur_val c then Ret 0
    else
      ret <- s_ctrl id ;;
      if negb (ret =? 0) then Ret ret
      else
        modify_ctrl id new_to_cur ;;;
        Ret 0.

Definition __v4l2_ctrl_s_ctrl (s_ctrl : s_ctrl_op) (id : ctrl_id) (v : Z) : M Z :=
  (* It's a driver bug if this happens. *)
  if negb (is_int id) then Ret (- EINVAL)
  else
    modify_ctrl id (fun c => with_val c v) ;;;
    set_ctrl s_ctrl id.

Definition __v4l2_ctrl_s_ctrl_int64 (s_ctrl : s_ctrl_op) (id : ctrl_id) (v : Z)
  : M Z :=
  (* It's a driver bug if this happens. *)
  if is_int id then Ret (- EINVAL)
  else
    modify_ctrl id (fun c => with_val c v) ;;;
    set_ctrl s_ctrl id.

Definition __v4l2_ctrl_modify_range (s_ctrl : s_ctrl_op) (id : ctrl_id)
                                    (mn mx stp def : Z) : M Z :=
  if negb (check_range (ctrl_type id) mn mx stp def =? 0)
  then Ret (check_range (ctrl_type id) mn mx stp def)
  else
    modify_ctrl id (fun c => with_range c mn mx stp def) ;;;
    modify_ctrl id cur_to_new ;;;
    ret <- validate_new id ;;
    (if negb (ret =? 0) then modify_ctrl id (fun c => with_val c def)
     else Ret tt) ;;;
    c <- get_ctrl id ;;
    if negb (val c =? cur_val c) then set_ctrl s_ctrl id
    else Ret 0.

Definition __v4l2_ctrl_grab (id : ctrl_id) (g : bool) : M unit :=
  modify_ctrl id (fun c => with_grabbed c g).

(** [v4l2_ctrl_handler_setup] walks the handler's controls in the order in
    which they were added, skips the read-only ones and calls [s_ctrl] with
    the current value of each, stopping at the first error. *)
Fixpoint v4l2_ctrl_handler_setup_loop (s_ctrl : s_ctrl_op) (l : list ctrl_id) : M Z :=
  match l with
  | [] => Ret 0
  | id :: rest =>
      c <- get_ctrl id ;;
      if read_only c then v4l2_ctrl_handler_setup_loop s_ctrl rest
      else
        modify_ctrl id cur_to_new ;;;
        ret <- s_ctrl id ;;
        if negb (ret =? 0) then Ret ret
        else v4l2_ctrl_handler_setup_loop s_ctrl rest
  end.

(** The controls of the handler, in the order [imx662_probe] creates them. *)
Definition imx662_ctrl_order : list ctrl_id :=
  [ V4L2_CID_ANALOGUE_GAIN; V4L2_CID_HBLANK; V4L2_CID_VBLANK;
    V4L2_CID_EXPOSURE; V4L2_CID_HFLIP; V4L2_CID_VFLIP;
    V4L2_CID_LINK_FREQ; V4L2_CID_PIXEL_RATE ].

Definition v4l2_ctrl_handler_setup (s_ctrl : s_ctrl_op) : M Z :=
  v4l2_ctrl_handler_setup_loop s_ctrl imx662_ctrl_order.

(** ** Control operations *)

(** [imx662_set_ctrl], with the body of its [V4L2_CID_VBLANK] arm left open.
    The C function and [imx662_set_vmax] call each other through the
    framework: [imx662_set_vmax] changes the range of the exposure control,
    and the framework may then call [imx662_set_ctrl] on that control. *)
Definition imx662_set_ctrl_with (set_vmax : Z -> M Z) (id : ctrl_id) : M Z :=
  (* V4L2 controls values will be applied only when power is already up *)
  in_use <- pm_runtime_get_if_in_use ;;
  if in_use =? 0 then Ret 0
  else
    ctrl <- get_ctrl id ;;
    ret <- match id with
           | V4L2_CID_ANALOGUE_GAIN => imx662_set_gain (u32 (val ctrl))
           | V4L2_CID_EXPOSURE => imx662_set_exposure (u32 (val ctrl))
           | V4L2_CID_HBLANK => imx662_set_hmax (u32 (val ctrl))
           | V4L2_CID_VBLANK => set_vmax (u32 (val ctrl))
           | V4L2_CID_HFLIP =>
               imx662_write_reg IMX662_FLIP_WINMODEH (u8 (val ctrl))
           | V4L2_CID_VFLIP =>
               imx662_write_reg IMX662_FLIP_WINMODEV (u8 (val ctrl))
           | _ => Ret (- EINVAL)
           end ;;
    pm_runtime_put ;;;
    Ret ret.

(** The callback the framework reaches from inside [imx662_set_vmax]: it is
    only ever invoked on the exposure control, so its vertical-blank arm is
    never taken. *)
Definition imx662_set_ctrl_nested : s_ctrl_op :=
  imx662_set_ctrl_with (fun _ => Ret (- EINVAL)).

Definition imx662_set_vmax (v : Z) : M Z :=
  mode <- gets current_mode ;;
  let vmax := u32 (v + height mode) in
  ret <- imx662_write_buffered_reg IMX662_VMAX 3 vmax ;;
  (* Changing vblank changes the allowed range for exposure. *)
  __v4l2_ctrl_modify_range imx662_set_ctrl_nested V4L2_CID_EXPOSURE
    IMX662_EXPOSURE_MIN
    (u32 (vmax - IMX662_EXPOSURE_OFFSET))
    IMX662_EXPOSURE_STEP
    (u32 (vmax - IMX662_EXPOSURE_OFFSET)) ;;;
  (* updating vblank causes the effective exposure to change, so it is set
     back to the new correct value *)
  exposure <- get_ctrl V4L2_CID_EXPOSURE ;;
  imx662_set_exposure (u32 (val exposure)) ;;;
  Ret ret.

Definition imx662_set_ctrl : s_ctrl_op := imx662_set_ctrl_with imx662_set_vmax.

(** ** Formats *)

Definition imx662_calc_pixel_rate : Z := 148500000.

(** [v4l2_find_nearest_size] over the mode table: the entry with the least
    distance to the requested size, a later entry winning a tie, and an exact
    match ending the search.  The search starts from the largest possible
    error, so the first entry is always a candidate. *)
Definition size_error (m : imx662_mode) (w h : Z) : Z :=
  Z.abs (width m - w) + Z.abs (height m - h).

Fixpoint find_nearest_loop (l : list imx662_mode) (w h : Z)
                           (best : imx662_mode) (min_error : Z) : imx662_mode :=
  match l with
  | [] => best
  | m :: rest =>
      let error := size_error m w h in
      if min_error <? error then find_nearest_loop rest w h best min_error
      else if error =? 0 then m
      else find_nearest_loop rest w h m error
  end.

Definition v4l2_find_nearest_size (l : list imx662_mode) (w h : Z) : imx662_mode :=
  match l with
  | [] => imx662_mode_1080p
  | m :: rest =>
      if size_error m w h =? 0 then m
      else find_nearest_loop rest w h m (size_error m w h)
  end.

(** The loop of [imx662_set_fmt] that looks the requested code up. *)
Fixpoint find_format_loop (l : list imx662_pixfmt) (c : Z) (i : Z) : Z :=
  match l with
  | [] => i
  | f :: rest => if code f =? c then i else find_format_loop rest c (i + 1)
  end.

Definition format_at (l : list imx662_pixfmt) (i : Z) : imx662_pixfmt :=
  nth (Z.to_nat i) l {| code := 0; pixfmt_bpp := 0 |}.

(** [imx662_set_fmt], on a device whose controls exist (after
    [imx662_probe] every control pointer of the context is non-null, so the
    guards on [pixel_rate], [hblank], [vblank] and [exposure] are passed).
    The result carries the return value and the format handed back. *)
Definition imx662_set_fmt (fmt : v4l2_subdev_format)
  : M (Z * v4l2_subdev_format) :=
  fmts <- gets formats ;;
  let mode := v4l2_find_nearest_size imx662_modes
                (fmt_width (format fmt)) (fmt_height (format fmt)) in
  let i0 := find_format_loop fmts (fmt_code (format fmt)) 0 in
  let i := if IMX662_NUM_FORMATS <=? i0 then 0 else i0 in
  let f := {| fmt_width := width mode;
              fmt_height := height mode;
              fmt_code := code (format_at fmts i);
              fmt_field := V4L2_FIELD_NONE;
              fmt_colorspace := V4L2_COLORSPACE_RAW |} in
  match which fmt with
  | V4L2_SUBDEV_FORMAT_TRY =>
      modify (fun st => set_try_format st f)
  | V4L2_SUBDEV_FORMAT_ACTIVE =>
      modify (fun st => set_current_mode st mode) ;;;
      modify (fun st => set_bpp st (pixfmt_bpp (format_at fmts i))) ;;;
      __v4l2_ctrl_s_ctrl_int64 imx662_set_ctrl V4L2_CID_PIXEL_RATE
        imx662_calc_pixel_rate ;;;
      __v4l2_ctrl_modify_range imx662_set_ctrl V4L2_CID_HBLANK
        (u32 (hmax mode - width mode))
        (u32 (IMX662_HMAX_MAX - width mode))
        1 (u32 (hmax mode - width mode)) ;;;
      __v4l2_ctrl_s_ctrl imx662_set_ctrl V4L2_CID_HBLANK
        (u32 (hmax mode - width mode)) ;;;
      __v4l2_ctrl_modify_range imx662_set_ctrl V4L2_CID_VBLANK
        (u32 (vmax mode - height mode))
        (u32 (IMX662_VMAX_MAX - height mode))
        1 (u32 (vmax mode - height mode)) ;;;
      __v4l2_ctrl_s_ctrl imx662_set_ctrl V4L2_CID_VBLANK
        (u32 (vmax mode - height mode)) ;;;
      __v4l2_ctrl_modify_range imx662_set_ctrl V4L2_CID_EXPOSURE
        IMX662_EXPOSURE_MIN
        (u32 (vmax mode - 2))
        IMX662_EXPOSURE_STEP
        (u32 (vmax mode - 2)) ;;;
      modify (fun st => set_current_format st f)
  end ;;;
  Ret (0, {| which := which fmt; format := f |}).

Definition imx662_entity_init_cfg (active : bool) : M Z :=
  let fmt := {| which := if active then V4L2_SUBDEV_FORMAT_ACTIVE
                         else V4L2_SUBDEV_FORMAT_TRY;
                format := {| fmt_width := 1936; fmt_height := 1100;
                             fmt_code := 0; fmt_field := 0;
                             fmt_colorspace := 0 |} |} in
  imx662_set_fmt fmt ;;;
  Ret 0.

Definition imx662_write_current_format : M Z :=
  cf <- gets current_format ;;
  let c := fmt_code cf in
  if (c =? MEDIA_BUS_FMT_SRGGB10_1X10) || (c =? MEDIA_BUS_FMT_Y10_1X10)
  then
    ret <- imx662_write_reg IMX662_ADBIT 0x00 ;;
    if ret <? 0 then Ret ret
    else
      ret <- imx662_write_reg IMX662_MDBIT 0x00 ;;
      if ret <? 0 then Ret ret else Ret 0
  else if (c =? MEDIA_BUS_FMT_SRGGB12_1X12) || (c =? MEDIA_BUS_FMT_Y12_1X12)
  then
    ret <- imx662_write_reg IMX662_ADBIT 0x01 ;;
    if ret <? 0 then Ret ret
    else
      ret <- imx662_write_reg IMX662_MDBIT 0x01 ;;
      if ret <? 0 then Ret ret else Ret 0
  else Ret (- EINVAL).

(** ** Streaming *)

(** Start streaming *)
Definition imx662_start_streaming : M Z :=
  (* Set init register settings *)
  ret <- imx662_set_register_array imx662_global_settings ;;
  if ret <? 0 then Ret ret
  else
    inck <- gets inck_sel ;;
    ret <- imx662_write_reg IMX662_INCK_SEL inck ;;
    if ret <? 0 then Ret ret
    else
      (* Apply the register values related to current frame format *)
      ret <- imx662_write_current_format ;;
      if ret <? 0 then Ret ret
      else
        (* Apply default values of current mode *)
        mode <- gets current_mode ;;
        ret <- imx662_set_register_array (mode_data mode) ;;
        if ret <? 0 then Ret ret
        else
          (* Apply lane config registers of current mode *)
          lanes <- gets nlanes ;;
          ret <- imx662_write_reg IMX662_CSI_LANE_MODE
                   (if lanes =? 2 then 0x01 else 0x03) ;;
          if ret <? 0 then Ret ret
          else
            ret <- imx662_write_reg IMX662_LANE_RATE
                     (if lanes =? 2 then IMX662_LANE_RATE_1188
                      else IMX662_LANE_RATE_594) ;;
            if ret <? 0 then Ret ret
            else
              (* Apply customized values from user *)
              ret <- v4l2_ctrl_handler_setup imx662_set_ctrl ;;
              if negb (ret =? 0) then Ret ret
              else
                ret <- imx662_write_reg IMX662_STANDBY 0x00 ;;
                if ret <? 0 then Ret ret
                else
                  msleep 30 ;;;
                  (* Start streaming *)
                  imx662_write_reg IMX662_XMSTA 0x00.

Definition imx662_set_stream (enable : Z) : M Z :=
  if truthy enable then
    ret <- pm_runtime_resume_and_get ;;
    if ret <? 0 then Ret ret
    else
      ret <- imx662_start_streaming ;;
      if negb (ret =? 0) then
        pm_runtime_put ;;;
        Ret ret
      else
        (* vflip and hflip cannot change during streaming *)
        __v4l2_ctrl_grab V4L2_CID_VFLIP (truthy enable) ;;;
        __v4l2_ctrl_grab V4L2_CID_HFLIP (truthy enable) ;;;
        Ret ret
  else
    imx662_stop_streaming ;;;
    pm_runtime_put ;;;
    __v4l2_ctrl_grab V4L2_CID_VFLIP (truthy enable) ;;;
    __v4l2_ctrl_grab V4L2_CID_HFLIP (truthy enable) ;;;
    Ret 0.

(** ** Probe

    What [imx662_probe] leaves behind when it succeeds.  The lane count and
    the external clock come from the firmware description; the first call of
    [imx662_entity_init_cfg], made before any control exists, only selects
    the mode and the format, the controls are then created from that mode,
    and the second call runs the full [imx662_set_fmt]. *)

Definition inck_sel_of_xclk (xclk_freq : Z) : option Z :=
  if xclk_freq =? 74250000 then Some IMX662_INCK_SEL_74_25
  else if xclk_freq =? 37125000 then Some IMX662_INCK_SEL_37_125
  else if xclk_freq =? 72000000 then Some IMX662_INCK_SEL_72
  else if xclk_freq =? 27000000 then Some IMX662_INCK_SEL_27
  else if xclk_freq =? 24000000 then Some IMX662_INCK_SEL_24
  else None.

Definition INT_MAX : Z := 2 ^ 31 - 1.

Definition v4l2_ctrl_new_std (mn mx stp def : Z) (ro : bool) : v4l2_ctrl :=
  {| minimum := mn; maximum := mx; step := stp; default_value := def;
     val := def; cur_val := def; read_only := ro; grabbed := false |}.

(** An integer menu starts at index 0 and skips no entry. *)
Definition v4l2_ctrl_new_int_menu (mx def : Z) (ro : bool) : v4l2_ctrl :=
  {| minimum := 0; maximum := mx; step := 0; default_value := def;
     val := def; cur_val := def; read_only := ro; grabbed := false |}.

Definition imx662_probe_ctrls (mode : imx662_mode) (id : ctrl_id) : v4l2_ctrl :=
  match id with
  | V4L2_CID_ANALOGUE_GAIN => v4l2_ctrl_new_std 0 100 1 0 false
  | V4L2_CID_HBLANK =>
      v4l2_ctrl_new_std (u32 (hmax mode - width mode))
                        (u32 (IMX662_HMAX_MAX - width mode)) 1
                        (u32 (hmax mode - width mode)) false
  | V4L2_CID_VBLANK =>
      v4l2_ctrl_new_std (u32 (vmax mode - height mode))
                        (u32 (IMX662_VMAX_MAX - height mode)) 1
                        (u32 (vmax mode - height mode)) false
  | V4L2_CID_EXPOSURE =>
      v4l2_ctrl_new_std IMX662_EXPOSURE_MIN (u32 (vmax mode - 2))
                        IMX662_EXPOSURE_STEP (u32 (vmax mode - 2)) false
  | V4L2_CID_HFLIP => v4l2_ctrl_new_std 0 1 1 0 false
  | V4L2_CID_VFLIP => v4l2_ctrl_new_std 0 1 1 0 false
  (* imx662_link_freqs_num - 1: both frequency tables have one entry *)
  | V4L2_CID_LINK_FREQ => v4l2_ctrl_new_int_menu 0 0 true
  | V4L2_CID_PIXEL_RATE =>
      v4l2_ctrl_new_std 1 INT_MAX 1 imx662_calc_pixel_rate true
  end.

(** The context after the first [imx662_entity_init_cfg] and the creation of
    the controls. *)
Definition imx662_probe_ctrls_created (fmts : list imx662_pixfmt)
                                      (lanes inck : Z)
                                      (transport : fault_oracle)
                                      (pf : option positive) : imx662 :=
  let mode := v4l2_find_nearest_size imx662_modes 1936 1100 in
  let f := {| fmt_width := width mode; fmt_height := height mode;
              fmt_code := code (format_at fmts 0);
              fmt_field := V4L2_FIELD_NONE;
              fmt_colorspace := V4L2_COLORSPACE_RAW |} in
  {| regmap := transport; bus := []; pm_usage := 0;
     power_fault := pf; inck_sel := inck; nlanes := lanes;
     bpp := pixfmt_bpp (format_at fmts 0); formats := fmts;
     current_format := f;
     try_format := {| fmt_width := 0; fmt_height := 0;
                      fmt_code := 0; fmt_field := 0;
                      fmt_colorspace := 0 |};
     current_mode := mode;
     ctrls := imx662_probe_ctrls mode |}.

Definition imx662_probe_ctx (fmts : list imx662_pixfmt) (lanes inck : Z)
                            (transport : fault_oracle)
                            (pf : option positive) : imx662 :=
  snd (imx662_entity_init_cfg true
         (imx662_probe_ctrls_created fmts lanes inck transport pf)).

(** A transport on which every write succeeds. *)
Definition no_fault : fault_oracle := fun _ _ _ => None.

(** The colour sensor on four lanes with a 74.25 MHz clock, as probed. *)
Definition probed (transport : fault_oracle) : imx662 :=
  imx662_probe_ctx imx662_colour_formats 4 IMX662_INCK_SEL_74_25 transport None.

(** * Specification vocabulary *)

(** ** The intended write sequences

    A register group, as a list of (address, value) pairs, issued in order
    until the first write that fails. *)

Fixpoint write_all (ws : list (Z * Z)) : M Z :=
  match ws with
  | [] => Ret 0
  | w :: rest =>
      ret <- imx662_write_reg (fst w) (snd w) ;;
      if negb (ret =? 0) then Ret ret else write_all rest
  end.

(** The value bytes of a held group: byte [i] of the value, least significant
    first, at address [address_low + i]. *)
Definition buffered_bytes (address_low value : Z) (nr_regs : nat) : list (Z * Z) :=
  map (fun i => (u16 (address_low + Z.of_nat i),
                 u8 (Z.shiftr value (Z.of_nat i * 8))))
      (seq 0 nr_regs).

(** Hold marker, value bytes, release marker. *)
Definition buffered_sequence (address_low : Z) (nr_regs : nat) (value : Z)
  : list (Z * Z) :=
  (IMX662_REGHOLD, 0x01) :: buffered_bytes address_low value nr_regs
    ++ [(IMX662_REGHOLD, 0x00)].

(** The trace of a list of writes that all succeeded. *)
Definition ok_writes (ws : list (Z * Z)) : list bus_event :=
  map (fun w => RegWrite (fst w) (snd w) 0) ws.

Definition regvals (l : list imx662_regval) : list (Z * Z) :=
  map (fun s => (reg s, regval_val s)) l.

Definition fault_free (st : imx662) : Prop :=
  forall h a v, regmap st h a v = None.

(** ** Transports used in the examples *)

(** A transport that refuses every write to one register with [-EIO]. *)
Definition fails_at (a : Z) : fault_oracle :=
  fun _ addr _ => if addr =? a then Some 5%positive else None.

(** ** Frames: what a computation leaves untouched *)

(** Everything in the context except the bus trace, the PM usage counter and
    the controls. *)
Definition fixed_part (st : imx662) :=
  (regmap st, power_fault st, inck_sel st, nlanes st, bpp st, formats st,
   current_format st, try_format st, current_mode st).

(** [frame X st st']: going from [st] to [st'] changed nothing but the bus
    trace, the usage counter and the controls in [X]. *)
Definition frame (X : ctrl_id -> Prop) (st st' : imx662) : Prop :=
  fixed_part st' = fixed_part st /\
  forall id, ~ X id -> ctrls st' id = ctrls st id.

Definition none : ctrl_id -> Prop := fun _ => False.
Definition only (i : ctrl_id) : ctrl_id -> Prop := fun id => id = i.
Definition also (X : ctrl_id -> Prop) (i : ctrl_id) : ctrl_id -> Prop :=
  fun id => X id \/ id = i.

Definition preserves {A} (R : imx662 -> imx662 -> Prop) (m : M A) : Prop :=
  forall st, R st (snd (m st)).

(** Two snapshots of a control with the same range and flags. *)
Definition same_range (c c' : v4l2_ctrl) : Prop :=
  minimum c' = minimum c /\ maximum c' = maximum c /\ step c' = step c /\
  default_value c' = default_value c /\
  read_only c' = read_only c /\ grabbed c' = grabbed c.

(** The range of a control, as (minimum, maximum, step, default). *)
Definition range_of (c : v4l2_ctrl) : Z * Z * Z * Z :=
  (minimum c, maximum c, step c, default_value c).

(** The format index [imx662_set_fmt] settles on, and the format it hands
    back, for a requested media bus code. *)
Definition set_fmt_index (fmts : list imx662_pixfmt) (c : Z) : Z :=
  if IMX662_NUM_FORMATS <=? find_format_loop fmts c 0 then 0
  else find_format_loop fmts c 0.

Definition set_fmt_result (fmts : list imx662_pixfmt) (c : Z) : v4l2_mbus_framefmt :=
  {| fmt_width := width imx662_mode_1080p;
     fmt_height := height imx662_mode_1080p;
     fmt_code := code (format_at fmts (set_fmt_index fmts c));
     fmt_field := V4L2_FIELD_NONE;
     fmt_colorspace := V4L2_COLORSPACE_RAW |}.

(** ** States used in the examples *)

(** An active request for the catalog size with a given media bus code. *)
Definition active_fmt (c : Z) : v4l2_subdev_format :=
  {| which := V4L2_SUBDEV_FORMAT_ACTIVE;
     format := {| fmt_width := 1936; fmt_height := 1100; fmt_code := c;
                  fmt_field := 0; fmt_colorspace := 0 |} |}.

(** The probed colour sensor after a successful stream-on. *)
Definition streaming_state : imx662 :=
  snd (imx662_set_stream 1 (probed no_fault)).

(** A control change made through the framework's setter for 32-bit
    values. *)
Definition user_set_ctrl (id : ctrl_id) (v : Z) : M Z :=
  __v4l2_ctrl_s_ctrl imx662_set_ctrl id v.

(** A transport that starts refusing writes to one register once the bus
    trace is longer than [n] events. *)
Definition fails_at_after (n : nat) (a : Z) : fault_oracle :=
  fun h addr _ =>
    if (addr =? a) && (n <? length h)%nat then Some 5%positive else None.

Definition is_write_to (a : Z) (e : bus_event) : bool :=
  match e with
  | RegWrite addr _ _ => addr =? a
  | _ => false
  end.

(** A transport that refuses the first write to one register and accepts
    everything else. *)
Definition fails_first_write_to (a : Z) : fault_oracle :=
  fun h addr _ =>
    if (addr =? a) && negb (existsb (is_write_to a) h)
    then Some 5%positive else None.

Definition set_regmap (st : imx662) (t : fault_oracle) : imx662 :=
  {| regmap := t; bus := bus st; pm_usage := pm_usage st;
     power_fault := power_fault st; inck_sel := inck_sel st;
     nlanes := nlanes st; bpp := bpp st; formats := formats st;
     current_format := current_format st; try_format := try_format st;
     current_mode := current_mode st; ctrls := ctrls st |}.

(** ** Exposure *)


(** ** The exposure bound *)

(** The vertical-blank control is as [imx662_set_fmt] publishes it for the
    catalog mode and holds a value of its range. *)
Definition vblank_published (st : imx662) : Prop :=
  current_mode st = imx662_mode_1080p /\
  range_of (ctrls st V4L2_CID_VBLANK) =
    (vmax imx662_mode_1080p - height imx662_mode_1080p,
     IMX662_VMAX_MAX - height imx662_mode_1080p, 1,
     vmax imx662_mode_1080p - height imx662_mode_1080p) /\
  minimum (ctrls st V4L2_CID_VBLANK) <= cur_val (ctrls st V4L2_CID_VBLANK)
    <= maximum (ctrls st V4L2_CID_VBLANK).

(** The published exposure range starts at 1 and ends no higher than
    [mode.vmax + vertical_blank - 4]. *)
Definition exposure_bounded (st : imx662) : Prop :=
  minimum (ctrls st V4L2_CID_EXPOSURE) = IMX662_EXPOSURE_MIN /\
  maximum (ctrls st V4L2_CID_EXPOSURE)
    <= vmax (current_mode st) + cur_val (ctrls st V4L2_CID_VBLANK)
       - IMX662_EXPOSURE_OFFSET.

(** ** How the device context evolves

    [evolves st st']: going from [st] to [st'] kept the configuration, the
    mode and the formats, kept the PM usage counter, only added to the bus
    trace, and left the read-only and grabbed flags of every control. *)
Definition evolves (st st' : imx662) : Prop :=
  fixed_part st' = fixed_part st /\
  pm_usage st' = pm_usage st /\
  (exists t, bus st' = bus st ++ t) /\
  (forall id, read_only (ctrls st' id) = read_only (ctrls st id) /\
              grabbed (ctrls st' id) = grabbed (ctrls st id)).

(** A function on controls that keeps the flags. *)
Definition keeps_flags (f : v4l2_ctrl -> v4l2_ctrl) : Prop :=
  forall c, read_only (f c) = read_only c /\ grabbed (f c) = grabbed c.

(** The flags the controls get in [imx662_probe]: the link frequency and the
    pixel rate are read-only, the six tunables are not. *)
Definition writable (id : ctrl_id) : bool :=
  match id with
  | V4L2_CID_LINK_FREQ | V4L2_CID_PIXEL_RATE => false
  | _ => true
  end.

Definition flags_as_probed (st : imx662) : Prop :=
  forall id, read_only (ctrls st id) = negb (writable id).

(** The code written to ADBIT and MDBIT for a media bus code. *)
Definition ad_md_bit (c : Z) : option Z :=
  if (c =? MEDIA_BUS_FMT_SRGGB10_1X10) || (c =? MEDIA_BUS_FMT_Y10_1X10)
  then Some 0x00
  else if (c =? MEDIA_BUS_FMT_SRGGB12_1X12) || (c =? MEDIA_BUS_FMT_Y12_1X12)
  then Some 0x01
  else None.

(** The writes of [imx662_start_streaming] that precede the controls, and
    the events that follow them. *)
Definition start_prologue (st : imx662) (b : Z) : list bus_event :=
  ok_writes (regvals imx662_global_settings)
  ++ [Usleep 10000 11000]
  ++ ok_writes [ (IMX662_INCK_SEL, inck_sel st);
                 (IMX662_ADBIT, b); (IMX662_MDBIT, b) ]
  ++ ok_writes (regvals (mode_data (current_mode st)))
  ++ [Usleep 10000 11000]
  ++ ok_writes [ (IMX662_CSI_LANE_MODE, if nlanes st =? 2 then 0x01 else 0x03);
                 (IMX662_LANE_RATE, if nlanes st =? 2 then IMX662_LANE_RATE_1188
                                    else IMX662_LANE_RATE_594) ].

Definition start_epilogue : list bus_event :=
  [ RegWrite IMX662_STANDBY 0 0; Msleep 30; RegWrite IMX662_XMSTA 0 0 ].

(** A computation whose zero result means that the bus trace ends with the
    standby clear, the delay and the master start. *)
Definition ends_started (m : M Z) : Prop :=
  forall st, fst (m st) = 0 ->
             exists pre, bus (snd (m st)) = pre ++ start_epilogue.

(** ** Reading the format back, and enumeration *)

Definition imx662_get_fmt (w : v4l2_subdev_format_whence)
  : M (Z * v4l2_subdev_format) :=
  st <- gets (fun st => st) ;;
  let framefmt := match w with
                  | V4L2_SUBDEV_FORMAT_TRY => try_format st
                  | V4L2_SUBDEV_FORMAT_ACTIVE => current_format st
                  end in
  Ret (0, {| which := w; format := framefmt |}).

(** [imx662_enum_mbus_code]: the return value and the code stored for the
    caller ([None] when nothing is stored). *)
Definition imx662_enum_mbus_code (st : imx662) (index : Z) : Z * option Z :=
  if IMX662_NUM_FORMATS <=? index then (- EINVAL, None)
  else (0, Some (code (format_at (formats st) index))).

Definition IMX662_NUM_MODES : Z := Z.of_nat (length imx662_modes).

Record v4l2_frame_size := {
  min_width : Z; max_width : Z; min_height : Z; max_height : Z
}.

Definition mode_at (i : Z) : imx662_mode :=
  nth (Z.to_nat i) imx662_modes imx662_mode_1080p.

Definition imx662_enum_frame_size (st : imx662) (c index : Z)
  : Z * option v4l2_frame_size :=
  if negb (c =? code (format_at (formats st) 0))
     && negb (c =? code (format_at (formats st) 1))
  then (- EINVAL, None)
  else if IMX662_NUM_MODES <=? index then (- EINVAL, None)
  else (0, Some {| min_width := width (mode_at index);
                   max_width := width (mode_at index);
                   min_height := height (mode_at index);
                   max_height := height (mode_at index) |}).

(** ** Link frequencies *)

Definition imx662_link_freq_2lanes : list Z := [ 594000000 ].
Definition imx662_link_freq_4lanes : list Z := [ 297000000 ].

Definition imx662_link_freqs_ptr (lanes : Z) : list Z :=
  if lanes =? 2 then imx662_link_freq_2lanes else imx662_link_freq_4lanes.

Definition imx662_link_freqs_num (lanes : Z) : Z :=
  if lanes =? 2 then Z.of_nat (length imx662_link_freq_2lanes)
  else Z.of_nat (length imx662_link_freq_4lanes).

(** The inner loop of [imx662_check_link_freqs]: whether [f] occurs among
    the frequencies of the endpoint. *)
Fixpoint link_freq_listed (f : Z) (ep : list Z) : bool :=
  match ep with
  | [] => false
  | g :: rest => if f =? g then true else link_freq_listed f rest
  end.

(** The outer loop: the first frequency that the endpoint does not list,
    or 0. *)
Fixpoint check_link_freqs_loop (freqs ep : list Z) : Z :=
  match freqs with
  | [] => 0
  | f :: rest =>
      if link_freq_listed f ep then check_link_freqs_loop rest ep else f
  end.

Definition imx662_check_link_freqs (lanes : Z) (ep : list Z) : Z :=
  check_link_freqs_loop (imx662_link_freqs_ptr lanes) ep.

(** The first part of [imx662_probe], from the allocation of the context
    to the choice of the clock-select code.  What the platform answers to the
    calls made there is an input: whether the allocation and the register
    map succeed, the data of the matching device id, the endpoint node with
    the result of parsing it and what was parsed, the error of getting the
    clock, and the result and value of reading the clock frequency. *)

Record v4l2_fwnode_endpoint := {
  num_data_lanes : Z;
  link_frequencies : list Z
}.

Record probe_env := {
  kzalloc_ok : bool;
  regmap_init_ok : bool;
  of_match_data : option (list imx662_pixfmt);
  graph_endpoint : option (Z * v4l2_fwnode_endpoint);
  clk_get_error : option positive;
  clock_frequency : Z * Z
}.

(** The result is the error returned or what is kept in the context: the
    formats, the lane count and the clock-select code. *)
Definition imx662_probe_config (env : probe_env)
  : Z + (list imx662_pixfmt * Z * Z) :=
  if negb (kzalloc_ok env) then inl (- ENOMEM)
  else if negb (regmap_init_ok env) then inl (- ENODEV)
  else
    match of_match_data env with
    | None => inl (- ENODEV)
    | Some fmts =>
        match graph_endpoint env with
        | None => inl (- EINVAL)
        | Some (ret, ep) =>
            if negb (ret =? 0) then inl ret
            else
              (* Get number of data lanes *)
              let lanes := num_data_lanes ep in
              if negb (lanes =? 2) && negb (lanes =? 4) then inl (- EINVAL)
              else if Z.of_nat (length (link_frequencies ep)) =? 0
              then inl (- EINVAL)
              (* Check that link frequences for all the modes are in
                 device tree *)
              else if negb (imx662_check_link_freqs lanes
                              (link_frequencies ep) =? 0)
              then inl (- EINVAL)
              else
                (* get system clock (xclk) *)
                match clk_get_error env with
                | Some e => inl (- Z.pos e)
                | None =>
                    let (ret, xclk_freq) := clock_frequency env in
                    if negb (ret =? 0) then inl ret
                    else
                      (* external clock can be one of a range of values -
                         validate it *)
                      match inck_sel_of_xclk xclk_freq with
                      | None => inl (- EINVAL)
                      | Some inck => inr (fmts, lanes, inck)
                      end
                end
        end
    end.

(** ** Power sequencing

    The clock, the supplies and the reset line, with what was done to them.
    Whether enabling the clock or the supplies fails is up to the platform. *)

Inductive power_event :=
| ClkPrepareEnable (result : Z)
| ClkDisableUnprepare
| RegulatorBulkEnable (result : Z)
| RegulatorBulkDisable
| GpiodSetValue (value : Z)
| PowerSleep (min_us max_us : Z).

Record power_state := {
  xclk_enabled : bool;
  supplies_enabled : bool;
  rst_gpio : Z;
  power_trace : list power_event
}.

Definition imx662_power_on (clk_fault reg_fault : option positive)
                           (p : power_state) : Z * power_state :=
  let r1 := errno_result clk_fault in
  let p1 := {| xclk_enabled := if r1 =? 0 then true else xclk_enabled p;
               supplies_enabled := supplies_enabled p;
               rst_gpio := rst_gpio p;
               power_trace := power_trace p ++ [ClkPrepareEnable r1] |} in
  if negb (r1 =? 0) then (r1, p1)
  else
    let r2 := errno_result reg_fault in
    let p2 := {| xclk_enabled := xclk_enabled p1;
                 supplies_enabled := if r2 =? 0 then true
                                     else supplies_enabled p1;
                 rst_gpio := rst_gpio p1;
                 power_trace := power_trace p1 ++ [RegulatorBulkEnable r2] |} in
    if negb (r2 =? 0) then
      (r2, {| xclk_enabled := false;
              supplies_enabled := supplies_enabled p2;
              rst_gpio := rst_gpio p2;
              power_trace := power_trace p2 ++ [ClkDisableUnprepare] |})
    else
      (0, {| xclk_enabled := xclk_enabled p2;
             supplies_enabled := supplies_enabled p2;
             rst_gpio := 0;
             power_trace := power_trace p2
                            ++ [PowerSleep 1 2; GpiodSetValue 0;
                                PowerSleep 30000 31000] |}).

Definition imx662_power_off (p : power_state) : Z * power_state :=
  (0, {| xclk_enabled := false;
         supplies_enabled := false;
         rst_gpio := 1;
         power_trace := power_trace p
                        ++ [ClkDisableUnprepare; GpiodSetValue 1;
                            RegulatorBulkDisable] |}).

(** ** Decoding a held group *)


(** The platform resources of a device that is powered off. *)
Definition powered_off (p : power_state) : Prop :=
  xclk_enabled p = false /\ supplies_enabled p = false /\ rst_gpio p = 1.

(** ** Conditional guarantees of a computation

    [establishes Pre Post m]: started in a state satisfying [Pre], if [m]
    returns 0 then it ends in a state satisfying [Post]. *)
Definition establishes (Pre Post : imx662 -> Prop) (m : M Z) : Prop :=
  forall st, Pre st -> fst (m st) = 0 -> Post (snd (m st)).

(** The device is in use, its vertical-blank control is as published and the
    controls carry the flags of [imx662_probe]. *)
Definition ready_for_setup (st : imx662) : Prop :=
  0 < pm_usage st /\ vblank_published st /\ flags_as_probed st.

(** The published exposure range is the one [imx662_set_vmax] computes from
    the committed vertical blank. *)
Definition exposure_in_sync (st : imx662) : Prop :=
  range_of (ctrls st V4L2_CID_EXPOSURE) =
    (IMX662_EXPOSURE_MIN,
     height (current_mode st) + cur_val (ctrls st V4L2_CID_VBLANK)
       - IMX662_EXPOSURE_OFFSET,
     IMX662_EXPOSURE_STEP,
     height (current_mode st) + cur_val (ctrls st V4L2_CID_VBLANK)
       - IMX662_EXPOSURE_OFFSET).

(** [restaged st st']: going from [st] to [st'] kept the range and the
    committed value of every control; only staged values may differ. *)
Definition restaged (st st' : imx662) : Prop :=
  forall id, range_of (ctrls st' id) = range_of (ctrls st id) /\
             cur_val (ctrls st' id) = cur_val (ctrls st id).

Definition setup_pre (v : Z) (st : imx662) : Prop :=
  ready_for_setup st /\ cur_val (ctrls st V4L2_CID_VBLANK) = v.

Definition setup_post (v : Z) (st : imx662) : Prop :=
  exposure_in_sync st /\ cur_val (ctrls st V4L2_CID_VBLANK) = v.

(** A stopped device whose exposure range is stale: it streamed with the
    largest vertical blank, was stopped, and had the vertical blank set back
    to 150 while it was not powered. *)
Definition stale_exposure_state : imx662 :=
  snd (user_set_ctrl V4L2_CID_VBLANK 150
         (snd (imx662_set_stream 0
                 (snd (user_set_ctrl V4L2_CID_VBLANK 261043 streaming_state))))).

(** ** The operations of the subdevice *)

Inductive driver_op :=
| OpSetFmt (fmt : v4l2_subdev_format)
| OpSetCtrl (id : ctrl_id) (v : Z)
| OpSetStream (on : bool).

Definition run_op (o : driver_op) (st : imx662) : imx662 :=
  match o with
  | OpSetFmt fmt => snd (imx662_set_fmt fmt st)
  | OpSetCtrl id v => snd (user_set_ctrl id v st)
  | OpSetStream on => snd (imx662_set_stream (if on then 1 else 0) st)
  end.

Fixpoint run_ops (ops : list driver_op) (st : imx662) : imx662 :=
  match ops with
  | [] => st
  | o :: rest => run_ops rest (run_op o st)
  end.

Definition driver_invariant (st : imx662) : Prop :=
  vblank_published st /\ flags_as_probed st /\ 0 <= pm_usage st.

(** [keeps_pm_flags st st']: the usage counter and the read-only flags are
    the same in [st'] as in [st]. *)
Definition keeps_pm_flags (st st' : imx662) : Prop :=
  pm_usage st' = pm_usage st /\
  forall id, read_only (ctrls st' id) = read_only (ctrls st id).

(** [vblank_kept st st']: the mode, and the range and committed value of the
    vertical-blank control, are the same in [st'] as in [st]. *)
Definition vblank_kept (st st' : imx662) : Prop :=
  current_mode st' = current_mode st /\
  range_of (ctrls st' V4L2_CID_VBLANK) = range_of (ctrls st V4L2_CID_VBLANK) /\
  cur_val (ctrls st' V4L2_CID_VBLANK) = cur_val (ctrls st V4L2_CID_VBLANK).

(** ** Formats of a sensor variant *)

Definition variant_formats (fmts : list imx662_pixfmt) : Prop :=
  fmts = imx662_colour_formats \/ fmts = imx662_mono_formats.

(** The active format and the stored bit depth belong to the same entry of
    the variant's format list. *)
Definition format_consistent (st : imx662) : Prop :=
  variant_formats (formats st) /\
  exists i, (i = 0 \/ i = 1) /\
    fmt_code (current_format st) = code (format_at (formats st) i) /\
    bpp st = pixfmt_bpp (format_at (formats st) i).

(** ** Selection rectangles *)

Definition V4L2_SEL_TGT_CROP : Z := 0x0000.
Definition V4L2_SEL_TGT_CROP_DEFAULT : Z := 0x0001.
Definition V4L2_SEL_TGT_CROP_BOUNDS : Z := 0x0002.
Definition V4L2_SEL_TGT_NATIVE_SIZE : Z := 0x0003.

(** [try_crop] is the rectangle [v4l2_subdev_get_try_crop] finds in the
    subdevice state of the caller. *)
Definition __imx662_get_pad_crop (try_crop : v4l2_rect)
                                 (which : v4l2_subdev_format_whence)
  : M v4l2_rect :=
  match which with
  | V4L2_SUBDEV_FORMAT_TRY => Ret try_crop
  | V4L2_SUBDEV_FORMAT_ACTIVE => m <- gets current_mode ;; Ret (crop m)
  end.

(** [imx662_get_selection] on a selection whose rectangle is [r]: the result
    and the rectangle left in the selection. *)
Definition imx662_get_selection (try_crop : v4l2_rect)
                                (which : v4l2_subdev_format_whence)
                                (target : Z) (r : v4l2_rect)
  : M (Z * v4l2_rect) :=
  if target =? V4L2_SEL_TGT_CROP then
    c <- __imx662_get_pad_crop try_crop which ;;
    Ret (0, c)
  else if target =? V4L2_SEL_TGT_NATIVE_SIZE then
    Ret (0, {| left := 0; top := 0;
               rect_width := IMX662_NATIVE_WIDTH;
               rect_height := IMX662_NATIVE_HEIGHT |})
  else if (target =? V4L2_SEL_TGT_CROP_DEFAULT)
          || (target =? V4L2_SEL_TGT_CROP_BOUNDS) then
    Ret (0, {| left := IMX662_PIXEL_ARRAY_LEFT;
               top := IMX662_PIXEL_ARRAY_TOP;
               rect_width := IMX662_PIXEL_ARRAY_WIDTH;
               rect_height := IMX662_PIXEL_ARRAY_HEIGHT |})
  else Ret (- EINVAL, r).

(** Rectangle [a] lies inside rectangle [b]. *)
Definition rect_inside (a b : v4l2_rect) : Prop :=
  left b <= left a /\ top b <= top a /\
  left a + rect_width a <= left b + rect_width b /\
  top a + rect_height a <= top b + rect_height b.

(** The controls whose staged value is rounded into the range. *)
Definition integer_valued (id : ctrl_id) : Prop :=
  ctrl_type id = V4L2_CTRL_TYPE_INTEGER \/
  ctrl_type id = V4L2_CTRL_TYPE_INTEGER64.


(** * Properties *)

(** ** Basic facts about the sequencing *)

Lemma bind_unfold {A B} (m : M A) (k : A -> M B) st :
  bind m k st = k (fst (m st)) (snd (m st)).
Proof. unfold bind. destruct (m st); reflexivity. Qed.

Lemma errno_result_nonpos f : errno_result f <= 0.
Proof. destruct f; simpl; lia. Qed.

Lemma errno_result_fail f : errno_result f <> 0 ->
  exists e, f = Some e /\ errno_result f = - Z.pos e.
Proof. destruct f; simpl; intros H; [eauto | congruence]. Qed.

Lemma imx662_write_reg_eq addr value st :
  imx662_write_reg addr value st =
  (errno_result (regmap st (bus st) addr value),
   set_bus st (bus st ++ [RegWrite addr value
                            (errno_result (regmap st (bus st) addr value))])).
Proof.
  unfold imx662_write_reg. rewrite bind_unfold. unfold regmap_write. simpl.
  destruct (negb _); reflexivity.
Qed.

Lemma set_bus_set_bus st b1 b2 : set_bus (set_bus st b1) b2 = set_bus st b2.
Proof. reflexivity. Qed.

Lemma set_bus_same st : set_bus st (bus st) = st.
Proof. destruct st; reflexivity. Qed.

Lemma write_all_app ws1 ws2 st :
  write_all (ws1 ++ ws2) st =
  (ret <- write_all ws1 ;; if negb (ret =? 0) then Ret ret else write_all ws2) st.
Proof.
  revert st. induction ws1 as [|w ws1 IH]; intros st; simpl.
  - reflexivity.
  - rewrite !bind_unfold. simpl.
    destruct (negb (fst (imx662_write_reg (fst w) (snd w) st) =? 0)) eqn:E.
    + unfold Ret. simpl. rewrite E. reflexivity.
    + rewrite IH. rewrite !bind_unfold. reflexivity.
Qed.

(** What a group of writes leaves on the bus: either all of it, or its first
    [k] writes followed by the one the transport refused. *)
Lemma write_all_trace ws : forall st,
  let r := fst (write_all ws st) in
  let st' := snd (write_all ws st) in
  (r = 0 /\ st' = set_bus st (bus st ++ ok_writes ws))
  \/ (exists k w e,
        nth_error ws k = Some w /\ r = - Z.pos e /\
        regmap st (bus st ++ ok_writes (firstn k ws)) (fst w) (snd w) = Some e /\
        st' = set_bus st (bus st ++ ok_writes (firstn k ws)
                                 ++ [RegWrite (fst w) (snd w) (- Z.pos e)])).
Proof.
  induction ws as [|w ws IH]; intros st; simpl.
  - left. split; [reflexivity|]. unfold ok_writes; simpl.
    rewrite app_nil_r. symmetry; apply set_bus_same.
  - rewrite bind_unfold, imx662_write_reg_eq. simpl.
    destruct (errno_result (regmap st (bus st) (fst w) (snd w)) =? 0) eqn:E; simpl.
    + apply Z.eqb_eq in E. rewrite E.
      specialize (IH (set_bus st (bus st ++ [RegWrite (fst w) (snd w) 0]))).
      simpl in IH. destruct IH as [[Hr Hs] | (k & w' & e & Hn & Hr & Ho & Hs)].
      * left. split; [exact Hr|]. rewrite Hs. simpl.
        rewrite <- app_assoc. reflexivity.
      * right. exists (S k), w', e. split; [exact Hn|]. split; [exact Hr|].
        simpl. rewrite <- app_assoc in Ho. split; [exact Ho|].
        rewrite Hs. simpl. rewrite <- app_assoc. reflexivity.
    + apply Z.eqb_neq in E. destruct (errno_result_fail _ E) as (e & Ho & He).
      right. exists 0%nat, w, e. split; [reflexivity|]. split; [exact He|].
      simpl. rewrite app_nil_r. split; [exact Ho|].
      rewrite He. reflexivity.
Qed.

Lemma write_all_fault_free ws : forall st, fault_free st ->
  write_all ws st = (0, set_bus st (bus st ++ ok_writes ws)).
Proof.
  induction ws as [|w ws IH]; intros st Hff; simpl.
  - unfold Ret, ok_writes. simpl. rewrite app_nil_r, set_bus_same. reflexivity.
  - rewrite bind_unfold, imx662_write_reg_eq. simpl.
    rewrite Hff. simpl. rewrite IH by (intros h a v; apply Hff).
    simpl. rewrite <- app_assoc. reflexivity.
Qed.

(** The loop of [imx662_write_buffered_reg] issues the value bytes. *)
Lemma imx662_write_buffered_loop_eq address_low value n : forall i st,
  imx662_write_buffered_loop address_low value (Z.of_nat i) n st =
  write_all (map (fun j => (u16 (address_low + Z.of_nat j),
                            u8 (Z.shiftr value (Z.of_nat j * 8))))
                 (seq i n)) st.
Proof.
  induction n as [|n IH]; intros i st; simpl.
  - reflexivity.
  - rewrite !bind_unfold.
    destruct (negb (fst (imx662_write_reg _ _ st) =? 0)); [reflexivity|].
    replace (Z.of_nat i + 1) with (Z.of_nat (S i)) by lia.
    apply IH.
Qed.

Lemma imx662_write_buffered_reg_eq address_low nr_regs value st :
  imx662_write_buffered_reg address_low nr_regs value st =
  write_all (buffered_sequence address_low nr_regs value) st.
Proof.
  unfold imx662_write_buffered_reg, buffered_sequence.
  change ((IMX662_REGHOLD, 1) :: buffered_bytes address_low value nr_regs
            ++ [(IMX662_REGHOLD, 0)])
    with ([(IMX662_REGHOLD, 1)] ++ buffered_bytes address_low value nr_regs
            ++ [(IMX662_REGHOLD, 0)]).
  rewrite write_all_app. simpl. rewrite !bind_unfold. simpl.
  destruct (imx662_write_reg IMX662_REGHOLD 1 st) as [r st1]. simpl.
  destruct (Z.eqb_spec r 0) as [Hr|Hr]; simpl.
  - rewrite write_all_app, !bind_unfold.
    unfold buffered_bytes.
    rewrite <- (imx662_write_buffered_loop_eq address_low value nr_regs 0).
    simpl.
    destruct (imx662_write_buffered_loop address_low value 0 nr_regs st1)
      as [r2 st2].
    simpl. destruct (Z.eqb_spec r2 0) as [Hr2|Hr2]; simpl; [|reflexivity].
    rewrite !bind_unfold.
    destruct (imx662_write_reg IMX662_REGHOLD 0 st2) as [r3 st3]. simpl.
    destruct (Z.eqb_spec r3 0) as [Hr3|Hr3]; simpl; subst; reflexivity.
  - unfold Ret. simpl. destruct (Z.eqb_spec r 0); [contradiction|reflexivity].
Qed.

Lemma imx662_set_gain_eq value st :
  imx662_set_gain value st =
  write_all (buffered_sequence IMX662_GAIN 2 value
               ++ [(IMX662_FR_FDG_SEL0, IMX662_FDG_SEL0_LCG)]) st.
Proof.
  unfold imx662_set_gain. rewrite write_all_app, !bind_unfold.
  rewrite imx662_write_buffered_reg_eq.
  destruct (write_all (buffered_sequence IMX662_GAIN 2 value) st) as [r st1].
  simpl. destruct (Z.eqb_spec r 0) as [Hr|Hr]; simpl; [|reflexivity].
  rewrite bind_unfold.
  destruct (value <? 34);
    destruct (imx662_write_reg IMX662_FR_FDG_SEL0 IMX662_FDG_SEL0_LCG st1)
      as [r2 st2];
    simpl; destruct (Z.eqb_spec r2 0); subst; reflexivity.
Qed.

(** ** Held group writes *)

(** C3 (amended): [imx662_write_buffered_reg] issues the hold marker, then the
    value bytes least significant first at consecutive addresses from
    [address_low], then the release marker, in that order.  It stops at the
    first write the transport refuses, whichever it is: the trace is then the
    first [k] writes of that sequence followed by the refused one, whose error
    is returned, so the release marker (the last write of the sequence) is
    issued only when the hold write and every value write succeeded. *)
Theorem write_buffered_reg_stops_at_first_fault address_low nr_regs value st :
  let r := fst (imx662_write_buffered_reg address_low nr_regs value st) in
  let st' := snd (imx662_write_buffered_reg address_low nr_regs value st) in
  let ws := (IMX662_REGHOLD, 1)
              :: buffered_bytes address_low value nr_regs
              ++ [(IMX662_REGHOLD, 0)] in
  (r = 0 /\ st' = set_bus st (bus st ++ ok_writes ws))
  \/ (exists k w e,
        nth_error ws k = Some w /\ r = - Z.pos e /\
        regmap st (bus st ++ ok_writes (firstn k ws)) (fst w) (snd w) = Some e /\
        st' = set_bus st (bus st ++ ok_writes (firstn k ws)
                                 ++ [RegWrite (fst w) (snd w) (- Z.pos e)])).
Proof.
  simpl. rewrite imx662_write_buffered_reg_eq.
  apply (write_all_trace (buffered_sequence address_low nr_regs value) st).
Qed.

(** C3, as stated, fails: when the first value byte of the exposure group is
    refused, the hold marker has been written, the call returns the error,
    and no release marker is ever issued. *)
Lemma write_buffered_reg_no_release_after_value_fault :
  let st := probed (fails_at IMX662_EXPOSURE) in
  let res := imx662_write_buffered_reg IMX662_EXPOSURE 3 0x010203 st in
  fst res = -5 /\
  bus (snd res) = [RegWrite IMX662_REGHOLD 1 0; RegWrite IMX662_EXPOSURE 3 (-5)] /\
  ~ (exists r, In (RegWrite IMX662_REGHOLD 0 r) (bus (snd res))).
Proof.
  vm_compute. split; [reflexivity|]. split; [reflexivity|].
  intros [r [H|[H|[]]]]; discriminate H.
Qed.

(** ** Stopping the stream *)

(** C2 (amended): [imx662_stop_streaming] writes the standby register first.
    If that write is refused the call returns its error at once, with no
    delay and no write to the master-start register; otherwise it waits 30 ms
    and writes the stop bit, returning the result of that second write. *)
Theorem stop_streaming_sequence st :
  imx662_stop_streaming st =
  match regmap st (bus st) IMX662_STANDBY 1 with
  | Some e =>
      (- Z.pos e,
       set_bus st (bus st ++ [RegWrite IMX662_STANDBY 1 (- Z.pos e)]))
  | None =>
      let r := errno_result
                 (regmap st (bus st ++ [RegWrite IMX662_STANDBY 1 0; Msleep 30])
                         IMX662_XMSTA 1) in
      (r, set_bus st (bus st ++ [RegWrite IMX662_STANDBY 1 0; Msleep 30;
                                 RegWrite IMX662_XMSTA 1 r]))
  end.
Proof.
  unfold imx662_stop_streaming. rewrite bind_unfold, imx662_write_reg_eq. simpl.
  destruct (regmap st (bus st) IMX662_STANDBY 1) as [e|]; simpl.
  - reflexivity.
  - rewrite bind_unfold. unfold msleep, modify. simpl.
    rewrite imx662_write_reg_eq. simpl.
    rewrite <- !app_assoc. reflexivity.
Qed.

(** C2, as stated, fails: when the standby write is refused, the stop-bit
    write to the master-start register is not issued. *)
Lemma stop_streaming_skips_xmsta_after_standby_fault :
  let st := probed (fails_at IMX662_STANDBY) in
  let res := imx662_stop_streaming st in
  fst res = -5 /\
  bus (snd res) = [RegWrite IMX662_STANDBY 1 (-5)] /\
  ~ (exists v r, In (RegWrite IMX662_XMSTA v r) (bus (snd res))).
Proof.
  vm_compute. split; [reflexivity|]. split; [reflexivity|].
  intros [v [r [H|[]]]]. discriminate H.
Qed.

(** C10: a stream-off request through [imx662_set_stream] runs the stop
    sequence and returns 0 whatever that sequence returned. *)
Theorem set_stream_off_returns_zero st :
  fst (imx662_set_stream 0 st) = 0 /\
  bus (snd (imx662_set_stream 0 st)) = bus (snd (imx662_stop_streaming st)).
Proof.
  unfold imx662_set_stream. simpl. rewrite !bind_unfold.
  destruct (imx662_stop_streaming st) as [r st1]. simpl. split; reflexivity.
Qed.

Example set_stream_off_hides_standby_fault :
  let st := probed (fails_at IMX662_STANDBY) in
  fst (imx662_stop_streaming st) = -5 /\ fst (imx662_set_stream 0 st) = 0.
Proof. vm_compute. split; reflexivity. Qed.

Example set_stream_off_hides_xmsta_fault :
  let st := probed (fails_at IMX662_XMSTA) in
  fst (imx662_stop_streaming st) = -5 /\ fst (imx662_set_stream 0 st) = 0.
Proof. vm_compute. split; reflexivity. Qed.

(** ** Gain *)

(** C9: on a transport that accepts every write, setting the gain to any
    value [v] issues the held two-byte group at the gain register and then
    writes the low-conversion-gain code to FR_FDG_SEL0; the comparison of [v]
    with 0x22 has no effect on what is written. *)
Theorem set_gain_always_selects_lcg st v :
  fault_free st ->
  imx662_set_gain v st =
  (0, set_bus st (bus st ++
        [ RegWrite IMX662_REGHOLD 1 0;
          RegWrite IMX662_GAIN (u8 v) 0;
          RegWrite (IMX662_GAIN + 1) (u8 (Z.shiftr v 8)) 0;
          RegWrite IMX662_REGHOLD 0 0;
          RegWrite IMX662_FR_FDG_SEL0 IMX662_FDG_SEL0_LCG 0 ])).
Proof.
  intros Hff. rewrite imx662_set_gain_eq, write_all_fault_free by exact Hff.
  reflexivity.
Qed.

Lemma set_gain_always_selects_lcg_witness :
  let st := probed no_fault in
  fault_free st /\
  bus (snd (imx662_set_gain 0x10 st)) =
    [ RegWrite 0x3001 1 0; RegWrite 0x3070 0x10 0; RegWrite 0x3071 0 0;
      RegWrite 0x3001 0 0; RegWrite 0x3030 0 0 ] /\
  bus (snd (imx662_set_gain 0x140 st)) =
    [ RegWrite 0x3001 1 0; RegWrite 0x3070 0x40 0; RegWrite 0x3071 1 0;
      RegWrite 0x3001 0 0; RegWrite 0x3030 0 0 ].
Proof.
  assert (Hff : fault_free (probed no_fault)) by (intros h a v; reflexivity).
  split; [exact Hff|].
  split.
  - rewrite (set_gain_always_selects_lcg (probed no_fault) 0x10 Hff).
    reflexivity.
  - rewrite (set_gain_always_selects_lcg (probed no_fault) 0x140 Hff).
    reflexivity.
Defined.

(** ** Frames *)

Lemma frame_refl X st : frame X st st.
Proof. split; reflexivity. Qed.

Lemma frame_trans X st1 st2 st3 :
  frame X st1 st2 -> frame X st2 st3 -> frame X st1 st3.
Proof.
  intros [H1 H2] [H3 H4]. split.
  - congruence.
  - intros id Hid. rewrite H4, H2 by exact Hid. reflexivity.
Qed.

Lemma frame_weaken (X Y : ctrl_id -> Prop) st st' :
  (forall id, X id -> Y id) -> frame X st st' -> frame Y st st'.
Proof.
  intros HXY [H1 H2]. split; [exact H1|].
  intros id Hid. apply H2. intros HX. apply Hid, HXY, HX.
Qed.

Lemma preserves_ret {A} X (a : A) : preserves (frame X) (Ret a).
Proof. intros st. apply frame_refl. Qed.

Lemma preserves_bind {A B} X (m : M A) (k : A -> M B) :
  preserves (frame X) m -> (forall a, preserves (frame X) (k a)) ->
  preserves (frame X) (bind m k).
Proof.
  intros Hm Hk st. rewrite bind_unfold.
  eapply frame_trans; [apply Hm | apply Hk].
Qed.

Lemma preserves_weaken {A} (X Y : ctrl_id -> Prop) (m : M A) :
  (forall id, X id -> Y id) -> preserves (frame X) m -> preserves (frame Y) m.
Proof. intros HXY Hm st. eapply frame_weaken; [exact HXY | apply Hm]. Qed.

Lemma preserves_gets {A} X (f : imx662 -> A) : preserves (frame X) (gets f).
Proof. intros st. apply frame_refl. Qed.

Lemma preserves_write_reg X a v : preserves (frame X) (imx662_write_reg a v).
Proof. intros st. rewrite imx662_write_reg_eq. split; reflexivity. Qed.

Lemma preserves_write_all X ws : preserves (frame X) (write_all ws).
Proof.
  induction ws as [|w ws IH]; simpl.
  - apply preserves_ret.
  - apply preserves_bind; [apply preserves_write_reg|].
    intros r. destruct (negb (r =? 0)); [apply preserves_ret | exact IH].
Qed.

Lemma preserves_write_buffered_reg X a n v :
  preserves (frame X) (imx662_write_buffered_reg a n v).
Proof.
  intros st. rewrite imx662_write_buffered_reg_eq. apply preserves_write_all.
Qed.

Lemma preserves_sleep X ms : preserves (frame X) (msleep ms).
Proof. intros st. split; reflexivity. Qed.

Lemma preserves_usleep X lo hi : preserves (frame X) (usleep_range lo hi).
Proof. intros st. split; reflexivity. Qed.

Lemma preserves_pm_get X : preserves (frame X) pm_runtime_get_if_in_use.
Proof.
  intros st. unfold pm_runtime_get_if_in_use.
  destruct (0 <? pm_usage st); split; reflexivity.
Qed.

Lemma preserves_pm_put X : preserves (frame X) pm_runtime_put.
Proof. intros st. split; reflexivity. Qed.

Lemma preserves_pm_resume X : preserves (frame X) pm_runtime_resume_and_get.
Proof.
  intros st. unfold pm_runtime_resume_and_get.
  destruct (power_fault st); split; reflexivity.
Qed.

Lemma preserves_set_gain X v : preserves (frame X) (imx662_set_gain v).
Proof. intros st. rewrite imx662_set_gain_eq. apply preserves_write_all. Qed.

Lemma preserves_set_exposure X v : preserves (frame X) (imx662_set_exposure v).
Proof.
  unfold imx662_set_exposure.
  apply preserves_bind; [apply preserves_gets|]. intros m.
  apply preserves_bind; [apply preserves_gets|]. intros c.
  apply preserves_write_buffered_reg.
Qed.

Lemma preserves_set_hmax X v : preserves (frame X) (imx662_set_hmax v).
Proof.
  unfold imx662_set_hmax.
  apply preserves_bind; [apply preserves_gets|]. intros m.
  apply preserves_write_buffered_reg.
Qed.

Lemma preserves_set_ctrl_with X (f : Z -> M Z) id :
  (forall v, preserves (frame X) (f v)) ->
  preserves (frame X) (imx662_set_ctrl_with f id).
Proof.
  intros Hf. unfold imx662_set_ctrl_with.
  apply preserves_bind; [apply preserves_pm_get|]. intros u.
  destruct (u =? 0); [apply preserves_ret|].
  apply preserves_bind; [apply preserves_gets|]. intros c.
  apply preserves_bind.
  - destruct id; auto using preserves_set_gain, preserves_set_exposure,
      preserves_set_hmax, preserves_write_reg, preserves_ret.
  - intros r. apply preserves_bind; [apply preserves_pm_put|].
    intros _. apply preserves_ret.
Qed.

Lemma preserves_set_ctrl_nested X id :
  preserves (frame X) (imx662_set_ctrl_nested id).
Proof.
  apply preserves_set_ctrl_with. intros v. apply preserves_ret.
Qed.

(** ** The control framework *)

Lemma ctrl_id_eqb_spec a b : reflect (a = b) (ctrl_id_eqb a b).
Proof. destruct a, b; simpl; constructor; congruence. Qed.

Lemma ctrl_id_eqb_refl a : ctrl_id_eqb a a = true.
Proof. destruct a; reflexivity. Qed.

Lemma ctrl_id_eqb_neq a b : a <> b -> ctrl_id_eqb a b = false.
Proof. intros H. destruct (ctrl_id_eqb_spec a b); [contradiction|reflexivity]. Qed.

Lemma ctrls_upd_same st id c : ctrls (upd_ctrl st id c) id = c.
Proof. simpl. rewrite ctrl_id_eqb_refl. reflexivity. Qed.

Lemma ctrls_upd_other st id c id' :
  id' <> id -> ctrls (upd_ctrl st id c) id' = ctrls st id'.
Proof. intros H. simpl. rewrite ctrl_id_eqb_neq by exact H. reflexivity. Qed.

Lemma frame_upd X st id c : frame (also X id) st (upd_ctrl st id c).
Proof.
  split; [reflexivity|]. intros id' H. apply ctrls_upd_other.
  intros ->. apply H. right. reflexivity.
Qed.

Lemma same_range_refl c : same_range c c.
Proof. repeat split. Qed.

Lemma same_range_trans c1 c2 c3 :
  same_range c1 c2 -> same_range c2 c3 -> same_range c1 c3.
Proof. unfold same_range. intuition congruence. Qed.

Lemma modify_ctrl_eq id f st :
  modify_ctrl id f st = (tt, upd_ctrl st id (f (ctrls st id))).
Proof. reflexivity. Qed.

Lemma get_ctrl_eq id st : get_ctrl id st = (ctrls st id, st).
Proof. reflexivity. Qed.

Lemma gets_eq {A} (f : imx662 -> A) st : gets f st = (f st, st).
Proof. reflexivity. Qed.

Lemma modify_eq f st : modify f st = (tt, f st).
Proof. reflexivity. Qed.

Lemma Ret_eq {A} (a : A) st : Ret a st = (a, st).
Proof. reflexivity. Qed.

Lemma validate_new_integer id st :
  integer_valued id ->
  validate_new id st = (0, upd_ctrl st id (round_to_range (ctrls st id))).
Proof.
  intros H. unfold validate_new. rewrite bind_unfold, get_ctrl_eq.
  cbn [fst snd]. destruct H as [H|H]; rewrite H; reflexivity.
Qed.

(** Validation touches nothing but the staged value of the control. *)
Lemma validate_new_keeps id st :
  let st' := snd (validate_new id st) in
  frame (also none id) st st' /\
  same_range (ctrls st id) (ctrls st' id) /\
  cur_val (ctrls st' id) = cur_val (ctrls st id).
Proof.
  cbv zeta. unfold validate_new. rewrite bind_unfold, get_ctrl_eq.
  cbn [fst snd].
  destruct (ctrl_type id).
  - rewrite bind_unfold, modify_ctrl_eq, Ret_eq. cbn [fst snd].
    rewrite ctrls_upd_same. split; [apply frame_upd|].
    split; [repeat split | reflexivity].
  - rewrite bind_unfold, modify_ctrl_eq, Ret_eq. cbn [fst snd].
    rewrite ctrls_upd_same. split; [apply frame_upd|].
    split; [repeat split | reflexivity].
  - destruct (_ || _);
      [|destruct (_ && _)]; rewrite Ret_eq; cbn [snd];
      (split; [apply frame_refl|]; split; [repeat split | reflexivity]).
  - rewrite bind_unfold, modify_ctrl_eq, Ret_eq. cbn [fst snd].
    rewrite ctrls_upd_same. split; [apply frame_upd|].
    split; [repeat split | reflexivity].
Qed.

(** [set_ctrl] on control [id], with a driver callback that leaves [id]
    alone: the range and flags of [id] stay, its staged value is the
    validated one, and it is committed exactly when the call returns 0. *)
Lemma set_ctrl_any X cb id st :
  preserves (frame X) (cb id) -> ~ X id ->
  let r := fst (set_ctrl cb id st) in
  let st' := snd (set_ctrl cb id st) in
  let c := ctrls st id in
  let cv := ctrls (snd (validate_new id st)) id in
  let c' := ctrls st' id in
  frame (also X id) st st' /\
  same_range c c' /\
  val c' = val cv /\
  (cur_val c' = cur_val c \/ cur_val c' = val c') /\
  (r = 0 -> cur_val c' = val c').
Proof.
  intros Hcb HX. cbv zeta. unfold set_ctrl. rewrite bind_unfold.
  destruct (validate_new_keeps id st) as (F0 & S1 & K1).
  set (st1 := snd (validate_new id st)) in *.
  set (cv := ctrls st1 id) in *.
  assert (F1 : frame (also X id) st st1).
  { eapply frame_weaken; [|exact F0]. intros i [[]|Hi]. right. exact Hi. }
  destruct (Z.eqb_spec (fst (validate_new id st)) 0) as [E0|E0]; cbn [negb].
  2:{ rewrite Ret_eq. cbn [fst snd]. fold cv.
      split; [exact F1|]. split; [exact S1|].
      split; [reflexivity|]. split; [left; exact K1|].
      intros H. contradiction. }
  rewrite bind_unfold, get_ctrl_eq. cbn [fst snd]. fold cv.
  destruct (grabbed cv) eqn:G.
  { rewrite Ret_eq. cbn [fst snd]. fold cv.
    split; [exact F1|]. split; [exact S1|].
    split; [reflexivity|]. split; [left; exact K1|]. discriminate. }
  destruct (Z.eqb_spec (val cv) (cur_val cv)) as [E|E].
  { rewrite Ret_eq. cbn [fst snd]. fold cv.
    split; [exact F1|]. split; [exact S1|].
    split; [reflexivity|]. split; [left; exact K1|].
    intros _. symmetry. exact E. }
  rewrite bind_unfold.
  pose proof (Hcb st1) as F2.
  assert (C2 : ctrls (snd (cb id st1)) id = cv).
  { destruct F2 as [_ F2]. rewrite F2 by exact HX. reflexivity. }
  assert (F12 : frame (also X id) st (snd (cb id st1))).
  { eapply frame_trans; [exact F1|].
    eapply frame_weaken; [|exact F2]. intros i Hi. left. exact Hi. }
  destruct (Z.eqb_spec (fst (cb id st1)) 0) as [R|R]; cbn [negb].
  - rewrite bind_unfold, modify_ctrl_eq, Ret_eq. cbn [fst snd].
    rewrite ctrls_upd_same, C2.
    split.
    { eapply frame_trans; [exact F12|]. apply frame_upd. }
    split; [exact S1|]. split; [reflexivity|].
    split; [right; reflexivity|]. reflexivity.
  - rewrite Ret_eq. cbn [fst snd]. rewrite C2.
    split; [exact F12|]. split; [exact S1|].
    split; [reflexivity|]. split; [left; exact K1|].
    intros H. contradiction.
Qed.

(** For an integer control the validated value is the staged one clamped
    into the range. *)
Lemma set_ctrl_spec X cb id st :
  integer_valued id ->
  preserves (frame X) (cb id) -> ~ X id ->
  let r := fst (set_ctrl cb id st) in
  let st' := snd (set_ctrl cb id st) in
  let c := ctrls st id in
  let c' := ctrls st' id in
  frame (also X id) st st' /\
  same_range c c' /\
  val c' = clamp (minimum c) (maximum c) (val c) /\
  (cur_val c' = cur_val c \/ cur_val c' = val c') /\
  (r = 0 -> cur_val c' = val c').
Proof.
  intros Hi Hcb HX.
  destruct (set_ctrl_any X cb id st Hcb HX) as (F & S & V & C & R).
  rewrite (validate_new_integer id st Hi) in V. cbn [snd] in V.
  rewrite ctrls_upd_same in V.
  split; [exact F|]. split; [exact S|]. split; [exact V|].
  split; [exact C | exact R].
Qed.

Lemma clamp_idem lo hi v : lo <= hi -> clamp lo hi (clamp lo hi v) = clamp lo hi v.
Proof. unfold clamp. lia. Qed.

Lemma clamp_range lo hi v : lo <= hi -> lo <= clamp lo hi v <= hi.
Proof. unfold clamp. lia. Qed.

Lemma clamp_id lo hi v : lo <= v <= hi -> clamp lo hi v = v.
Proof. unfold clamp. lia. Qed.

Lemma is_int_integer id :
  ctrl_type id = V4L2_CTRL_TYPE_INTEGER -> is_int id = true.
Proof. intros H. unfold is_int. rewrite H. reflexivity. Qed.

Lemma s_ctrl_eq cb id v st :
  is_int id = true ->
  __v4l2_ctrl_s_ctrl cb id v st =
  set_ctrl cb id (upd_ctrl st id (with_val (ctrls st id) v)).
Proof.
  intros H. unfold __v4l2_ctrl_s_ctrl. rewrite H. cbn [negb].
  rewrite bind_unfold, modify_ctrl_eq. reflexivity.
Qed.

(** On an integer control, [set_ctrl] clamps the staged value and goes
    on. *)
Lemma set_ctrl_integer_eq cb id st :
  integer_valued id ->
  set_ctrl cb id st =
  (modify_ctrl id round_to_range ;;;
   c <- get_ctrl id ;;
   if grabbed c then Ret (- EBUSY)
   else if val c =? cur_val c then Ret 0
   else
     ret <- cb id ;;
     if negb (ret =? 0) then Ret ret
     else
       modify_ctrl id new_to_cur ;;;
       Ret 0) st.
Proof.
  intros H. unfold set_ctrl.
  rewrite bind_unfold, (validate_new_integer id st H). cbn [fst snd Z.eqb negb].
  rewrite (bind_unfold (modify_ctrl id round_to_range)), modify_ctrl_eq.
  reflexivity.
Qed.

(** The setter for 32-bit values refuses a 64-bit control and changes
    nothing. *)
Lemma s_ctrl_not_int cb id v st :
  is_int id = false -> __v4l2_ctrl_s_ctrl cb id v st = (- EINVAL, st).
Proof. intros H. unfold __v4l2_ctrl_s_ctrl. rewrite H. reflexivity. Qed.

(** [__v4l2_ctrl_s_ctrl] on any control: only that control and those the
    callback may touch change, its range and flags stay, and it is
    committed exactly when the call returns 0. *)
Lemma s_ctrl_any X cb id v st :
  preserves (frame X) (cb id) -> ~ X id ->
  let r := fst (__v4l2_ctrl_s_ctrl cb id v st) in
  let st' := snd (__v4l2_ctrl_s_ctrl cb id v st) in
  let c := ctrls st id in
  let c' := ctrls st' id in
  frame (also X id) st st' /\
  same_range c c' /\
  (cur_val c' = cur_val c \/ cur_val c' = val c') /\
  (r = 0 -> cur_val c' = val c').
Proof.
  intros Hcb HX. cbv zeta. destruct (is_int id) eqn:Hi.
  - rewrite (s_ctrl_eq cb id v st Hi).
    set (st0 := upd_ctrl st id (with_val (ctrls st id) v)).
    destruct (set_ctrl_any X cb id st0 Hcb HX) as (F & S & _ & C & R).
    unfold st0 in S, C. rewrite ctrls_upd_same in S, C. fold st0 in S, C.
    split; [eapply frame_trans; [apply frame_upd | exact F]|].
    split; [exact S|]. split; [exact C | exact R].
  - rewrite (s_ctrl_not_int cb id v st Hi). cbn [fst snd].
    split; [apply frame_refl|]. split; [apply same_range_refl|].
    split; [left; reflexivity|]. discriminate.
Qed.

Lemma s_ctrl_spec X cb id v st :
  ctrl_type id = V4L2_CTRL_TYPE_INTEGER ->
  preserves (frame X) (cb id) -> ~ X id ->
  let r := fst (__v4l2_ctrl_s_ctrl cb id v st) in
  let st' := snd (__v4l2_ctrl_s_ctrl cb id v st) in
  let c := ctrls st id in
  let c' := ctrls st' id in
  frame (also X id) st st' /\
  same_range c c' /\
  val c' = clamp (minimum c) (maximum c) v /\
  (cur_val c' = cur_val c \/ cur_val c' = val c') /\
  (r = 0 -> cur_val c' = val c').
Proof.
  intros Ht Hcb HX. cbv zeta.
  rewrite (s_ctrl_eq cb id v st (is_int_integer id Ht)).
  set (st0 := upd_ctrl st id (with_val (ctrls st id) v)).
  destruct (set_ctrl_spec X cb id st0 (or_introl Ht) Hcb HX)
    as (F & S & V & C & R).
  unfold st0 in S, V, C. rewrite ctrls_upd_same in S, V, C.
  fold st0 in S, V, C.
  split.
  { eapply frame_trans; [apply frame_upd | exact F]. }
  split; [exact S|]. split; [exact V|]. split; [exact C | exact R].
Qed.

(** The setter for 64-bit values, on the 64-bit control. *)
Lemma s_ctrl_int64_spec X cb id v st :
  ctrl_type id = V4L2_CTRL_TYPE_INTEGER64 ->
  preserves (frame X) (cb id) -> ~ X id ->
  let r := fst (__v4l2_ctrl_s_ctrl_int64 cb id v st) in
  let st' := snd (__v4l2_ctrl_s_ctrl_int64 cb id v st) in
  let c := ctrls st id in
  let c' := ctrls st' id in
  frame (also X id) st st' /\
  same_range c c' /\
  val c' = clamp (minimum c) (maximum c) v /\
  (cur_val c' = cur_val c \/ cur_val c' = val c') /\
  (r = 0 -> cur_val c' = val c').
Proof.
  intros Ht Hcb HX. cbv zeta. unfold __v4l2_ctrl_s_ctrl_int64, is_int.
  rewrite Ht. rewrite bind_unfold, modify_ctrl_eq. cbn [fst snd].
  set (st0 := upd_ctrl st id (with_val (ctrls st id) v)).
  destruct (set_ctrl_spec X cb id st0 (or_intror Ht) Hcb HX)
    as (F & S & V & C & R).
  unfold st0 in S, V, C. rewrite ctrls_upd_same in S, V, C.
  fold st0 in S, V, C.
  split.
  { eapply frame_trans; [apply frame_upd | exact F]. }
  split; [exact S|]. split; [exact V|]. split; [exact C | exact R].
Qed.

Lemma check_range_ok mn mx stp def :
  check_range V4L2_CTRL_TYPE_INTEGER mn mx stp def = 0 ->
  stp <> 0 /\ mn <= def <= mx.
Proof.
  unfold check_range.
  destruct (Z.eqb_spec stp 0); simpl; [discriminate|].
  destruct (Z.ltb_spec mx mn); simpl; [discriminate|].
  destruct (Z.ltb_spec def mn); simpl; [discriminate|].
  destruct (Z.ltb_spec mx def); simpl; [discriminate|].
  intros _. split; [assumption | lia].
Qed.

Lemma check_range_pass mn mx stp def :
  stp <> 0 -> mn <= def <= mx ->
  check_range V4L2_CTRL_TYPE_INTEGER mn mx stp def = 0.
Proof.
  intros Hs Hd. unfold check_range.
  destruct (Z.eqb_spec stp 0); [contradiction|].
  destruct (Z.ltb_spec mx mn); [lia|].
  destruct (Z.ltb_spec def mn); [lia|].
  destruct (Z.ltb_spec mx def); [lia|]. reflexivity.
Qed.

(** [__v4l2_ctrl_modify_range] on an integer control with an acceptable
    range: the control gets that range, and its current value is clamped
    into it (and committed, when the driver accepts the clamped value). *)
Lemma modify_range_spec X cb id mn mx stp def st :
  ctrl_type id = V4L2_CTRL_TYPE_INTEGER ->
  preserves (frame X) (cb id) -> ~ X id ->
  check_range V4L2_CTRL_TYPE_INTEGER mn mx stp def = 0 ->
  let st' := snd (__v4l2_ctrl_modify_range cb id mn mx stp def st) in
  let c := ctrls st id in
  let c' := ctrls st' id in
  frame (also X id) st st' /\
  range_of c' = (mn, mx, stp, def) /\
  read_only c' = read_only c /\ grabbed c' = grabbed c /\
  val c' = clamp mn mx (cur_val c) /\
  (cur_val c' = cur_val c \/ cur_val c' = val c').
Proof.
  intros Ht Hcb HX Hck. unfold __v4l2_ctrl_modify_range.
  rewrite Ht, Hck. cbn [Z.eqb negb].
  destruct (check_range_ok _ _ _ _ Hck) as [_ Hd].
  rewrite bind_unfold, modify_ctrl_eq. cbn [fst snd].
  rewrite bind_unfold, modify_ctrl_eq. cbn [fst snd].
  rewrite bind_unfold, validate_new_integer by (left; exact Ht).
  cbn [fst snd Z.eqb negb]. rewrite bind_unfold, Ret_eq. cbn [fst snd].
  rewrite !ctrls_upd_same.
  set (c3 := round_to_range (cur_to_new (with_range (ctrls st id) mn mx stp def))).
  set (st3 := upd_ctrl _ id c3).
  assert (F3 : frame (also X id) st st3).
  { unfold st3. eapply frame_trans; [|apply frame_upd].
    eapply frame_trans; [|apply frame_upd]. apply frame_upd. }
  assert (C3 : ctrls st3 id = c3) by apply ctrls_upd_same.
  rewrite bind_unfold, get_ctrl_eq. cbn [fst snd]. rewrite C3.
  destruct (Z.eqb_spec (val c3) (cur_val c3)) as [E|E]; cbn [negb].
  - rewrite Ret_eq. cbn [snd]. rewrite C3. split; [exact F3|].
    repeat split. left. reflexivity.
  - destruct (set_ctrl_spec X cb id st3 (or_introl Ht) Hcb HX)
      as (F & S & V & C & _).
    rewrite C3 in S, V, C.
    destruct S as (S1 & S2 & S3 & S4 & S5 & S6).
    split; [eapply frame_trans; [exact F3 | exact F]|].
    split. { unfold range_of. rewrite S1, S2, S3, S4. reflexivity. }
    split; [rewrite S5; reflexivity|]. split; [rewrite S6; reflexivity|].
    split.
    + rewrite V. unfold c3. cbn [round_to_range cur_to_new with_range with_val
        minimum maximum val cur_val].
      apply clamp_idem. lia.
    + exact C.
Qed.

Lemma modify_range_rejected cb id mn mx stp def st :
  check_range (ctrl_type id) mn mx stp def <> 0 ->
  __v4l2_ctrl_modify_range cb id mn mx stp def st =
  (check_range (ctrl_type id) mn mx stp def, st).
Proof.
  intros H. unfold __v4l2_ctrl_modify_range.
  destruct (Z.eqb_spec (check_range (ctrl_type id) mn mx stp def) 0);
    [contradiction|].
  reflexivity.
Qed.

Lemma frame_mode X st st' : frame X st st' -> current_mode st' = current_mode st.
Proof. intros [H _]. unfold fixed_part in H. congruence. Qed.

Lemma frame_regmap X st st' : frame X st st' -> regmap st' = regmap st.
Proof. intros [H _]. unfold fixed_part in H. congruence. Qed.

Lemma frame_bpp X st st' : frame X st st' -> bpp st' = bpp st.
Proof. intros [H _]. unfold fixed_part in H. congruence. Qed.

Lemma frame_formats X st st' : frame X st st' -> formats st' = formats st.
Proof. intros [H _]. unfold fixed_part in H. congruence. Qed.

Lemma frame_current_format X st st' :
  frame X st st' -> current_format st' = current_format st.
Proof. intros [H _]. unfold fixed_part in H. congruence. Qed.

Lemma frame_ctrl X st st' id : frame X st st' -> ~ X id -> ctrls st' id = ctrls st id.
Proof. intros [_ H]. apply H. Qed.

Lemma none_not id : ~ none id.
Proof. intros []. Qed.

(** What [imx662_set_vmax] does to the device context: it republishes the
    exposure range as [1, vmax - 4] with the upper bound as default, whatever
    happens on the bus, touches no other control, and returns the result of
    the VMAX group write. *)
Lemma set_vmax_spec v st :
  let vmax := u32 (v + height (current_mode st)) in
  let hi := u32 (vmax - IMX662_EXPOSURE_OFFSET) in
  IMX662_EXPOSURE_MIN <= hi ->
  let st' := snd (imx662_set_vmax v st) in
  let c := ctrls st V4L2_CID_EXPOSURE in
  let c' := ctrls st' V4L2_CID_EXPOSURE in
  frame (also none V4L2_CID_EXPOSURE) st st' /\
  range_of c' = (IMX662_EXPOSURE_MIN, hi, IMX662_EXPOSURE_STEP, hi) /\
  read_only c' = read_only c /\ grabbed c' = grabbed c /\
  val c' = clamp IMX662_EXPOSURE_MIN hi (cur_val c) /\
  (cur_val c' = cur_val c \/ cur_val c' = val c') /\
  fst (imx662_set_vmax v st) =
    fst (imx662_write_buffered_reg IMX662_VMAX 3 vmax st).
Proof.
  intros vmax hi Hhi. unfold imx662_set_vmax.
  rewrite bind_unfold, gets_eq. cbn [fst snd]. fold vmax. fold hi.
  rewrite bind_unfold.
  pose proof (preserves_write_buffered_reg none IMX662_VMAX 3 vmax st) as F1.
  set (st1 := snd (imx662_write_buffered_reg IMX662_VMAX 3 vmax st)) in *.
  set (r1 := fst (imx662_write_buffered_reg IMX662_VMAX 3 vmax st)).
  rewrite bind_unfold.
  assert (Hck : check_range V4L2_CTRL_TYPE_INTEGER IMX662_EXPOSURE_MIN hi IMX662_EXPOSURE_STEP hi = 0).
  { apply check_range_pass; [discriminate | lia]. }
  destruct (modify_range_spec none imx662_set_ctrl_nested V4L2_CID_EXPOSURE
              IMX662_EXPOSURE_MIN hi IMX662_EXPOSURE_STEP hi st1 eq_refl
              (preserves_set_ctrl_nested none V4L2_CID_EXPOSURE)
              (none_not _) Hck) as (F2 & R2 & RO2 & G2 & V2 & C2).
  set (st2 := snd (__v4l2_ctrl_modify_range imx662_set_ctrl_nested
                     V4L2_CID_EXPOSURE IMX662_EXPOSURE_MIN hi
                     IMX662_EXPOSURE_STEP hi st1)) in *.
  rewrite bind_unfold, get_ctrl_eq. cbn [fst snd].
  rewrite bind_unfold.
  pose proof (preserves_set_exposure none
                (u32 (val (ctrls st2 V4L2_CID_EXPOSURE))) st2) as F3.
  set (st3 := snd (imx662_set_exposure _ st2)) in *.
  rewrite Ret_eq. cbn [fst snd].
  assert (E1 : ctrls st1 V4L2_CID_EXPOSURE = ctrls st V4L2_CID_EXPOSURE)
    by (apply (frame_ctrl none); [exact F1 | apply none_not]).
  assert (E3 : ctrls st3 V4L2_CID_EXPOSURE = ctrls st2 V4L2_CID_EXPOSURE)
    by (apply (frame_ctrl none); [exact F3 | apply none_not]).
  rewrite E3. rewrite E1 in RO2, G2, V2, C2.
  split.
  { eapply frame_trans; [eapply frame_weaken; [|exact F1]; intros i []|].
    eapply frame_trans; [exact F2|].
    eapply frame_weaken; [|exact F3]. intros i []. }
  repeat split; assumption.
Qed.

Lemma preserves_set_vmax v :
  preserves (frame (also none V4L2_CID_EXPOSURE)) (imx662_set_vmax v).
Proof.
  unfold imx662_set_vmax.
  apply preserves_bind; [apply preserves_gets|]. intros m.
  apply preserves_bind; [apply preserves_write_buffered_reg|]. intros r.
  apply preserves_bind.
  - intros st.
    destruct (Z.eq_dec (check_range V4L2_CTRL_TYPE_INTEGER IMX662_EXPOSURE_MIN
                (u32 (u32 (v + height m) - IMX662_EXPOSURE_OFFSET))
                IMX662_EXPOSURE_STEP
                (u32 (u32 (v + height m) - IMX662_EXPOSURE_OFFSET))) 0) as [H|H].
    + apply (modify_range_spec none); auto using preserves_set_ctrl_nested, none_not.
    + rewrite modify_range_rejected by exact H. apply frame_refl.
  - intros _. apply preserves_bind; [apply preserves_gets|]. intros c.
    apply preserves_bind; [apply preserves_set_exposure|]. intros _.
    apply preserves_ret.
Qed.

Lemma preserves_set_ctrl id :
  preserves (frame (also none V4L2_CID_EXPOSURE)) (imx662_set_ctrl id).
Proof. apply preserves_set_ctrl_with. apply preserves_set_vmax. Qed.

(** Called on a control other than the vertical blank, [imx662_set_ctrl]
    touches no control at all. *)
Lemma preserves_set_ctrl_leaf id :
  id <> V4L2_CID_VBLANK -> preserves (frame none) (imx662_set_ctrl id).
Proof.
  intros Hid. unfold imx662_set_ctrl, imx662_set_ctrl_with.
  apply preserves_bind; [apply preserves_pm_get|]. intros u.
  destruct (u =? 0); [apply preserves_ret|].
  apply preserves_bind; [apply preserves_gets|]. intros c.
  apply preserves_bind.
  - destruct id; try contradiction;
      auto using preserves_set_gain, preserves_set_exposure,
        preserves_set_hmax, preserves_write_reg, preserves_ret.
  - intros r. apply preserves_bind; [apply preserves_pm_put|].
    intros _. apply preserves_ret.
Qed.

(** ** Formats *)

Lemma find_nearest_size_catalog w h :
  v4l2_find_nearest_size imx662_modes w h = imx662_mode_1080p.
Proof.
  unfold v4l2_find_nearest_size, imx662_modes.
  destruct (size_error imx662_mode_1080p w h =? 0); reflexivity.
Qed.

Lemma also_none_not id i : id <> i -> ~ also none i id.
Proof. intros H [[]|E]. contradiction. Qed.

Lemma range_of_inv c a b s d :
  range_of c = (a, b, s, d) ->
  minimum c = a /\ maximum c = b /\ step c = s /\ default_value c = d.
Proof. unfold range_of. intros H. inversion H. auto. Qed.

(** What an active [imx662_set_fmt] leaves in the device context. *)
Lemma set_fmt_active_spec fmt st :
  which fmt = V4L2_SUBDEV_FORMAT_ACTIVE ->
  let res := imx662_set_fmt fmt st in
  let st' := snd res in
  let m := imx662_mode_1080p in
  let f := set_fmt_result (formats st) (fmt_code (format fmt)) in
  fst res = (0, {| which := which fmt; format := f |}) /\
  current_mode st' = m /\
  bpp st' = pixfmt_bpp (format_at (formats st)
                          (set_fmt_index (formats st) (fmt_code (format fmt)))) /\
  current_format st' = f /\
  formats st' = formats st /\
  regmap st' = regmap st /\
  range_of (ctrls st' V4L2_CID_HBLANK) =
    (hmax m - width m, IMX662_HMAX_MAX - width m, 1, hmax m - width m) /\
  range_of (ctrls st' V4L2_CID_VBLANK) =
    (vmax m - height m, IMX662_VMAX_MAX - height m, 1, vmax m - height m) /\
  range_of (ctrls st' V4L2_CID_EXPOSURE) =
    (IMX662_EXPOSURE_MIN, vmax m - 2, IMX662_EXPOSURE_STEP, vmax m - 2) /\
  val (ctrls st' V4L2_CID_VBLANK) = vmax m - height m /\
  (cur_val (ctrls st' V4L2_CID_VBLANK) = cur_val (ctrls st V4L2_CID_VBLANK) \/
   vmax m - height m <= cur_val (ctrls st' V4L2_CID_VBLANK)
     <= IMX662_VMAX_MAX - height m).
Proof.
  intros Hw res st' m f. subst res st'. unfold imx662_set_fmt.
  rewrite bind_unfold, gets_eq. cbn [fst snd].
  rewrite find_nearest_size_catalog. rewrite Hw.
  fold (set_fmt_index (formats st) (fmt_code (format fmt))).
  fold (set_fmt_result (formats st) (fmt_code (format fmt))). fold f.
  set (i := set_fmt_index (formats st) (fmt_code (format fmt))).
  rewrite bind_unfold.
  rewrite (bind_unfold (modify _)), modify_eq. cbn [fst snd].
  rewrite (bind_unfold (modify _)), modify_eq. cbn [fst snd].
  set (st2 := set_bpp (set_current_mode st imx662_mode_1080p)
                (pixfmt_bpp (format_at (formats st) i))).
  (* pixel rate *)
  rewrite bind_unfold.
  destruct (s_ctrl_int64_spec none imx662_set_ctrl V4L2_CID_PIXEL_RATE
              imx662_calc_pixel_rate st2 eq_refl
              (preserves_set_ctrl_leaf V4L2_CID_PIXEL_RATE ltac:(discriminate)) (none_not _))
    as (F3 & _).
  set (st3 := snd (__v4l2_ctrl_s_ctrl_int64 imx662_set_ctrl V4L2_CID_PIXEL_RATE
                     imx662_calc_pixel_rate st2)) in *.
  (* hblank *)
  rewrite bind_unfold.
  destruct (modify_range_spec none imx662_set_ctrl V4L2_CID_HBLANK
              (u32 (hmax imx662_mode_1080p - width imx662_mode_1080p))
              (u32 (IMX662_HMAX_MAX - width imx662_mode_1080p)) 1
              (u32 (hmax imx662_mode_1080p - width imx662_mode_1080p)) st3 eq_refl
              (preserves_set_ctrl_leaf V4L2_CID_HBLANK ltac:(discriminate)) (none_not _)
              eq_refl)
    as (F4 & R4 & _).
  set (st4 := snd (__v4l2_ctrl_modify_range imx662_set_ctrl V4L2_CID_HBLANK
                     _ _ _ _ st3)) in *.
  rewrite bind_unfold.
  destruct (s_ctrl_spec none imx662_set_ctrl V4L2_CID_HBLANK
              (u32 (hmax imx662_mode_1080p - width imx662_mode_1080p)) st4 eq_refl
              (preserves_set_ctrl_leaf V4L2_CID_HBLANK ltac:(discriminate)) (none_not _))
    as (F5 & S5 & _).
  set (st5 := snd (__v4l2_ctrl_s_ctrl imx662_set_ctrl V4L2_CID_HBLANK _ st4)) in *.
  (* vblank *)
  rewrite bind_unfold.
  destruct (modify_range_spec (also none V4L2_CID_EXPOSURE) imx662_set_ctrl
              V4L2_CID_VBLANK
              (u32 (vmax imx662_mode_1080p - height imx662_mode_1080p))
              (u32 (IMX662_VMAX_MAX - height imx662_mode_1080p)) 1
              (u32 (vmax imx662_mode_1080p - height imx662_mode_1080p)) st5 eq_refl
              (preserves_set_ctrl _)
              (also_none_not V4L2_CID_VBLANK V4L2_CID_EXPOSURE ltac:(discriminate)) eq_refl)
    as (F6 & R6 & _ & _ & V6 & C6).
  set (st6 := snd (__v4l2_ctrl_modify_range imx662_set_ctrl V4L2_CID_VBLANK
                     _ _ _ _ st5)) in *.
  rewrite bind_unfold.
  destruct (s_ctrl_spec (also none V4L2_CID_EXPOSURE) imx662_set_ctrl
              V4L2_CID_VBLANK
              (u32 (vmax imx662_mode_1080p - height imx662_mode_1080p)) st6 eq_refl
              (preserves_set_ctrl _)
              (also_none_not V4L2_CID_VBLANK V4L2_CID_EXPOSURE ltac:(discriminate)))
    as (F7 & S7 & V7 & C7 & _).
  set (st7 := snd (__v4l2_ctrl_s_ctrl imx662_set_ctrl V4L2_CID_VBLANK _ st6)) in *.
  (* exposure *)
  rewrite bind_unfold.
  destruct (modify_range_spec none imx662_set_ctrl V4L2_CID_EXPOSURE
              IMX662_EXPOSURE_MIN (u32 (vmax imx662_mode_1080p - 2))
              IMX662_EXPOSURE_STEP (u32 (vmax imx662_mode_1080p - 2)) st7 eq_refl
              (preserves_set_ctrl_leaf V4L2_CID_EXPOSURE ltac:(discriminate)) (none_not _)
              eq_refl)
    as (F8 & R8 & _).
  set (st8 := snd (__v4l2_ctrl_modify_range imx662_set_ctrl V4L2_CID_EXPOSURE
                     _ _ _ _ st7)) in *.
  rewrite modify_eq, Ret_eq. cbn [fst snd].
  (* the whole chain, as one frame *)
  assert (F : frame (fun _ => True) st2 st8).
  { eapply frame_trans; [eapply frame_weaken; [|exact F3]; auto|].
    eapply frame_trans; [eapply frame_weaken; [|exact F4]; auto|].
    eapply frame_trans; [eapply frame_weaken; [|exact F5]; auto|].
    eapply frame_trans; [eapply frame_weaken; [|exact F6]; auto|].
    eapply frame_trans; [eapply frame_weaken; [|exact F7]; auto|].
    eapply frame_weaken; [|exact F8]; auto. }
  split; [reflexivity|].
  split. { cbn [current_mode set_current_format]. rewrite (frame_mode _ _ _ F). reflexivity. }
  split. { cbn [bpp set_current_format]. rewrite (frame_bpp _ _ _ F). reflexivity. }
  split; [reflexivity|].
  split. { cbn [formats set_current_format]. rewrite (frame_formats _ _ _ F). reflexivity. }
  split. { cbn [regmap set_current_format]. rewrite (frame_regmap _ _ _ F). reflexivity. }
  cbn [ctrls set_current_format].
  (* hblank reaches the end unchanged *)
  assert (H8 : ctrls st8 V4L2_CID_HBLANK = ctrls st5 V4L2_CID_HBLANK).
  { rewrite (frame_ctrl _ _ _ _ F8) by (apply also_none_not; intros E; discriminate E).
    rewrite (frame_ctrl _ _ _ _ F7)
      by (intros [[[]|E]|E]; discriminate E).
    rewrite (frame_ctrl _ _ _ _ F6)
      by (intros [[[]|E]|E]; discriminate E).
    reflexivity. }
  assert (V8 : ctrls st8 V4L2_CID_VBLANK = ctrls st7 V4L2_CID_VBLANK).
  { rewrite (frame_ctrl _ _ _ _ F8) by (apply also_none_not; intros E; discriminate E).
    reflexivity. }
  split.
  { rewrite H8. destruct S5 as (A1 & A2 & A3 & A4 & _).
    unfold range_of in *. rewrite A1, A2, A3, A4. exact R4. }
  split.
  { rewrite V8. destruct S7 as (A1 & A2 & A3 & A4 & _).
    unfold range_of in *. rewrite A1, A2, A3, A4. exact R6. }
  split; [exact R8|].
  destruct (range_of_inv _ _ _ _ _ R6) as (M6 & X6 & _ & _).
  assert (K1 : u32 (vmax imx662_mode_1080p - height imx662_mode_1080p) = 150)
    by (vm_compute; reflexivity).
  assert (K2 : u32 (IMX662_VMAX_MAX - height imx662_mode_1080p) = 261043)
    by (vm_compute; reflexivity).
  assert (K3 : vmax m - height m = 150) by (vm_compute; reflexivity).
  assert (K4 : IMX662_VMAX_MAX - height m = 261043) by (vm_compute; reflexivity).
  rewrite K1, K2 in *. rewrite K3, K4. clear K1 K2 K3 K4.
  split.
  { rewrite V8, V7, M6, X6. vm_compute. reflexivity. }
  rewrite V8.
  assert (E5 : cur_val (ctrls st5 V4L2_CID_VBLANK) = cur_val (ctrls st V4L2_CID_VBLANK)).
  { rewrite (frame_ctrl _ _ _ _ F5) by (apply also_none_not; intros E; discriminate E).
    rewrite (frame_ctrl _ _ _ _ F4) by (apply also_none_not; intros E; discriminate E).
    rewrite (frame_ctrl _ _ _ _ F3) by (apply also_none_not; intros E; discriminate E).
    reflexivity. }
  rewrite V7, M6, X6 in C7. rewrite E5 in V6, C6.
  assert (K5 : clamp 150 261043 150 = 150) by (vm_compute; reflexivity).
  rewrite K5 in C7.
  destruct C7 as [C7|C7]; [|right; rewrite C7; lia].
  rewrite C7. destruct C6 as [C6|C6]; [left; exact C6|].
  right. rewrite C6, V6. apply clamp_range. lia.
Qed.

(** ** Blanking ranges *)

(** C6 (amended): an active [imx662_set_fmt] selects a mode [m] of the
    catalog and publishes the horizontal-blank range
    [hmax m - width m, HMAX_MAX - width m] and the vertical-blank range
    [vmax m - height m, VMAX_MAX - height m], each with step 1 and with its
    lower bound as default; [imx662_probe] creates the two controls with the
    same ranges.  The lower bounds are the defaults, not 0. *)
Theorem set_fmt_publishes_blank_ranges fmt st :
  which fmt = V4L2_SUBDEV_FORMAT_ACTIVE ->
  let st' := snd (imx662_set_fmt fmt st) in
  let m := current_mode st' in
  In m imx662_modes /\
  range_of (ctrls st' V4L2_CID_HBLANK) =
    (hmax m - width m, IMX662_HMAX_MAX - width m, 1, hmax m - width m) /\
  range_of (ctrls st' V4L2_CID_VBLANK) =
    (vmax m - height m, IMX662_VMAX_MAX - height m, 1, vmax m - height m) /\
  range_of (imx662_probe_ctrls m V4L2_CID_HBLANK) =
    (hmax m - width m, IMX662_HMAX_MAX - width m, 1, hmax m - width m) /\
  range_of (imx662_probe_ctrls m V4L2_CID_VBLANK) =
    (vmax m - height m, IMX662_VMAX_MAX - height m, 1, vmax m - height m).
Proof.
  intros Hw.
  destruct (set_fmt_active_spec fmt st Hw)
    as (_ & Hm & _ & _ & _ & _ & Hh & Hv & _).
  cbv zeta. rewrite Hm.
  split; [left; reflexivity|]. split; [exact Hh|]. split; [exact Hv|].
  split; vm_compute; reflexivity.
Qed.

Lemma set_fmt_publishes_blank_ranges_witness :
  let st' := snd (imx662_set_fmt (active_fmt 0) (probed no_fault)) in
  which (active_fmt 0) = V4L2_SUBDEV_FORMAT_ACTIVE /\
  range_of (ctrls st' V4L2_CID_HBLANK) = (44, 63599, 1, 44) /\
  range_of (ctrls st' V4L2_CID_VBLANK) = (150, 261043, 1, 150).
Proof.
  destruct (set_fmt_publishes_blank_ranges (active_fmt 0) (probed no_fault)
              eq_refl) as (_ & Hh & Hv & _).
  split; [reflexivity|].
  split; [rewrite Hh | rewrite Hv]; vm_compute; reflexivity.
Defined.

(** C6, as stated, fails: after mode selection the lower bound of the
    horizontal-blank range is 44 and that of the vertical-blank range is 150,
    not 0, and the probed controls start with the same bounds. *)
Lemma blank_range_lower_bounds_not_zero :
  let st' := snd (imx662_set_fmt (active_fmt 0) (probed no_fault)) in
  minimum (ctrls st' V4L2_CID_HBLANK) = 44 /\
  minimum (ctrls st' V4L2_CID_VBLANK) = 150 /\
  minimum (ctrls st' V4L2_CID_HBLANK) <> 0 /\
  minimum (ctrls st' V4L2_CID_VBLANK) <> 0 /\
  minimum (imx662_probe_ctrls imx662_mode_1080p V4L2_CID_HBLANK) <> 0 /\
  minimum (imx662_probe_ctrls imx662_mode_1080p V4L2_CID_VBLANK) <> 0.
Proof. vm_compute. repeat split; discriminate. Qed.

(** ** Setting the format *)

Lemma set_fmt_try_eq fmt st :
  which fmt = V4L2_SUBDEV_FORMAT_TRY ->
  imx662_set_fmt fmt st =
  ((0, {| which := which fmt;
          format := set_fmt_result (formats st) (fmt_code (format fmt)) |}),
   set_try_format st (set_fmt_result (formats st) (fmt_code (format fmt)))).
Proof.
  intros Hw. unfold imx662_set_fmt.
  rewrite bind_unfold, gets_eq. cbn [fst snd].
  rewrite find_nearest_size_catalog, Hw.
  rewrite bind_unfold, modify_eq. reflexivity.
Qed.



(** ** The exposure range *)

Lemma u32_small x : 0 <= x < 2 ^ 32 -> u32 x = x.
Proof. intros H. unfold u32. apply Z.mod_small. exact H. Qed.

(** C4 (amended): for the catalog mode and every vertical-blank value [vb] of
    the published vertical-blank range, [imx662_set_vmax] republishes the
    exposure range as [1, height + vb - 4], with the upper bound as default,
    and that range is not empty; an active [imx662_set_fmt] republishes it as
    [1, vmax - 2], which is [height + vb - 2] for the vertical blank
    [vb = vmax - height] it selects. *)
Theorem exposure_range_republished st vb fmt :
  In (current_mode st) imx662_modes ->
  vmax (current_mode st) - height (current_mode st) <= vb
    <= IMX662_VMAX_MAX - height (current_mode st) ->
  which fmt = V4L2_SUBDEV_FORMAT_ACTIVE ->
  let m := current_mode st in
  let c := ctrls (snd (imx662_set_vmax vb st)) V4L2_CID_EXPOSURE in
  let st' := snd (imx662_set_fmt fmt st) in
  let m' := current_mode st' in
  let c' := ctrls st' V4L2_CID_EXPOSURE in
  (range_of c = (1, height m + vb - 4, 1, height m + vb - 4) /\
   1 <= height m + vb - 4) /\
  (range_of c' = (1, vmax m' - 2, 1, vmax m' - 2) /\
   vmax m' - 2 = height m' + val (ctrls st' V4L2_CID_VBLANK) - 2 /\
   1 <= vmax m' - 2).
Proof.
  intros Hm Hvb Hw. cbv zeta. split.
  - destruct Hm as [Hm|[]]. rewrite <- Hm in *.
    change (vmax imx662_mode_1080p) with 1250 in Hvb.
    change (height imx662_mode_1080p) with 1100 in *.
    change IMX662_VMAX_MAX with 262143 in Hvb.
    assert (Hhi : u32 (u32 (vb + height (current_mode st))
                       - IMX662_EXPOSURE_OFFSET) = 1100 + vb - 4).
    { rewrite <- Hm. change (height imx662_mode_1080p) with 1100.
      change IMX662_EXPOSURE_OFFSET with 4.
      rewrite (u32_small (vb + 1100)) by lia.
      rewrite u32_small by lia. lia. }
    destruct (set_vmax_spec vb st) as (_ & R & _).
    { rewrite Hhi. change IMX662_EXPOSURE_MIN with 1. lia. }
    rewrite Hhi in R. split; [exact R | lia].
  - destruct (set_fmt_active_spec fmt st Hw)
      as (_ & Hm' & _ & _ & _ & _ & _ & _ & He & Hv & _).
    rewrite Hm', Hv. split; [exact He|]. split; vm_compute; [reflexivity|discriminate].
Qed.

Lemma exposure_range_republished_witness :
  let st := probed no_fault in
  In (current_mode st) imx662_modes /\
  (vmax (current_mode st) - height (current_mode st) <= 200
     <= IMX662_VMAX_MAX - height (current_mode st)) /\
  which (active_fmt 0) = V4L2_SUBDEV_FORMAT_ACTIVE /\
  range_of (ctrls (snd (imx662_set_vmax 200 st)) V4L2_CID_EXPOSURE)
    = (1, 1296, 1, 1296) /\
  range_of (ctrls (snd (imx662_set_fmt (active_fmt 0) st)) V4L2_CID_EXPOSURE)
    = (1, 1248, 1, 1248).
Proof.
  assert (H1 : In (current_mode (probed no_fault)) imx662_modes)
    by (left; reflexivity).
  assert (H2 : vmax (current_mode (probed no_fault))
               - height (current_mode (probed no_fault)) <= 200
               <= IMX662_VMAX_MAX - height (current_mode (probed no_fault)))
    by (vm_compute; split; discriminate).
  destruct (exposure_range_republished (probed no_fault) 200 (active_fmt 0)
              H1 H2 eq_refl) as ((Ra & _) & (Rb & _)).
  split; [exact H1|]. split; [exact H2|]. split; [reflexivity|].
  split; [rewrite Ra | rewrite Rb]; vm_compute; reflexivity.
Defined.

(** C4, as stated, fails: a vertical-blank change to 200 on the streaming
    device republishes the exposure range with upper bound and default
    [1100 + 200 - 4 = 1296], not [1100 + 200 - 2 = 1298]. *)
Lemma vblank_change_publishes_offset_four :
  let res := user_set_ctrl V4L2_CID_VBLANK 200 streaming_state in
  let c := ctrls (snd res) V4L2_CID_EXPOSURE in
  fst res = 0 /\
  cur_val (ctrls (snd res) V4L2_CID_VBLANK) = 200 /\
  range_of c = (1, 1296, 1, 1296) /\
  maximum c <> height (current_mode (snd res)) + 200 - 2.
Proof. vm_compute. repeat split; discriminate. Qed.

(** ** The exposure encoding *)

Lemma imx662_set_exposure_eq value st :
  imx662_set_exposure value st =
  write_all (buffered_sequence IMX662_EXPOSURE 3
               (u32 (u32 (u32 (height (current_mode st)
                               + u32 (val (ctrls st V4L2_CID_VBLANK)))
                          - value) - 1))) st.
Proof.
  unfold imx662_set_exposure.
  rewrite bind_unfold, gets_eq. cbn [fst snd].
  rewrite bind_unfold, get_ctrl_eq. cbn [fst snd].
  apply imx662_write_buffered_reg_eq.
Qed.


(** ** The exposure bound *)

Lemma pm_get_in_use st :
  0 < pm_usage st ->
  pm_runtime_get_if_in_use st = (1, set_pm_usage st (pm_usage st + 1)).
Proof.
  intros H. unfold pm_runtime_get_if_in_use.
  destruct (Z.ltb_spec 0 (pm_usage st)); [reflexivity | lia].
Qed.

Lemma pm_get_not_in_use st :
  pm_usage st <= 0 -> pm_runtime_get_if_in_use st = (0, st).
Proof.
  intros H. unfold pm_runtime_get_if_in_use.
  destruct (Z.ltb_spec 0 (pm_usage st)); [lia | reflexivity].
Qed.

(** On a powered device the vertical-blank arm of [imx662_set_ctrl] is
    [imx662_set_vmax] on the staged value, between taking and dropping a
    usage reference. *)
Lemma set_ctrl_vblank_powered st :
  0 < pm_usage st ->
  let v := u32 (val (ctrls st V4L2_CID_VBLANK)) in
  let st1 := set_pm_usage st (pm_usage st + 1) in
  let res := imx662_set_vmax v st1 in
  imx662_set_ctrl V4L2_CID_VBLANK st =
  (fst res, set_pm_usage (snd res) (Z.max 0 (pm_usage (snd res) - 1))).
Proof.
  intros H. cbv zeta. unfold imx662_set_ctrl, imx662_set_ctrl_with.
  rewrite bind_unfold, pm_get_in_use by exact H. cbn [fst snd Z.eqb].
  rewrite bind_unfold, get_ctrl_eq. cbn [fst snd ctrls set_pm_usage].
  rewrite bind_unfold.
  destruct (imx662_set_vmax _ _) as [r st2]. cbn [fst snd].
  rewrite bind_unfold. unfold pm_runtime_put. rewrite modify_eq, Ret_eq.
  reflexivity.
Qed.

(** A device that is not powered ignores the request: [imx662_set_ctrl]
    returns 0 and leaves the context as it is. *)
Lemma set_ctrl_unpowered id st :
  pm_usage st <= 0 -> imx662_set_ctrl id st = (0, st).
Proof.
  intros H. unfold imx662_set_ctrl, imx662_set_ctrl_with.
  rewrite bind_unfold, pm_get_not_in_use by exact H. reflexivity.
Qed.

(** What [set_ctrl] does after a successful validation, on a device that
    is not powered: the staged value is committed without a write. *)
Lemma set_ctrl_commit_unpowered id st :
  pm_usage st <= 0 ->
  grabbed (ctrls st id) = false ->
  let res :=
    (c <- get_ctrl id ;;
     if grabbed c then Ret (- EBUSY)
     else if val c =? cur_val c then Ret 0
     else
       ret <- imx662_set_ctrl id ;;
       if negb (ret =? 0) then Ret ret
       else
         modify_ctrl id new_to_cur ;;;
         Ret 0) st in
  let c := ctrls st id in
  let c' := ctrls (snd res) id in
  fst res = 0 /\
  bus (snd res) = bus st /\
  pm_usage (snd res) = pm_usage st /\
  cur_val c' = val c /\ val c' = val c /\
  range_of c' = range_of c /\
  forall id', id' <> id -> ctrls (snd res) id' = ctrls st id'.
Proof.
  intros Hp Hg. cbv zeta.
  rewrite bind_unfold, get_ctrl_eq. cbn [fst snd]. rewrite Hg.
  destruct (Z.eqb_spec (val (ctrls st id)) (cur_val (ctrls st id))) as [E|E].
  - rewrite Ret_eq. cbn [fst snd].
    split; [reflexivity|]. split; [reflexivity|]. split; [reflexivity|].
    split; [symmetry; exact E|]. split; [reflexivity|].
    split; [reflexivity|]. intros id' _. reflexivity.
  - rewrite bind_unfold.
    rewrite (set_ctrl_unpowered id st Hp). cbn [fst snd Z.eqb negb].
    rewrite bind_unfold, modify_ctrl_eq, Ret_eq. cbn [fst snd].
    rewrite ctrls_upd_same.
    split; [reflexivity|]. split; [reflexivity|]. split; [reflexivity|].
    split; [reflexivity|]. split; [reflexivity|]. split; [reflexivity|].
    intros id' Hn. rewrite ctrls_upd_other by exact Hn. reflexivity.
Qed.

(** A vertical-blank change requested while the device is not powered. *)
Lemma vblank_change_unpowered v st :
  pm_usage st <= 0 ->
  grabbed (ctrls st V4L2_CID_VBLANK) = false ->
  let res := user_set_ctrl V4L2_CID_VBLANK v st in
  let c := ctrls st V4L2_CID_VBLANK in
  fst res = 0 /\
  bus (snd res) = bus st /\
  cur_val (ctrls (snd res) V4L2_CID_VBLANK) =
    clamp (minimum c) (maximum c) v /\
  forall id, id <> V4L2_CID_VBLANK -> ctrls (snd res) id = ctrls st id.
Proof.
  intros Hp Hg. cbv zeta. unfold user_set_ctrl.
  rewrite s_ctrl_eq by reflexivity.
  set (st0 := upd_ctrl st V4L2_CID_VBLANK
                (with_val (ctrls st V4L2_CID_VBLANK) v)).
  rewrite set_ctrl_integer_eq by (left; reflexivity).
  rewrite bind_unfold, modify_ctrl_eq. cbn [fst snd].
  set (st1 := upd_ctrl st0 V4L2_CID_VBLANK
                (round_to_range (ctrls st0 V4L2_CID_VBLANK))).
  assert (C1 : ctrls st1 V4L2_CID_VBLANK =
               round_to_range (with_val (ctrls st V4L2_CID_VBLANK) v)).
  { unfold st1, st0. rewrite !ctrls_upd_same. reflexivity. }
  destruct (set_ctrl_commit_unpowered V4L2_CID_VBLANK st1 Hp)
    as (R & B & _ & C & _ & _ & O).
  { rewrite C1. exact Hg. }
  rewrite C1 in C.
  split; [exact R|]. split; [exact B|]. split; [exact C|].
  intros id Hn. rewrite (O id Hn). unfold st1, st0.
  rewrite !ctrls_upd_other by exact Hn. reflexivity.
Qed.

Lemma vblank_published_frame X st st' :
  frame X st st' -> ~ X V4L2_CID_VBLANK ->
  vblank_published st -> vblank_published st'.
Proof.
  intros F HX (Hm & Hr & Hc). unfold vblank_published.
  rewrite (frame_mode _ _ _ F), (frame_ctrl _ _ _ _ F HX). auto.
Qed.

(** A successful vertical-blank change on a powered device. *)
Lemma vblank_change_spec v st :
  vblank_published st ->
  0 < pm_usage st ->
  fst (user_set_ctrl V4L2_CID_VBLANK v st) = 0 ->
  let st' := snd (user_set_ctrl V4L2_CID_VBLANK v st) in
  vblank_published st' /\
  (ctrls st' V4L2_CID_EXPOSURE = ctrls st V4L2_CID_EXPOSURE /\
   cur_val (ctrls st' V4L2_CID_VBLANK) = cur_val (ctrls st V4L2_CID_VBLANK)
   \/
   range_of (ctrls st' V4L2_CID_EXPOSURE) =
     (1, height (current_mode st') + cur_val (ctrls st' V4L2_CID_VBLANK) - 4,
      1, height (current_mode st') + cur_val (ctrls st' V4L2_CID_VBLANK) - 4)).
Proof.
  intros (Hm & Hr & Hc) Hp.
  destruct (range_of_inv _ _ _ _ _ Hr) as (Rmin & Rmax & Rst & Rdef).
  change (vmax imx662_mode_1080p - height imx662_mode_1080p) with 150 in *.
  change (IMX662_VMAX_MAX - height imx662_mode_1080p) with 261043 in *.
  rewrite Rmin, Rmax in Hc.
  unfold user_set_ctrl. rewrite s_ctrl_eq by reflexivity.
  rewrite set_ctrl_integer_eq by (left; reflexivity).
  rewrite bind_unfold, modify_ctrl_eq. cbn [fst snd].
  rewrite ctrls_upd_same.
  set (c1 := round_to_range (with_val (ctrls st V4L2_CID_VBLANK) v)).
  set (st1 := upd_ctrl (upd_ctrl st V4L2_CID_VBLANK _) V4L2_CID_VBLANK c1).
  assert (C1 : ctrls st1 V4L2_CID_VBLANK = c1) by apply ctrls_upd_same.
  assert (F1 : frame (also none V4L2_CID_VBLANK) st st1).
  { unfold st1. eapply frame_trans; apply frame_upd. }
  assert (Hv1 : 150 <= val c1 <= 261043).
  { unfold c1. cbn [round_to_range with_val val minimum maximum].
    rewrite Rmin, Rmax. apply clamp_range. lia. }
  assert (P1 : vblank_published st1).
  { unfold vblank_published. rewrite (frame_mode _ _ _ F1), C1.
    split; [exact Hm|]. split.
    - unfold c1, range_of. cbn. unfold range_of in Hr. exact Hr.
    - unfold c1. cbn. rewrite Rmin, Rmax. exact Hc. }
  assert (E1 : ctrls st1 V4L2_CID_EXPOSURE = ctrls st V4L2_CID_EXPOSURE).
  { apply (frame_ctrl _ _ _ _ F1). intros [[]|E]; discriminate E. }
  rewrite bind_unfold, get_ctrl_eq. cbn [fst snd]. rewrite C1.
  destruct (grabbed c1).
  { rewrite Ret_eq. cbn [fst]. intros H; discriminate H. }
  destruct (Z.eqb_spec (val c1) (cur_val c1)) as [E|E].
  { rewrite Ret_eq. cbn [fst snd]. intros _. split; [exact P1|].
    left. split; [exact E1|]. rewrite C1. reflexivity. }
  assert (Hp1 : 0 < pm_usage st1) by exact Hp.
  rewrite bind_unfold, (set_ctrl_vblank_powered st1 Hp1). cbn [fst snd].
  rewrite C1.
  set (st1' := set_pm_usage st1 (pm_usage st1 + 1)).
  assert (M1 : current_mode st1' = imx662_mode_1080p).
  { change (current_mode st1') with (current_mode st1).
    rewrite (frame_mode _ _ _ F1). exact Hm. }
  assert (Hu : u32 (val c1) = val c1) by (apply u32_small; lia).
  assert (Hhi : u32 (u32 (u32 (val c1) + height (current_mode st1'))
                     - IMX662_EXPOSURE_OFFSET) = 1100 + val c1 - 4).
  { rewrite M1, Hu. change (height imx662_mode_1080p) with 1100.
    change IMX662_EXPOSURE_OFFSET with 4.
    rewrite (u32_small (val c1 + 1100)) by lia.
    rewrite u32_small by lia. lia. }
  destruct (set_vmax_spec (u32 (val c1)) st1') as (F2 & R2 & _).
  { rewrite Hhi. change IMX662_EXPOSURE_MIN with 1. lia. }
  rewrite Hhi in R2.
  set (res := imx662_set_vmax (u32 (val c1)) st1') in *.
  destruct (Z.eqb_spec (fst res) 0) as [R0|R0]; cbn [negb].
  2:{ rewrite Ret_eq. cbn [fst]. intros H. contradiction. }
  rewrite bind_unfold, modify_ctrl_eq, Ret_eq. cbn [fst snd]. intros _.
  set (st2 := set_pm_usage (snd res) _).
  assert (F12 : frame (also none V4L2_CID_EXPOSURE) st1 st2).
  { split; [apply F2|]. intros id Hid. apply (proj2 F2 id Hid). }
  assert (C2 : ctrls st2 V4L2_CID_VBLANK = c1).
  { rewrite (frame_ctrl _ _ _ _ F12) by (intros [[]|E']; discriminate E').
    exact C1. }
  assert (M2 : current_mode st2 = imx662_mode_1080p).
  { rewrite (frame_mode _ _ _ F12), (frame_mode _ _ _ F1). exact Hm. }
  split.
  - unfold vblank_published. rewrite ctrls_upd_same, C2.
    split; [exact M2|]. split.
    + unfold c1, range_of. cbn. unfold range_of in Hr. exact Hr.
    + unfold c1. cbn. rewrite Rmin, Rmax. apply clamp_range. lia.
  - right.
    rewrite ctrls_upd_other by discriminate.
    rewrite ctrls_upd_same, C2.
    change (current_mode (upd_ctrl st2 V4L2_CID_VBLANK (new_to_cur c1)))
      with (current_mode st2).
    rewrite M2. change (height imx662_mode_1080p) with 1100.
    change (cur_val (new_to_cur c1)) with (val c1).
    exact R2.
Qed.

(** An active [imx662_set_fmt] establishes the bound, whatever the exposure
    range was before. *)
Lemma set_fmt_establishes_exposure_bound fmt st :
  which fmt = V4L2_SUBDEV_FORMAT_ACTIVE ->
  150 <= cur_val (ctrls st V4L2_CID_VBLANK) <= 261043 ->
  vblank_published (snd (imx662_set_fmt fmt st)) /\
  exposure_bounded (snd (imx662_set_fmt fmt st)).
Proof.
  intros Hw Hc0.
  destruct (set_fmt_active_spec fmt st Hw)
    as (_ & Hm & _ & _ & _ & _ & _ & Hv & He & _ & Hc).
  revert Hm Hv He Hc. generalize (snd (imx662_set_fmt fmt st)). intros st'.
  intros Hm Hv He Hc.
  destruct (range_of_inv _ _ _ _ _ Hv) as (Vmin & Vmax & _ & _).
  destruct (range_of_inv _ _ _ _ _ He) as (Emin & Emax & _ & _).
  assert (K1 : vmax imx662_mode_1080p - height imx662_mode_1080p = 150)
    by reflexivity.
  assert (K2 : IMX662_VMAX_MAX - height imx662_mode_1080p = 261043)
    by reflexivity.
  assert (K3 : vmax imx662_mode_1080p - 2 = 1248) by reflexivity.
  assert (K4 : vmax imx662_mode_1080p = 1250) by reflexivity.
  assert (K5 : IMX662_EXPOSURE_OFFSET = 4) by reflexivity.
  unfold vblank_published, exposure_bounded.
  rewrite Hm, Vmin, Vmax, Emin, Emax.
  split; [split; [reflexivity|]; split; [exact Hv|]|split; [reflexivity|]].
  - rewrite K1, K2 in *. lia.
  - rewrite K1, K2 in Hc. rewrite K3, K4, K5. lia.
Qed.

Lemma entity_init_cfg_active st :
  snd (imx662_entity_init_cfg true st) = snd (imx662_set_fmt (active_fmt 0) st).
Proof.
  unfold imx662_entity_init_cfg. rewrite bind_unfold. reflexivity.
Qed.
Lemma imx662_probe_ctx_unfold fmts lanes inck transport pf :
  imx662_probe_ctx fmts lanes inck transport pf =
  snd (imx662_entity_init_cfg true
         (imx662_probe_ctrls_created fmts lanes inck transport pf)).
Proof. reflexivity. Qed.
Lemma imx662_probe_ctx_eq fmts lanes inck transport pf :
  imx662_probe_ctx fmts lanes inck transport pf =
  snd (imx662_set_fmt (active_fmt 0)
         (imx662_probe_ctrls_created fmts lanes inck transport pf)).
Proof.
  rewrite imx662_probe_ctx_unfold. apply entity_init_cfg_active.
Qed.

(** Every probed device starts within the bound. *)
Lemma probe_within_exposure_bound fmts lanes inck transport pf :
  vblank_published (imx662_probe_ctx fmts lanes inck transport pf) /\
  exposure_bounded (imx662_probe_ctx fmts lanes inck transport pf).
Proof.
  rewrite imx662_probe_ctx_eq.
  apply set_fmt_establishes_exposure_bound; [reflexivity|].
  vm_compute. split; discriminate.
Qed.

(** ** The exposure register *)






(** ** The exposure bound, preserved *)

(** C8 (amended): on a device whose vertical-blank control is as published
    and whose exposure range is [1, hi] with
    [hi <= mode.vmax + vertical_blank - 4], that bound still holds after
    every mode selection, after every exposure change, and after every
    vertical-blank change that the powered device applies successfully (the
    device is in use and the request returns 0).  An active mode selection
    publishes [hi = mode.vmax - 2]; a successful vertical-blank change on
    the powered device commits the requested value clamped into the range
    and, when that changes the vertical blank, publishes
    [hi = mode.height + vertical_blank - 4].  A vertical-blank change
    requested while the device is not powered (the control not being
    grabbed) returns 0 and is cached: the clamped value is committed,
    nothing is written, and the exposure control with its range is left as
    it was. *)
Theorem exposure_bound_preserved st :
  vblank_published st -> exposure_bounded st ->
  (forall fmt,
     let st' := snd (imx662_set_fmt fmt st) in
     vblank_published st' /\ exposure_bounded st' /\
     (which fmt = V4L2_SUBDEV_FORMAT_ACTIVE ->
      maximum (ctrls st' V4L2_CID_EXPOSURE) = vmax (current_mode st') - 2)) /\
  (forall e,
     let st' := snd (user_set_ctrl V4L2_CID_EXPOSURE e st) in
     vblank_published st' /\ exposure_bounded st') /\
  (forall v,
     0 < pm_usage st ->
     fst (user_set_ctrl V4L2_CID_VBLANK v st) = 0 ->
     let st' := snd (user_set_ctrl V4L2_CID_VBLANK v st) in
     let vb := cur_val (ctrls st V4L2_CID_VBLANK) in
     let vb' := cur_val (ctrls st' V4L2_CID_VBLANK) in
     vblank_published st' /\ exposure_bounded st' /\
     vb' = clamp (minimum (ctrls st V4L2_CID_VBLANK))
                 (maximum (ctrls st V4L2_CID_VBLANK)) v /\
     (vb' <> vb ->
      maximum (ctrls st' V4L2_CID_EXPOSURE) =
        height (current_mode st') + vb' - 4)) /\
  (forall v,
     pm_usage st <= 0 ->
     grabbed (ctrls st V4L2_CID_VBLANK) = false ->
     let res := user_set_ctrl V4L2_CID_VBLANK v st in
     fst res = 0 /\
     bus (snd res) = bus st /\
     cur_val (ctrls (snd res) V4L2_CID_VBLANK) =
       clamp (minimum (ctrls st V4L2_CID_VBLANK))
             (maximum (ctrls st V4L2_CID_VBLANK)) v /\
     ctrls (snd res) V4L2_CID_EXPOSURE = ctrls st V4L2_CID_EXPOSURE).
Proof.
  intros P B. pose proof P as (Hm & Hr & Hc). pose proof B as (Bmin & Bmax).
  destruct (range_of_inv _ _ _ _ _ Hr) as (Rmin & Rmax & _ & _).
  change (vmax imx662_mode_1080p - height imx662_mode_1080p) with 150 in *.
  change (IMX662_VMAX_MAX - height imx662_mode_1080p) with 261043 in *.
  rewrite Rmin, Rmax in Hc.
  split; [|split; [|split]].
  - intros fmt. cbv zeta. destruct (which fmt) eqn:Hw.
    + rewrite (set_fmt_try_eq fmt st Hw). cbn [snd].
      split; [exact P|]. split; [exact B|]. intros H. discriminate H.
    + destruct (set_fmt_establishes_exposure_bound fmt st Hw Hc) as (P' & B').
      split; [exact P'|]. split; [exact B'|]. intros _.
      destruct (set_fmt_active_spec fmt st Hw)
        as (_ & Hm' & _ & _ & _ & _ & _ & _ & He & _).
      destruct (range_of_inv _ _ _ _ _ He) as (_ & Emax & _).
      rewrite Emax, Hm'. reflexivity.
  - intros e. cbv zeta. unfold user_set_ctrl.
    destruct (s_ctrl_spec none imx662_set_ctrl V4L2_CID_EXPOSURE e st eq_refl
                (preserves_set_ctrl_leaf V4L2_CID_EXPOSURE
                   ltac:(intros E; discriminate E)) (none_not _))
      as (F & (S1 & S2 & _) & _).
    set (st' := snd (__v4l2_ctrl_s_ctrl imx662_set_ctrl V4L2_CID_EXPOSURE e st)) in *.
    assert (HV : ctrls st' V4L2_CID_VBLANK = ctrls st V4L2_CID_VBLANK).
    { apply (frame_ctrl _ _ _ _ F). intros [[]|E]; discriminate E. }
    split.
    + apply (vblank_published_frame _ _ _ F); [|exact P].
      intros [[]|E]; discriminate E.
    + unfold exposure_bounded.
      rewrite S1, S2, (frame_mode _ _ _ F), HV. exact B.
  - intros v Hp H0. cbv zeta.
    assert (Hcl : cur_val (ctrls (snd (user_set_ctrl V4L2_CID_VBLANK v st))
                     V4L2_CID_VBLANK) =
                  clamp (minimum (ctrls st V4L2_CID_VBLANK))
                        (maximum (ctrls st V4L2_CID_VBLANK)) v).
    { unfold user_set_ctrl in *.
      destruct (s_ctrl_spec (also none V4L2_CID_EXPOSURE) imx662_set_ctrl
                  V4L2_CID_VBLANK v st eq_refl
                  (preserves_set_ctrl V4L2_CID_VBLANK)
                  ltac:(intros [[]|E]; discriminate E))
        as (_ & _ & V & _ & R).
      rewrite (R H0). exact V. }
    destruct (vblank_change_spec v st P Hp H0) as (P' & [[E1 E2]|R]).
    + split; [exact P'|]. split.
      { unfold exposure_bounded.
        rewrite E1, E2. destruct P' as (Hm' & _). rewrite Hm', <- Hm. exact B. }
      split; [exact Hcl|]. intros Hne. contradiction.
    + split; [exact P'|]. pose proof P' as (Hm' & Hr' & Hc').
      destruct (range_of_inv _ _ _ _ _ R) as (Emin & Emax & _ & _).
      split.
      { split; [exact Emin|]. rewrite Emax, Hm'.
        change (vmax imx662_mode_1080p) with 1250.
        change (height imx662_mode_1080p) with 1100.
        change IMX662_EXPOSURE_OFFSET with 4. lia. }
      split; [exact Hcl|]. intros _. exact Emax.
  - intros v Hp Hg. cbv zeta.
    destruct (vblank_change_unpowered v st Hp Hg) as (R & Bu & C & O).
    split; [exact R|]. split; [exact Bu|]. split; [exact C|].
    apply O. discriminate.
Qed.

Lemma exposure_bound_preserved_witness :
  let st := streaming_state in
  vblank_published st /\ exposure_bounded st /\
  0 < pm_usage st /\
  fst (user_set_ctrl V4L2_CID_VBLANK 200 st) = 0 /\
  exposure_bounded (snd (user_set_ctrl V4L2_CID_VBLANK 200 st)) /\
  maximum (ctrls (snd (user_set_ctrl V4L2_CID_VBLANK 200 st))
             V4L2_CID_EXPOSURE) = 1296 /\
  exposure_bounded (snd (imx662_set_fmt (active_fmt 0) st)) /\
  exposure_bounded (snd (user_set_ctrl V4L2_CID_EXPOSURE 700 st)).
Proof.
  assert (P : vblank_published streaming_state).
  { vm_compute. repeat split; discriminate. }
  assert (B : exposure_bounded streaming_state).
  { vm_compute. repeat split; discriminate. }
  destruct (exposure_bound_preserved streaming_state P B)
    as (Hf & He & Hv & _).
  assert (Hp : 0 < pm_usage streaming_state) by (vm_compute; reflexivity).
  assert (H0 : fst (user_set_ctrl V4L2_CID_VBLANK 200 streaming_state) = 0)
    by (vm_compute; reflexivity).
  split; [exact P|]. split; [exact B|].
  split; [exact Hp|]. split; [exact H0|].
  split; [apply (Hv 200 Hp H0)|].
  split; [vm_compute; reflexivity|].
  split; [apply (Hf (active_fmt 0)) | apply (He 700)].
Defined.

(** C8, as stated, fails.  A vertical-blank change made while the device is
    not powered is cached without recomputing the exposure range: after
    streaming with the largest vertical blank and stopping, setting the
    vertical blank back to 150 leaves the exposure maximum at 262139, above
    [1250 + 150 - 4], and that exposure value is then accepted.  And when the
    VMAX write of a vertical-blank change is refused, the range is widened
    although the vertical blank keeps its old value. *)
Lemma exposure_bound_broken :
  (let st2 := snd (user_set_ctrl V4L2_CID_VBLANK 261043 streaming_state) in
   let st3 := snd (imx662_set_stream 0 st2) in
   let r4 := user_set_ctrl V4L2_CID_VBLANK 150 st3 in
   let st4 := snd r4 in
   let r5 := user_set_ctrl V4L2_CID_EXPOSURE 262139 st4 in
   exposure_bounded streaming_state /\
   fst r4 = 0 /\
   cur_val (ctrls st4 V4L2_CID_VBLANK) = 150 /\
   maximum (ctrls st4 V4L2_CID_EXPOSURE) = 262139 /\
   ~ exposure_bounded st4 /\
   fst r5 = 0 /\
   cur_val (ctrls (snd r5) V4L2_CID_EXPOSURE) = 262139) /\
  (let st1 := set_regmap streaming_state (fails_at IMX662_VMAX) in
   let r2 := user_set_ctrl V4L2_CID_VBLANK 1000 st1 in
   exposure_bounded st1 /\
   0 < pm_usage st1 /\
   fst r2 = -5 /\
   cur_val (ctrls (snd r2) V4L2_CID_VBLANK) = 150 /\
   maximum (ctrls (snd r2) V4L2_CID_EXPOSURE) = 2096 /\
   ~ exposure_bounded (snd r2)).
Proof.
  split; cbv zeta.
  - split; [vm_compute; split; [reflexivity|discriminate]|].
    split; [vm_compute; reflexivity|]. split; [vm_compute; reflexivity|].
    split; [vm_compute; reflexivity|].
    split; [|split; vm_compute; reflexivity].
    intros [_ H]. vm_compute in H. apply H. reflexivity.
  - split; [vm_compute; split; [reflexivity|discriminate]|].
    split; [vm_compute; reflexivity|]. split; [vm_compute; reflexivity|].
    split; [vm_compute; reflexivity|]. split; [vm_compute; reflexivity|].
    intros [_ H]. vm_compute in H. apply H. reflexivity.
Qed.

(** ** Starting the stream *)

(** C1, evaluated where the code departs from it.  The transport refuses one
    write, the first one to the exposure register, which
    [__v4l2_ctrl_modify_range] triggers from inside [imx662_set_vmax] while
    the controls are re-applied.  [imx662_set_vmax] drops that error, so the
    start sequence goes on: the remaining controls are applied, standby is
    cleared, the master start is written, and both [imx662_start_streaming]
    and [imx662_set_stream] return 0 with the device marked as streaming. *)
Theorem start_streaming_swallows_refused_exposure_write :
  let st0 := probed (fails_first_write_to IMX662_EXPOSURE) in
  let res := imx662_set_stream 1 st0 in
  fst res = 0 /\
  fst (imx662_start_streaming (snd (pm_runtime_resume_and_get st0))) = 0 /\
  skipn 153 (bus (snd res)) =
    [ RegWrite IMX662_REGHOLD 1 0;
      RegWrite IMX662_EXPOSURE 3 (-5);
      RegWrite IMX662_REGHOLD 1 0;
      RegWrite IMX662_EXPOSURE 3 0;
      RegWrite (IMX662_EXPOSURE + 1) 0 0;
      RegWrite (IMX662_EXPOSURE + 2) 0 0;
      RegWrite IMX662_REGHOLD 0 0;
      RegWrite IMX662_REGHOLD 1 0;
      RegWrite IMX662_EXPOSURE 1 0;
      RegWrite (IMX662_EXPOSURE + 1) 0 0;
      RegWrite (IMX662_EXPOSURE + 2) 0 0;
      RegWrite IMX662_REGHOLD 0 0;
      RegWrite IMX662_FLIP_WINMODEH 0 0;
      RegWrite IMX662_FLIP_WINMODEV 0 0;
      RegWrite IMX662_STANDBY 0 0;
      Msleep 30;
      RegWrite IMX662_XMSTA 0 0 ] /\
  grabbed (ctrls (snd res) V4L2_CID_VFLIP) = true /\
  grabbed (ctrls (snd res) V4L2_CID_HFLIP) = true /\
  pm_usage (snd res) = 1.
Proof. vm_compute. repeat split; reflexivity. Qed.

(** ** Evolution of the device context *)

Lemma evolves_refl st : evolves st st.
Proof.
  split; [reflexivity|]. split; [reflexivity|].
  split; [exists []; symmetry; apply app_nil_r|]. intros id; split; reflexivity.
Qed.

Lemma evolves_trans st1 st2 st3 :
  evolves st1 st2 -> evolves st2 st3 -> evolves st1 st3.
Proof.
  intros (F1 & P1 & (t1 & B1) & G1) (F2 & P2 & (t2 & B2) & G2).
  split; [congruence|]. split; [congruence|]. split.
  - exists (t1 ++ t2). rewrite B2, B1, app_assoc. reflexivity.
  - intros id. destruct (G1 id), (G2 id). split; congruence.
Qed.

Lemma evolves_bind {A B} (m : M A) (k : A -> M B) :
  preserves evolves m -> (forall a, preserves evolves (k a)) ->
  preserves evolves (bind m k).
Proof.
  intros Hm Hk st. rewrite bind_unfold.
  eapply evolves_trans; [apply Hm | apply Hk].
Qed.

Lemma evolves_ret {A} (a : A) : preserves evolves (Ret a).
Proof. intros st. apply evolves_refl. Qed.

Lemma evolves_gets {A} (f : imx662 -> A) : preserves evolves (gets f).
Proof. intros st. apply evolves_refl. Qed.

Lemma evolves_get_ctrl id : preserves evolves (get_ctrl id).
Proof. intros st. apply evolves_refl. Qed.

Lemma evolves_set_bus st t : evolves st (set_bus st (bus st ++ t)).
Proof.
  split; [reflexivity|]. split; [reflexivity|].
  split; [exists t; reflexivity|]. intros id; split; reflexivity.
Qed.

Lemma evolves_write_reg a v : preserves evolves (imx662_write_reg a v).
Proof. intros st. rewrite imx662_write_reg_eq. apply evolves_set_bus. Qed.

Lemma evolves_write_all ws : preserves evolves (write_all ws).
Proof.
  induction ws as [|w ws IH]; simpl.
  - apply evolves_ret.
  - apply evolves_bind; [apply evolves_write_reg|].
    intros r. destruct (negb (r =? 0)); [apply evolves_ret | exact IH].
Qed.

Lemma evolves_write_buffered_reg a n v :
  preserves evolves (imx662_write_buffered_reg a n v).
Proof.
  intros st. rewrite imx662_write_buffered_reg_eq. apply evolves_write_all.
Qed.

Lemma evolves_msleep ms : preserves evolves (msleep ms).
Proof. intros st. apply (evolves_set_bus st [Msleep ms]). Qed.

Lemma evolves_usleep lo hi : preserves evolves (usleep_range lo hi).
Proof. intros st. apply (evolves_set_bus st [Usleep lo hi]). Qed.

Lemma evolves_modify_ctrl id f :
  keeps_flags f -> preserves evolves (modify_ctrl id f).
Proof.
  intros Hf st. rewrite modify_ctrl_eq. cbn [snd].
  split; [reflexivity|]. split; [reflexivity|].
  split; [exists []; symmetry; apply app_nil_r|].
  intros i. destruct (ctrl_id_eqb_spec i id) as [->|Hn].
  - rewrite ctrls_upd_same. apply Hf.
  - rewrite ctrls_upd_other by exact Hn. split; reflexivity.
Qed.

Lemma keeps_flags_validate : keeps_flags round_to_range.
Proof. intros c. split; reflexivity. Qed.

Lemma evolves_validate_new id : preserves evolves (validate_new id).
Proof.
  unfold validate_new. apply evolves_bind; [apply evolves_get_ctrl|].
  intros c. destruct (ctrl_type id).
  - apply evolves_bind; [apply evolves_modify_ctrl, keeps_flags_validate|].
    intros _. apply evolves_ret.
  - apply evolves_bind; [|intros _; apply evolves_ret].
    apply evolves_modify_ctrl. intros c0. split; reflexivity.
  - destruct (_ || _); [apply evolves_ret|].
    destruct (_ && _); apply evolves_ret.
  - apply evolves_bind; [apply evolves_modify_ctrl, keeps_flags_validate|].
    intros _. apply evolves_ret.
Qed.

Lemma keeps_flags_new_to_cur : keeps_flags new_to_cur.
Proof. intros c. split; reflexivity. Qed.

Lemma keeps_flags_cur_to_new : keeps_flags cur_to_new.
Proof. intros c. split; reflexivity. Qed.

Lemma keeps_flags_with_val v : keeps_flags (fun c => with_val c v).
Proof. intros c. split; reflexivity. Qed.

Lemma keeps_flags_with_range mn mx stp def :
  keeps_flags (fun c => with_range c mn mx stp def).
Proof. intros c. split; reflexivity. Qed.

Lemma evolves_set_gain v : preserves evolves (imx662_set_gain v).
Proof. intros st. rewrite imx662_set_gain_eq. apply evolves_write_all. Qed.

Lemma evolves_set_exposure v : preserves evolves (imx662_set_exposure v).
Proof.
  intros st. rewrite imx662_set_exposure_eq. apply evolves_write_all.
Qed.

Lemma evolves_set_hmax v : preserves evolves (imx662_set_hmax v).
Proof.
  unfold imx662_set_hmax. apply evolves_bind; [apply evolves_gets|].
  intros m. apply evolves_write_buffered_reg.
Qed.

(** [imx662_set_ctrl] drops the usage reference it takes. *)
Lemma evolves_set_ctrl_with (f : Z -> M Z) id :
  (forall v, preserves evolves (f v)) ->
  preserves evolves (imx662_set_ctrl_with f id).
Proof.
  intros Hf st. unfold imx662_set_ctrl_with. rewrite bind_unfold.
  destruct (Z.ltb_spec 0 (pm_usage st)) as [Hp|Hp].
  - rewrite pm_get_in_use by exact Hp. cbn [fst snd Z.eqb].
    rewrite bind_unfold, get_ctrl_eq. cbn [fst snd].
    set (st1 := set_pm_usage st (pm_usage st + 1)).
    set (arm := match id with
                | V4L2_CID_ANALOGUE_GAIN => _ | _ => _ end).
    assert (Harm : preserves evolves arm).
    { unfold arm. destruct id;
        auto using evolves_set_gain, evolves_set_exposure, evolves_set_hmax,
          evolves_write_reg, evolves_ret. }
    rewrite bind_unfold.
    destruct (Harm st1) as (F & P & (t & Bt) & G).
    rewrite bind_unfold. unfold pm_runtime_put. rewrite modify_eq, Ret_eq.
    cbn [fst snd].
    split; [exact F|]. split.
    + cbn [pm_usage set_pm_usage]. rewrite P. unfold st1.
      cbn [pm_usage set_pm_usage]. lia.
    + split; [exists t; exact Bt | exact G].
  - rewrite pm_get_not_in_use by lia. cbn [fst snd Z.eqb].
    rewrite Ret_eq. apply evolves_refl.
Qed.

Lemma evolves_set_ctrl_nested id : preserves evolves (imx662_set_ctrl_nested id).
Proof. apply evolves_set_ctrl_with. intros v. apply evolves_ret. Qed.

Lemma evolves_framework_set_ctrl cb id :
  preserves evolves (cb id) -> preserves evolves (set_ctrl cb id).
Proof.
  intros Hcb. unfold set_ctrl.
  apply evolves_bind; [apply evolves_validate_new|].
  intros r0. destruct (negb (r0 =? 0)); [apply evolves_ret|].
  apply evolves_bind; [apply evolves_get_ctrl|]. intros c.
  destruct (grabbed c); [apply evolves_ret|].
  destruct (val c =? cur_val c); [apply evolves_ret|].
  apply evolves_bind; [exact Hcb|]. intros r.
  destruct (negb (r =? 0)); [apply evolves_ret|].
  apply evolves_bind; [apply evolves_modify_ctrl, keeps_flags_new_to_cur|].
  intros _. apply evolves_ret.
Qed.

Lemma evolves_s_ctrl cb id v :
  preserves evolves (cb id) -> preserves evolves (__v4l2_ctrl_s_ctrl cb id v).
Proof.
  intros Hcb. unfold __v4l2_ctrl_s_ctrl.
  destruct (negb (is_int id)); [apply evolves_ret|].
  apply evolves_bind; [apply evolves_modify_ctrl, keeps_flags_with_val|].
  intros _. apply evolves_framework_set_ctrl, Hcb.
Qed.

Lemma evolves_s_ctrl_int64 cb id v :
  preserves evolves (cb id) ->
  preserves evolves (__v4l2_ctrl_s_ctrl_int64 cb id v).
Proof.
  intros Hcb. unfold __v4l2_ctrl_s_ctrl_int64.
  destruct (is_int id); [apply evolves_ret|].
  apply evolves_bind; [apply evolves_modify_ctrl, keeps_flags_with_val|].
  intros _. apply evolves_framework_set_ctrl, Hcb.
Qed.

Lemma evolves_modify_range cb id mn mx stp def :
  preserves evolves (cb id) ->
  preserves evolves (__v4l2_ctrl_modify_range cb id mn mx stp def).
Proof.
  intros Hcb. unfold __v4l2_ctrl_modify_range.
  destruct (negb (check_range (ctrl_type id) mn mx stp def =? 0));
    [apply evolves_ret|].
  apply evolves_bind; [apply evolves_modify_ctrl, keeps_flags_with_range|].
  intros _.
  apply evolves_bind; [apply evolves_modify_ctrl, keeps_flags_cur_to_new|].
  intros _.
  apply evolves_bind; [apply evolves_validate_new|]. intros r0.
  apply evolves_bind.
  { destruct (negb (r0 =? 0)); [|apply evolves_ret].
    apply evolves_modify_ctrl, keeps_flags_with_val. }
  intros _. apply evolves_bind; [apply evolves_get_ctrl|]. intros c.
  destruct (negb (val c =? cur_val c)); [|apply evolves_ret].
  apply evolves_framework_set_ctrl, Hcb.
Qed.

Lemma evolves_set_vmax v : preserves evolves (imx662_set_vmax v).
Proof.
  unfold imx662_set_vmax. apply evolves_bind; [apply evolves_gets|].
  intros m. apply evolves_bind; [apply evolves_write_buffered_reg|].
  intros r. apply evolves_bind.
  { apply evolves_modify_range, evolves_set_ctrl_nested. }
  intros _. apply evolves_bind; [apply evolves_get_ctrl|]. intros c.
  apply evolves_bind; [apply evolves_set_exposure|]. intros _.
  apply evolves_ret.
Qed.

Lemma evolves_set_ctrl id : preserves evolves (imx662_set_ctrl id).
Proof. apply evolves_set_ctrl_with, evolves_set_vmax. Qed.

Lemma evolves_handler_setup_loop cb l :
  (forall id, preserves evolves (cb id)) ->
  preserves evolves (v4l2_ctrl_handler_setup_loop cb l).
Proof.
  intros Hcb. induction l as [|id l IH]; simpl.
  - apply evolves_ret.
  - apply evolves_bind; [apply evolves_get_ctrl|]. intros c.
    destruct (read_only c); [exact IH|].
    apply evolves_bind; [apply evolves_modify_ctrl, keeps_flags_cur_to_new|].
    intros _. apply evolves_bind; [apply Hcb|]. intros r.
    destruct (negb (r =? 0)); [apply evolves_ret | exact IH].
Qed.

(** ** Register arrays *)

Lemma imx662_set_register_array_loop_eq settings : forall st,
  imx662_set_register_array_loop settings st = write_all (regvals settings) st.
Proof.
  induction settings as [|s l IH]; intros st; simpl.
  - reflexivity.
  - rewrite !bind_unfold, imx662_write_reg_eq. cbn [fst snd].
    pose proof (errno_result_nonpos (regmap st (bus st) (reg s) (regval_val s))) as H.
    destruct (Z.ltb_spec (errno_result (regmap st (bus st) (reg s) (regval_val s))) 0);
      destruct (Z.eqb_spec (errno_result (regmap st (bus st) (reg s) (regval_val s))) 0);
      cbn [negb]; try lia; [reflexivity | apply IH].
Qed.

Lemma firstn_regvals k l : firstn k (regvals l) = regvals (firstn k l).
Proof. unfold regvals. apply firstn_map. Qed.

Lemma nth_error_regvals l k w :
  nth_error (regvals l) k = Some w ->
  exists s, nth_error l k = Some s /\ w = (reg s, regval_val s).
Proof.
  unfold regvals. rewrite nth_error_map.
  destruct (nth_error l k) as [s|]; simpl; intros H; [|discriminate].
  exists s. split; [reflexivity|]. congruence.
Qed.

Lemma imx662_set_register_array_cases settings st :
  let r := fst (imx662_set_register_array settings st) in
  let st' := snd (imx662_set_register_array settings st) in
  (r = 0 /\
   st' = set_bus st (bus st ++ ok_writes (regvals settings)
                            ++ [Usleep 10000 11000]))
  \/ (exists k s e,
        nth_error settings k = Some s /\ r = - Z.pos e /\
        regmap st (bus st ++ ok_writes (regvals (firstn k settings)))
               (reg s) (regval_val s) = Some e /\
        st' = set_bus st (bus st ++ ok_writes (regvals (firstn k settings))
                                 ++ [RegWrite (reg s) (regval_val s) (- Z.pos e)])).
Proof.
  cbv zeta. unfold imx662_set_register_array.
  rewrite bind_unfold, imx662_set_register_array_loop_eq.
  destruct (write_all_trace (regvals settings) st)
    as [[Hr Hs] | (k & w & e & Hn & Hr & Ho & Hs)].
  - rewrite Hr, Hs. cbn [Z.ltb Z.compare].
    rewrite bind_unfold. unfold usleep_range. rewrite modify_eq, Ret_eq.
    cbn [fst snd]. left. split; [reflexivity|].
    cbn [set_bus bus]. rewrite <- app_assoc. reflexivity.
  - destruct (nth_error_regvals _ _ _ Hn) as (s & Hs' & ->). cbn [fst snd] in *.
    rewrite Hr, Hs. cbn [Z.ltb Z.compare Z.opp]. rewrite Ret_eq. cbn [fst snd].
    right. exists k, s, e. rewrite firstn_regvals in *.
    repeat split; assumption.
Qed.

(** X1: [imx662_set_register_array] writes the entries in order, one write
    per entry, and stops at the first write the transport refuses, returning
    its error with nothing issued after it; only when every write was
    accepted does it insert the 10 ms settle delay and return 0. *)
Theorem set_register_array_stops_at_first_fault settings st :
  let r := fst (imx662_set_register_array settings st) in
  let st' := snd (imx662_set_register_array settings st) in
  (r = 0 /\
   st' = set_bus st (bus st ++ ok_writes (regvals settings)
                            ++ [Usleep 10000 11000]))
  \/ (exists k s e,
        nth_error settings k = Some s /\ r = - Z.pos e /\
        regmap st (bus st ++ ok_writes (regvals (firstn k settings)))
               (reg s) (regval_val s) = Some e /\
        st' = set_bus st (bus st ++ ok_writes (regvals (firstn k settings))
                                 ++ [RegWrite (reg s) (regval_val s) (- Z.pos e)])).
Proof. exact (imx662_set_register_array_cases settings st). Qed.

(** ** The start sequence on a transport without faults *)

Lemma write_reg_fault_free a v st :
  fault_free st ->
  imx662_write_reg a v st = (0, set_bus st (bus st ++ [RegWrite a v 0])).
Proof. intros H. rewrite imx662_write_reg_eq, H. reflexivity. Qed.

Lemma set_register_array_fault_free l st :
  fault_free st ->
  imx662_set_register_array l st =
  (0, set_bus st (bus st ++ ok_writes (regvals l) ++ [Usleep 10000 11000])).
Proof.
  intros H. unfold imx662_set_register_array.
  rewrite bind_unfold, imx662_set_register_array_loop_eq.
  rewrite write_all_fault_free by exact H. cbn [fst snd Z.ltb Z.compare].
  rewrite bind_unfold. unfold usleep_range. rewrite modify_eq, Ret_eq.
  cbn [fst snd set_bus bus]. rewrite <- app_assoc. reflexivity.
Qed.

Lemma imx662_write_current_format_eq st :
  imx662_write_current_format st =
  match ad_md_bit (fmt_code (current_format st)) with
  | Some b => write_all [(IMX662_ADBIT, b); (IMX662_MDBIT, b)] st
  | None => (- EINVAL, st)
  end.
Proof.
  unfold imx662_write_current_format, ad_md_bit.
  rewrite bind_unfold, gets_eq. cbn [fst snd].
  assert (H : forall b st0,
    (ret <- imx662_write_reg IMX662_ADBIT b ;;
     if ret <? 0 then Ret ret
     else ret0 <- imx662_write_reg IMX662_MDBIT b ;;
          if ret0 <? 0 then Ret ret0 else Ret 0) st0 =
    write_all [(IMX662_ADBIT, b); (IMX662_MDBIT, b)] st0).
  { intros b st0. cbn [write_all fst snd].
    rewrite !bind_unfold, imx662_write_reg_eq. cbn [fst snd].
    pose proof (errno_result_nonpos (regmap st0 (bus st0) IMX662_ADBIT b)) as H1.
    destruct (Z.ltb_spec (errno_result (regmap st0 (bus st0) IMX662_ADBIT b)) 0);
      destruct (Z.eqb_spec (errno_result (regmap st0 (bus st0) IMX662_ADBIT b)) 0);
      cbn [negb]; try lia; [reflexivity|].
    rewrite !bind_unfold, imx662_write_reg_eq. cbn [fst snd].
    set (r2 := errno_result _).
    pose proof (errno_result_nonpos
                  (regmap (set_bus st0 (bus st0 ++ [RegWrite IMX662_ADBIT b
                     (errno_result (regmap st0 (bus st0) IMX662_ADBIT b))]))
                     (bus (set_bus st0 (bus st0 ++ [RegWrite IMX662_ADBIT b
                     (errno_result (regmap st0 (bus st0) IMX662_ADBIT b))])))
                     IMX662_MDBIT b)) as H2.
    fold r2 in H2.
    destruct (Z.ltb_spec r2 0); destruct (Z.eqb_spec r2 0);
      cbn [negb]; try lia; reflexivity. }
  destruct ((fmt_code (current_format st) =? MEDIA_BUS_FMT_SRGGB10_1X10)
            || (fmt_code (current_format st) =? MEDIA_BUS_FMT_Y10_1X10)).
  - apply H.
  - destruct ((fmt_code (current_format st) =? MEDIA_BUS_FMT_SRGGB12_1X12)
              || (fmt_code (current_format st) =? MEDIA_BUS_FMT_Y12_1X12)).
    + apply H.
    + reflexivity.
Qed.

Lemma fault_free_evolves st st' : evolves st st' -> fault_free st -> fault_free st'.
Proof.
  intros (F & _) H h a v. unfold fixed_part in F.
  assert (E : regmap st' = regmap st) by congruence.
  rewrite E. apply H.
Qed.

Lemma flags_as_probed_evolves st st' :
  evolves st st' -> flags_as_probed st -> flags_as_probed st'.
Proof.
  intros (_ & _ & _ & G) H id. destruct (G id) as [G1 _]. rewrite G1. apply H.
Qed.

Lemma set_vmax_ret v st :
  fst (imx662_set_vmax v st) =
  fst (imx662_write_buffered_reg IMX662_VMAX 3
         (u32 (v + height (current_mode st))) st).
Proof.
  unfold imx662_set_vmax. rewrite bind_unfold, gets_eq. cbn [fst snd].
  rewrite bind_unfold.
  destruct (imx662_write_buffered_reg _ _ _ st) as [r st1]. cbn [fst snd].
  rewrite bind_unfold.
  destruct (__v4l2_ctrl_modify_range _ _ _ _ _ _ st1) as [r2 st2]. cbn [fst snd].
  rewrite bind_unfold, get_ctrl_eq. cbn [fst snd]. rewrite bind_unfold.
  destruct (imx662_set_exposure _ st2) as [r3 st3]. reflexivity.
Qed.

(** On a transport without faults every writable control is applied with
    success. *)
Lemma set_ctrl_fault_free_ret id st :
  fault_free st -> writable id = true -> fst (imx662_set_ctrl id st) = 0.
Proof.
  intros Hff Hw. unfold imx662_set_ctrl, imx662_set_ctrl_with.
  rewrite bind_unfold.
  destruct (Z.ltb_spec 0 (pm_usage st)) as [Hp|Hp].
  2:{ rewrite pm_get_not_in_use by lia. reflexivity. }
  rewrite pm_get_in_use by exact Hp. cbn [fst snd Z.eqb].
  rewrite bind_unfold, get_ctrl_eq. cbn [fst snd].
  set (st1 := set_pm_usage st (pm_usage st + 1)).
  assert (Hff1 : fault_free st1) by exact Hff.
  rewrite bind_unfold.
  assert (H0 : forall (arm : M Z), fst (arm st1) = 0 ->
            fst ((pm_runtime_put ;;; Ret (fst (arm st1))) (snd (arm st1))) = 0).
  { intros arm H. rewrite bind_unfold, Ret_eq. exact H. }
  destruct id; try discriminate Hw; apply H0.
  - rewrite imx662_set_gain_eq, write_all_fault_free by exact Hff1. reflexivity.
  - unfold imx662_set_hmax. rewrite bind_unfold, gets_eq. cbn [fst snd].
    rewrite imx662_write_buffered_reg_eq, write_all_fault_free by exact Hff1.
    reflexivity.
  - rewrite set_vmax_ret.
    rewrite imx662_write_buffered_reg_eq, write_all_fault_free by exact Hff1.
    reflexivity.
  - rewrite imx662_set_exposure_eq, write_all_fault_free by exact Hff1.
    reflexivity.
  - rewrite write_reg_fault_free by exact Hff1. reflexivity.
  - rewrite write_reg_fault_free by exact Hff1. reflexivity.
Qed.

Lemma handler_setup_loop_fault_free l : forall st,
  fault_free st -> flags_as_probed st ->
  fst (v4l2_ctrl_handler_setup_loop imx662_set_ctrl l st) = 0.
Proof.
  induction l as [|id l IH]; intros st Hff Hfl; simpl.
  - reflexivity.
  - rewrite bind_unfold, get_ctrl_eq. cbn [fst snd].
    rewrite (Hfl id).
    destruct (writable id) eqn:Hw; cbn [negb]; [|apply IH; assumption].
    rewrite bind_unfold, modify_ctrl_eq. cbn [fst snd].
    set (st1 := upd_ctrl st id (cur_to_new (ctrls st id))).
    assert (E1 : evolves st st1).
    { apply (evolves_modify_ctrl id cur_to_new keeps_flags_cur_to_new st). }
    assert (Hff1 : fault_free st1) by (eapply fault_free_evolves; eassumption).
    rewrite bind_unfold.
    rewrite (set_ctrl_fault_free_ret id st1 Hff1 Hw). cbn [Z.eqb negb].
    pose proof (evolves_set_ctrl id st1) as E2.
    apply IH.
    + eapply fault_free_evolves; eassumption.
    + eapply flags_as_probed_evolves; [exact E2|].
      eapply flags_as_probed_evolves; eassumption.
Qed.

Lemma trace_of_evolves {A} (m : M A) st t :
  bus (snd (m st)) = bus st ++ t -> trace_of m st = t.
Proof.
  intros H. unfold trace_of. rewrite H.
  rewrite skipn_app, skipn_all, Nat.sub_diag. reflexivity.
Qed.


(** The writes that precede the controls, on a transport without faults. *)
Lemma start_streaming_prologue st b :
  fault_free st ->
  ad_md_bit (fmt_code (current_format st)) = Some b ->
  imx662_start_streaming st =
  (ret <- v4l2_ctrl_handler_setup imx662_set_ctrl ;;
   if negb (ret =? 0) then Ret ret
   else
     ret <- imx662_write_reg IMX662_STANDBY 0x00 ;;
     if ret <? 0 then Ret ret
     else msleep 30 ;;; imx662_write_reg IMX662_XMSTA 0x00)
    (set_bus st (bus st ++ start_prologue st b)).
Proof.
  intros Hff Hb. unfold imx662_start_streaming.
  rewrite bind_unfold, set_register_array_fault_free by exact Hff.
  cbn [fst snd Z.ltb Z.compare].
  rewrite bind_unfold, gets_eq. cbn [fst snd inck_sel set_bus].
  rewrite bind_unfold, write_reg_fault_free by exact Hff.
  cbn [fst snd Z.ltb Z.compare set_bus bus].
  rewrite bind_unfold, imx662_write_current_format_eq.
  cbn [current_format set_bus]. rewrite Hb.
  rewrite write_all_fault_free by exact Hff.
  cbn [fst snd Z.ltb Z.compare set_bus bus].
  rewrite bind_unfold, gets_eq. cbn [fst snd current_mode set_bus].
  rewrite bind_unfold, set_register_array_fault_free by exact Hff.
  cbn [fst snd Z.ltb Z.compare set_bus bus].
  rewrite bind_unfold, gets_eq. cbn [fst snd nlanes set_bus].
  rewrite bind_unfold, write_reg_fault_free by exact Hff.
  cbn [fst snd Z.ltb Z.compare set_bus bus].
  rewrite bind_unfold, write_reg_fault_free by exact Hff.
  cbn [fst snd Z.ltb Z.compare set_bus bus].
  match goal with
  | |- ?f ?s = ?f ?s' => assert (E : s = s'); [|rewrite E; reflexivity]
  end.
  rewrite !set_bus_set_bus. f_equal.
  unfold start_prologue, ok_writes. cbn [map fst snd].
  rewrite <- !app_assoc. cbn [app]. reflexivity.
Qed.

(** X2: on a transport that accepts every write, with the controls flagged
    as [imx662_probe] creates them and a supported format,
    [imx662_start_streaming] returns 0 and its trace is, in this order: the
    global settings (one write per entry, in table order) and the settle
    delay, the clock-select register, ADBIT and MDBIT, the mode's register
    table and the settle delay, the lane mode and the lane rate, whatever
    re-applying the controls writes, the standby clear, the 30 ms delay and
    the master start. *)
Theorem start_streaming_write_order st b :
  fault_free st ->
  flags_as_probed st ->
  ad_md_bit (fmt_code (current_format st)) = Some b ->
  let mid := set_bus st (bus st ++ start_prologue st b) in
  let ctrl_trace := trace_of (v4l2_ctrl_handler_setup imx662_set_ctrl) mid in
  fst (imx662_start_streaming st) = 0 /\
  bus (snd (imx662_start_streaming st)) =
    bus st ++ start_prologue st b ++ ctrl_trace ++ start_epilogue.
Proof.
  intros Hff Hfl Hb mid ctrl_trace.
  rewrite (start_streaming_prologue st b Hff Hb). fold mid.
  assert (Hffm : fault_free mid) by exact Hff.
  assert (Hflm : flags_as_probed mid) by exact Hfl.
  rewrite bind_unfold.
  pose proof (handler_setup_loop_fault_free imx662_ctrl_order mid Hffm Hflm) as H0.
  pose proof (evolves_handler_setup_loop imx662_set_ctrl imx662_ctrl_order
                evolves_set_ctrl mid) as E.
  fold (v4l2_ctrl_handler_setup imx662_set_ctrl) in H0, E.
  rewrite H0. cbn [Z.eqb negb].
  pose proof E as (_ & _ & (t & Ht) & _).
  assert (Hct : ctrl_trace = t) by (apply trace_of_evolves; exact Ht).
  set (sth := snd (v4l2_ctrl_handler_setup imx662_set_ctrl mid)) in *.
  assert (Hffh : fault_free sth) by (eapply fault_free_evolves; eassumption).
  rewrite bind_unfold, write_reg_fault_free by exact Hffh.
  cbn [fst snd Z.ltb Z.compare].
  rewrite bind_unfold. unfold msleep. rewrite modify_eq. cbn [fst snd].
  rewrite write_reg_fault_free by exact Hffh.
  cbn [fst snd set_bus bus]. split; [reflexivity|].
  rewrite Ht, Hct. unfold mid, start_epilogue. cbn [set_bus bus].
  rewrite <- !app_assoc. reflexivity.
Qed.

Lemma start_streaming_write_order_witness :
  let st := snd (pm_runtime_resume_and_get (probed no_fault)) in
  fault_free st /\ flags_as_probed st /\
  ad_md_bit (fmt_code (current_format st)) = Some 0 /\
  fst (imx662_start_streaming st) = 0 /\
  bus (snd (imx662_start_streaming st)) =
    bus st ++ start_prologue st 0
      ++ trace_of (v4l2_ctrl_handler_setup imx662_set_ctrl)
           (set_bus st (bus st ++ start_prologue st 0))
      ++ start_epilogue.
Proof.
  assert (H1 : fault_free (snd (pm_runtime_resume_and_get (probed no_fault))))
    by (intros h a v; reflexivity).
  assert (H2 : flags_as_probed (snd (pm_runtime_resume_and_get (probed no_fault))))
    by (intros id; destruct id; vm_compute; reflexivity).
  assert (H3 : ad_md_bit (fmt_code (current_format
                 (snd (pm_runtime_resume_and_get (probed no_fault))))) = Some 0)
    by (vm_compute; reflexivity).
  split; [exact H1|]. split; [exact H2|]. split; [exact H3|].
  exact (start_streaming_write_order _ 0 H1 H2 H3).
Defined.

(** ** The start sequence on any transport *)

(** X3: if a write of the global settings is refused, [imx662_start_streaming]
    returns that write's error and its trace is the accepted writes before it
    followed by the refused write: nothing else of the start sequence is
    attempted. *)
Theorem start_streaming_stops_in_global_settings st :
  fst (imx662_set_register_array imx662_global_settings st) <> 0 ->
  exists k s e,
    nth_error imx662_global_settings k = Some s /\
    regmap st (bus st ++ ok_writes (regvals (firstn k imx662_global_settings)))
           (reg s) (regval_val s) = Some e /\
    imx662_start_streaming st =
      (- Z.pos e,
       set_bus st (bus st
                   ++ ok_writes (regvals (firstn k imx662_global_settings))
                   ++ [RegWrite (reg s) (regval_val s) (- Z.pos e)])).
Proof.
  intros Hne.
  destruct (imx662_set_register_array_cases imx662_global_settings st)
    as [[Hr _] | (k & s & e & Hn & Hr & Ho & Hs)]; [contradiction|].
  exists k, s, e. split; [exact Hn|]. split; [exact Ho|].
  unfold imx662_start_streaming. rewrite bind_unfold.
  rewrite Hr, Hs. reflexivity.
Qed.

Lemma start_streaming_stops_in_global_settings_witness :
  let st := probed (fails_at 0x301B) in
  fst (imx662_set_register_array imx662_global_settings st) <> 0 /\
  exists k s e,
    nth_error imx662_global_settings k = Some s /\
    regmap st (bus st ++ ok_writes (regvals (firstn k imx662_global_settings)))
           (reg s) (regval_val s) = Some e /\
    imx662_start_streaming st =
      (- Z.pos e,
       set_bus st (bus st
                   ++ ok_writes (regvals (firstn k imx662_global_settings))
                   ++ [RegWrite (reg s) (regval_val s) (- Z.pos e)])).
Proof.
  assert (H : fst (imx662_set_register_array imx662_global_settings
                     (probed (fails_at 0x301B))) <> 0)
    by (vm_compute; discriminate).
  split; [exact H|].
  exact (start_streaming_stops_in_global_settings _ H).
Defined.

Example start_streaming_third_write_refused :
  let st := probed (fails_at 0x301B) in
  fst (imx662_start_streaming st) = -5 /\
  bus (snd (imx662_start_streaming st)) =
    [ RegWrite 0x3002 0 0; RegWrite 0x301A 0 0; RegWrite 0x301B 0 (-5) ] /\
  fst (imx662_set_stream 1 st) = -5 /\
  pm_usage (snd (imx662_set_stream 1 st)) = 0 /\
  grabbed (ctrls (snd (imx662_set_stream 1 st)) V4L2_CID_VFLIP) = false.
Proof. vm_compute. repeat split; reflexivity. Qed.

(** ** Stream on and off *)

Lemma evolves_set_register_array l : preserves evolves (imx662_set_register_array l).
Proof.
  unfold imx662_set_register_array. apply evolves_bind.
  - intros st. rewrite imx662_set_register_array_loop_eq. apply evolves_write_all.
  - intros r. destruct (r <? 0); [apply evolves_ret|].
    apply evolves_bind; [apply evolves_usleep|]. intros _. apply evolves_ret.
Qed.

Lemma evolves_write_current_format : preserves evolves imx662_write_current_format.
Proof.
  intros st. rewrite imx662_write_current_format_eq.
  destruct (ad_md_bit _); [apply evolves_write_all | apply evolves_refl].
Qed.

Lemma evolves_handler_setup :
  preserves evolves (v4l2_ctrl_handler_setup imx662_set_ctrl).
Proof. apply evolves_handler_setup_loop, evolves_set_ctrl. Qed.

Lemma evolves_start_streaming : preserves evolves imx662_start_streaming.
Proof.
  unfold imx662_start_streaming.
  apply evolves_bind; [apply evolves_set_register_array|]. intros r1.
  destruct (r1 <? 0); [apply evolves_ret|].
  apply evolves_bind; [apply evolves_gets|]. intros inck.
  apply evolves_bind; [apply evolves_write_reg|]. intros r2.
  destruct (r2 <? 0); [apply evolves_ret|].
  apply evolves_bind; [apply evolves_write_current_format|]. intros r3.
  destruct (r3 <? 0); [apply evolves_ret|].
  apply evolves_bind; [apply evolves_gets|]. intros m.
  apply evolves_bind; [apply evolves_set_register_array|]. intros r4.
  destruct (r4 <? 0); [apply evolves_ret|].
  apply evolves_bind; [apply evolves_gets|]. intros lanes.
  apply evolves_bind; [apply evolves_write_reg|]. intros r5.
  destruct (r5 <? 0); [apply evolves_ret|].
  apply evolves_bind; [apply evolves_write_reg|]. intros r6.
  destruct (r6 <? 0); [apply evolves_ret|].
  apply evolves_bind; [apply evolves_handler_setup|]. intros r7.
  destruct (negb (r7 =? 0)); [apply evolves_ret|].
  apply evolves_bind; [apply evolves_write_reg|]. intros r8.
  destruct (r8 <? 0); [apply evolves_ret|].
  apply evolves_bind; [apply evolves_msleep|]. intros _.
  apply evolves_write_reg.
Qed.

Lemma evolves_stop_streaming : preserves evolves imx662_stop_streaming.
Proof.
  unfold imx662_stop_streaming.
  apply evolves_bind; [apply evolves_write_reg|]. intros r.
  destruct (r <? 0); [apply evolves_ret|].
  apply evolves_bind; [apply evolves_msleep|]. intros _.
  apply evolves_write_reg.
Qed.

(** Guarded sequencing keeps "a zero result means the trace ends with the
    epilogue". *)
Lemma ends_started_bind {A} (m : M A) (k : A -> M Z) :
  (forall a, ends_started (k a)) -> ends_started (bind m k).
Proof. intros Hk st. rewrite bind_unfold. apply Hk. Qed.

Lemma ends_started_guard_lt (r : Z) (k : M Z) :
  ends_started k -> ends_started (if r <? 0 then Ret r else k).
Proof.
  intros Hk st. destruct (Z.ltb_spec r 0); [|apply Hk].
  rewrite Ret_eq. cbn [fst]. intros H0. exfalso. lia.
Qed.

Lemma ends_started_guard_ne (r : Z) (k : M Z) :
  ends_started k -> ends_started (if negb (r =? 0) then Ret r else k).
Proof.
  intros Hk st. destruct (Z.eqb_spec r 0); cbn [negb]; [apply Hk|].
  rewrite Ret_eq. cbn [fst]. intros H0. contradiction.
Qed.

Lemma ends_started_tail :
  ends_started (ret <- imx662_write_reg IMX662_STANDBY 0x00 ;;
                if ret <? 0 then Ret ret
                else msleep 30 ;;; imx662_write_reg IMX662_XMSTA 0x00).
Proof.
  intros st. rewrite bind_unfold, imx662_write_reg_eq. cbn [fst snd].
  pose proof (errno_result_nonpos (regmap st (bus st) IMX662_STANDBY 0)) as Hn.
  destruct (Z.ltb_spec (errno_result (regmap st (bus st) IMX662_STANDBY 0)) 0)
    as [Hl|Hl].
  { rewrite Ret_eq. cbn [fst]. intros H0. exfalso. lia. }
  assert (Hz : errno_result (regmap st (bus st) IMX662_STANDBY 0) = 0) by lia.
  rewrite Hz. rewrite bind_unfold. unfold msleep. rewrite modify_eq.
  cbn [fst snd]. rewrite imx662_write_reg_eq. cbn [fst snd set_bus bus regmap].
  intros Hx. rewrite Hx. exists (bus st). unfold start_epilogue.
  rewrite <- !app_assoc. reflexivity.
Qed.

(** A start sequence that returns 0 ended with the standby clear, the delay
    and the master start, both writes accepted. *)
Lemma start_streaming_success_epilogue : ends_started imx662_start_streaming.
Proof.
  unfold imx662_start_streaming.
  apply ends_started_bind; intros r1. apply ends_started_guard_lt.
  apply ends_started_bind; intros inck.
  apply ends_started_bind; intros r2. apply ends_started_guard_lt.
  apply ends_started_bind; intros r3. apply ends_started_guard_lt.
  apply ends_started_bind; intros m.
  apply ends_started_bind; intros r4. apply ends_started_guard_lt.
  apply ends_started_bind; intros lanes.
  apply ends_started_bind; intros r5. apply ends_started_guard_lt.
  apply ends_started_bind; intros r6. apply ends_started_guard_lt.
  apply ends_started_bind; intros r7. apply ends_started_guard_ne.
  apply ends_started_tail.
Qed.

Lemma set_stream_on_eq st :
  imx662_set_stream 1 st =
  match power_fault st with
  | Some e => (- Z.pos e, st)
  | None =>
      let st1 := set_pm_usage st (pm_usage st + 1) in
      let res := imx662_start_streaming st1 in
      if fst res =? 0
      then (fst res,
            upd_ctrl (upd_ctrl (snd res) V4L2_CID_VFLIP
                        (with_grabbed (ctrls (snd res) V4L2_CID_VFLIP) true))
                     V4L2_CID_HFLIP
                     (with_grabbed (ctrls (upd_ctrl (snd res) V4L2_CID_VFLIP
                        (with_grabbed (ctrls (snd res) V4L2_CID_VFLIP) true))
                        V4L2_CID_HFLIP) true))
      else (fst res,
            set_pm_usage (snd res) (Z.max 0 (pm_usage (snd res) - 1)))
  end.
Proof.
  unfold imx662_set_stream. cbn [truthy Z.eqb negb].
  rewrite bind_unfold. unfold pm_runtime_resume_and_get.
  destruct (power_fault st) as [e|]; cbn [fst snd Z.ltb Z.compare Z.opp].
  - reflexivity.
  - cbv zeta. rewrite bind_unfold.
    destruct (imx662_start_streaming _) as [r st2]. cbn [fst snd].
    destruct (Z.eqb_spec r 0); cbn [negb].
    + unfold __v4l2_ctrl_grab.
      rewrite bind_unfold, modify_ctrl_eq. cbn [fst snd].
      rewrite bind_unfold, modify_ctrl_eq. cbn [fst snd].
      reflexivity.
    + rewrite bind_unfold. unfold pm_runtime_put. rewrite modify_eq. reflexivity.
Qed.

(** X4: a stream-on request either succeeds, and then the usage reference is
    held, both flips are grabbed and the bus trace ends with the standby
    clear, the delay and the master start; or it fails, and then the usage
    counter and the grabbed flag of every control are as before the call. *)
Theorem set_stream_on_outcome st :
  0 <= pm_usage st ->
  let res := imx662_set_stream 1 st in
  (fst res = 0 /\
   pm_usage (snd res) = pm_usage st + 1 /\
   grabbed (ctrls (snd res) V4L2_CID_VFLIP) = true /\
   grabbed (ctrls (snd res) V4L2_CID_HFLIP) = true /\
   exists pre, bus (snd res) = pre ++ start_epilogue)
  \/ (fst res <> 0 /\
      pm_usage (snd res) = pm_usage st /\
      forall id, grabbed (ctrls (snd res) id) = grabbed (ctrls st id)).
Proof.
  intros Hp. cbv zeta. rewrite set_stream_on_eq.
  destruct (power_fault st) as [e|].
  { right. cbn [fst snd]. split; [lia|]. split; reflexivity. }
  cbv zeta. set (st1 := set_pm_usage st (pm_usage st + 1)).
  pose proof (evolves_start_streaming st1) as (_ & P & _ & G).
  pose proof (start_streaming_success_epilogue st1) as Hep.
  destruct (imx662_start_streaming st1) as [r st2]. cbn [fst snd] in *.
  destruct (Z.eqb_spec r 0) as [Hr|Hr]; cbn [fst snd].
  - left. split; [exact Hr|]. split; [exact P|].
    split.
    { rewrite ctrls_upd_other by (intros E; discriminate E).
      rewrite ctrls_upd_same. reflexivity. }
    split; [rewrite ctrls_upd_same; reflexivity|].
    apply Hep. exact Hr.
  - right. split; [exact Hr|]. split.
    + cbn [pm_usage set_pm_usage]. rewrite P. unfold st1.
      cbn [pm_usage set_pm_usage]. lia.
    + intros id. apply (proj2 (G id)).
Qed.

Lemma set_stream_on_outcome_witness :
  0 <= pm_usage (probed no_fault) /\
  fst (imx662_set_stream 1 (probed no_fault)) = 0 /\
  pm_usage (snd (imx662_set_stream 1 (probed no_fault))) = 1.
Proof.
  assert (H : 0 <= pm_usage (probed no_fault)) by (vm_compute; discriminate).
  split; [exact H|].
  destruct (set_stream_on_outcome (probed no_fault) H)
    as [(H0 & H1 & _) | (H0 & _)].
  - split; [exact H0|]. rewrite H1. reflexivity.
  - exfalso. apply H0. vm_compute. reflexivity.
Defined.

Lemma set_stream_off_eq st :
  imx662_set_stream 0 st =
  let st1 := snd (imx662_stop_streaming st) in
  let st2 := set_pm_usage st1 (Z.max 0 (pm_usage st1 - 1)) in
  let st3 := upd_ctrl st2 V4L2_CID_VFLIP
               (with_grabbed (ctrls st2 V4L2_CID_VFLIP) false) in
  (0, upd_ctrl st3 V4L2_CID_HFLIP
        (with_grabbed (ctrls st3 V4L2_CID_HFLIP) false)).
Proof.
  unfold imx662_set_stream. cbn [truthy Z.eqb negb].
  rewrite bind_unfold. destruct (imx662_stop_streaming st) as [r st1].
  cbn [fst snd]. rewrite bind_unfold. unfold pm_runtime_put.
  rewrite modify_eq. cbn [fst snd]. unfold __v4l2_ctrl_grab.
  rewrite bind_unfold, modify_ctrl_eq. cbn [fst snd].
  rewrite bind_unfold, modify_ctrl_eq. cbn [fst snd]. reflexivity.
Qed.

(** X5: stream-off undoes stream-on.  After a stream-on that succeeded, a
    stream-off request brings the usage counter back to its value before the
    stream-on and releases both flips, whatever the transport does with the
    writes of the stop sequence; the configuration, the mode and the formats
    are those from before the stream-on. *)
Theorem set_stream_off_undoes_on st :
  0 <= pm_usage st ->
  fst (imx662_set_stream 1 st) = 0 ->
  let st' := snd (imx662_set_stream 0 (snd (imx662_set_stream 1 st))) in
  pm_usage st' = pm_usage st /\
  grabbed (ctrls st' V4L2_CID_VFLIP) = false /\
  grabbed (ctrls st' V4L2_CID_HFLIP) = false /\
  fixed_part st' = fixed_part st.
Proof.
  intros Hp H0. cbv zeta. rewrite set_stream_off_eq. cbv zeta. cbn [snd].
  revert H0. rewrite set_stream_on_eq.
  destruct (power_fault st) as [e|].
  { cbn [fst]. intros H. exfalso. lia. }
  cbv zeta. set (st1 := set_pm_usage st (pm_usage st + 1)).
  pose proof (evolves_start_streaming st1) as (F & P & _ & _).
  destruct (imx662_start_streaming st1) as [r st2]. cbn [fst snd] in *.
  destruct (Z.eqb_spec r 0) as [Hr|Hr]; cbn [fst snd]; [intros _|intros H; contradiction].
  set (on := upd_ctrl (upd_ctrl st2 _ _) _ _).
  pose proof (evolves_stop_streaming on) as (F' & P' & _ & _).
  set (off := snd (imx662_stop_streaming on)) in *.
  split.
  { cbn [pm_usage upd_ctrl set_ctrls set_pm_usage]. rewrite P'.
    change (pm_usage on) with (pm_usage st2). rewrite P. unfold st1.
    cbn [pm_usage set_pm_usage]. lia. }
  split.
  { rewrite ctrls_upd_other by (intros E; discriminate E).
    rewrite ctrls_upd_same. reflexivity. }
  split; [rewrite ctrls_upd_same; reflexivity|].
  change (fixed_part (upd_ctrl (upd_ctrl (set_pm_usage off
            (Z.max 0 (pm_usage off - 1))) V4L2_CID_VFLIP
            (with_grabbed (ctrls (set_pm_usage off
               (Z.max 0 (pm_usage off - 1))) V4L2_CID_VFLIP) false))
            V4L2_CID_HFLIP
            (with_grabbed (ctrls (upd_ctrl (set_pm_usage off
               (Z.max 0 (pm_usage off - 1))) V4L2_CID_VFLIP
               (with_grabbed (ctrls (set_pm_usage off
                  (Z.max 0 (pm_usage off - 1))) V4L2_CID_VFLIP) false))
               V4L2_CID_HFLIP) false)))
    with (fixed_part off).
  rewrite F'. change (fixed_part on) with (fixed_part st2). rewrite F.
  reflexivity.
Qed.

Lemma set_stream_off_undoes_on_witness :
  let st := probed (fails_at_after 172 IMX662_STANDBY) in
  0 <= pm_usage st /\
  fst (imx662_set_stream 1 st) = 0 /\
  fst (imx662_stop_streaming (snd (imx662_set_stream 1 st))) = -5 /\
  pm_usage (snd (imx662_set_stream 0 (snd (imx662_set_stream 1 st)))) = 0.
Proof.
  assert (H : 0 <= pm_usage (probed (fails_at_after 172 IMX662_STANDBY)))
    by (vm_compute; discriminate).
  assert (H0 : fst (imx662_set_stream 1
                      (probed (fails_at_after 172 IMX662_STANDBY))) = 0)
    by (vm_compute; reflexivity).
  split; [exact H|]. split; [exact H0|]. split; [vm_compute; reflexivity|].
  destruct (set_stream_off_undoes_on _ H H0) as (P & _).
  rewrite P. reflexivity.
Defined.

(** ** Control changes *)

(** X6: a control change requested while the device is not powered is only
    cached.  Nothing is issued on the bus, the usage counter stays, and no
    other control and no range is touched.  An integer control commits the
    requested value clamped into its range and a flip commits 1 for every
    value other than 0, both returning 0; the link-frequency menu commits an
    index of its range that is not masked out and otherwise keeps its value
    and returns [-ERANGE] or [-EINVAL]; and the 64-bit pixel rate is
    refused with [-EINVAL] by this setter, the context staying as it
    was. *)
Theorem unpowered_control_change_is_cached id v st :
  pm_usage st <= 0 ->
  grabbed (ctrls st id) = false ->
  let res := user_set_ctrl id v st in
  let c := ctrls st id in
  let c' := ctrls (snd res) id in
  bus (snd res) = bus st /\
  pm_usage (snd res) = pm_usage st /\
  range_of c' = range_of c /\
  (forall id', id' <> id -> ctrls (snd res) id' = ctrls st id') /\
  match ctrl_type id with
  | V4L2_CTRL_TYPE_INTEGER =>
      fst res = 0 /\
      cur_val c' = clamp (minimum c) (maximum c) v /\ val c' = cur_val c'
  | V4L2_CTRL_TYPE_BOOLEAN =>
      fst res = 0 /\
      cur_val c' = (if v =? 0 then 0 else 1) /\ val c' = cur_val c'
  | V4L2_CTRL_TYPE_INTEGER_MENU =>
      if (v <? minimum c) || (maximum c <? v)
      then fst res = - ERANGE /\ cur_val c' = cur_val c
      else if (v <? 64) && Z.testbit (step c) v
      then fst res = - EINVAL /\ cur_val c' = cur_val c
      else fst res = 0 /\ cur_val c' = v /\ val c' = v
  | V4L2_CTRL_TYPE_INTEGER64 => res = (- EINVAL, st)
  end.
Proof.
  intros Hp Hg. cbv zeta. unfold user_set_ctrl.
  destruct (ctrl_type id) eqn:Ht.
  - rewrite s_ctrl_eq by (unfold is_int; rewrite Ht; reflexivity).
    set (st0 := upd_ctrl st id (with_val (ctrls st id) v)).
    rewrite set_ctrl_integer_eq by (left; exact Ht).
    rewrite bind_unfold, modify_ctrl_eq. cbn [fst snd].
    set (st1 := upd_ctrl st0 id (round_to_range (ctrls st0 id))).
    assert (C1 : ctrls st1 id = round_to_range (with_val (ctrls st id) v)).
    { unfold st1, st0. rewrite !ctrls_upd_same. reflexivity. }
    destruct (set_ctrl_commit_unpowered id st1 Hp)
      as (R & B & P & C & V & Rg & O).
    { rewrite C1. exact Hg. }
    rewrite C1 in C, V, Rg.
    split; [exact B|]. split; [exact P|]. split; [exact Rg|].
    split.
    { intros id' Hn. rewrite (O id' Hn). unfold st1, st0.
      rewrite !ctrls_upd_other by exact Hn. reflexivity. }
    split; [exact R|]. split; [exact C|]. rewrite C, V. reflexivity.
  - rewrite s_ctrl_eq by (unfold is_int; rewrite Ht; reflexivity).
    set (st0 := upd_ctrl st id (with_val (ctrls st id) v)).
    unfold set_ctrl. rewrite bind_unfold. unfold validate_new.
    rewrite bind_unfold, get_ctrl_eq. cbn [fst snd]. rewrite Ht.
    rewrite bind_unfold, modify_ctrl_eq, Ret_eq. cbn [fst snd Z.eqb negb].
    set (st1 := upd_ctrl st0 id _).
    assert (C1 : ctrls st1 id =
                 with_val (with_val (ctrls st id) v) (if v =? 0 then 0 else 1)).
    { unfold st1, st0. rewrite !ctrls_upd_same. reflexivity. }
    destruct (set_ctrl_commit_unpowered id st1 Hp)
      as (R & B & P & C & V & Rg & O).
    { rewrite C1. exact Hg. }
    rewrite C1 in C, V, Rg.
    split; [exact B|]. split; [exact P|]. split; [exact Rg|].
    split.
    { intros id' Hn. rewrite (O id' Hn). unfold st1, st0.
      rewrite !ctrls_upd_other by exact Hn. reflexivity. }
    split; [exact R|]. split; [exact C|]. rewrite C, V. reflexivity.
  - rewrite s_ctrl_eq by (unfold is_int; rewrite Ht; reflexivity).
    set (st0 := upd_ctrl st id (with_val (ctrls st id) v)).
    assert (C0 : ctrls st0 id = with_val (ctrls st id) v)
      by apply ctrls_upd_same.
    assert (O0 : forall id', id' <> id -> ctrls st0 id' = ctrls st id').
    { intros id' Hn. apply ctrls_upd_other. exact Hn. }
    unfold set_ctrl. rewrite bind_unfold. unfold validate_new.
    rewrite bind_unfold, get_ctrl_eq. cbn [fst snd]. rewrite Ht, C0.
    cbn [val minimum maximum step with_val].
    destruct ((v <? minimum (ctrls st id)) || (maximum (ctrls st id) <? v)).
    { rewrite Ret_eq. cbn [fst snd negb Z.eqb Z.opp ERANGE]. rewrite Ret_eq.
      cbn [fst snd]. rewrite C0.
      split; [reflexivity|]. split; [reflexivity|]. split; [reflexivity|].
      split; [exact O0|]. split; reflexivity. }
    destruct ((v <? 64) && Z.testbit (step (ctrls st id)) v).
    { rewrite Ret_eq. cbn [fst snd negb Z.eqb Z.opp EINVAL]. rewrite Ret_eq.
      cbn [fst snd]. rewrite C0.
      split; [reflexivity|]. split; [reflexivity|]. split; [reflexivity|].
      split; [exact O0|]. split; reflexivity. }
    rewrite Ret_eq. cbn [fst snd negb Z.eqb].
    destruct (set_ctrl_commit_unpowered id st0 Hp)
      as (R & B & P & C & V & Rg & O).
    { rewrite C0. exact Hg. }
    rewrite C0 in C, V, Rg.
    split; [exact B|]. split; [exact P|]. split; [exact Rg|].
    split.
    { intros id' Hn. rewrite (O id' Hn). apply O0. exact Hn. }
    split; [exact R|]. split; [exact C | exact V].
  - rewrite s_ctrl_not_int by (unfold is_int; rewrite Ht; reflexivity).
    cbn [fst snd].
    split; [reflexivity|]. split; [reflexivity|]. split; [reflexivity|].
    split; [intros id' _; reflexivity | reflexivity].
Qed.

Lemma unpowered_control_change_is_cached_witness :
  let st := probed (fails_at IMX662_VMAX) in
  pm_usage st <= 0 /\
  grabbed (ctrls st V4L2_CID_VBLANK) = false /\
  grabbed (ctrls st V4L2_CID_HFLIP) = false /\
  fst (user_set_ctrl V4L2_CID_VBLANK 300000 st) = 0 /\
  bus (snd (user_set_ctrl V4L2_CID_VBLANK 300000 st)) = [] /\
  cur_val (ctrls (snd (user_set_ctrl V4L2_CID_VBLANK 300000 st))
             V4L2_CID_VBLANK) = 261043 /\
  cur_val (ctrls (snd (user_set_ctrl V4L2_CID_HFLIP (-1) st))
             V4L2_CID_HFLIP) = 1.
Proof.
  assert (H1 : pm_usage (probed (fails_at IMX662_VMAX)) <= 0)
    by (vm_compute; discriminate).
  assert (H2 : grabbed (ctrls (probed (fails_at IMX662_VMAX)) V4L2_CID_VBLANK)
               = false) by (vm_compute; reflexivity).
  assert (H3 : grabbed (ctrls (probed (fails_at IMX662_VMAX)) V4L2_CID_HFLIP)
               = false) by (vm_compute; reflexivity).
  destruct (unpowered_control_change_is_cached V4L2_CID_VBLANK 300000 _ H1 H2)
    as (B & _ & _ & _ & R & C & _).
  destruct (unpowered_control_change_is_cached V4L2_CID_HFLIP (-1) _ H1 H3)
    as (_ & _ & _ & _ & _ & CF & _).
  split; [exact H1|]. split; [exact H2|]. split; [exact H3|].
  split; [exact R|].
  split; [rewrite B; reflexivity|].
  split; [rewrite C; vm_compute; reflexivity | exact CF].
Defined.

(** X7: what [imx662_set_ctrl] never does.  Whatever the control, the power
    state and the transport, it leaves the usage counter as it found it,
    only adds to the bus trace, keeps the configuration, the mode, the
    formats and the flags of every control, and changes no control other
    than the exposure control; and it changes that one only when it is
    called on the vertical blank. *)
Theorem set_ctrl_footprint id st :
  let st' := snd (imx662_set_ctrl id st) in
  pm_usage st' = pm_usage st /\
  (exists t, bus st' = bus st ++ t) /\
  fixed_part st' = fixed_part st /\
  (forall i, read_only (ctrls st' i) = read_only (ctrls st i) /\
             grabbed (ctrls st' i) = grabbed (ctrls st i)) /\
  (forall i, i <> V4L2_CID_EXPOSURE -> ctrls st' i = ctrls st i) /\
  (id <> V4L2_CID_VBLANK ->
   ctrls st' V4L2_CID_EXPOSURE = ctrls st V4L2_CID_EXPOSURE).
Proof.
  cbv zeta.
  destruct (evolves_set_ctrl id st) as (F & P & B & G).
  split; [exact P|]. split; [exact B|]. split; [exact F|]. split; [exact G|].
  split.
  - intros i Hi. apply (frame_ctrl _ _ _ _ (preserves_set_ctrl id st)).
    intros [[]|E]. contradiction.
  - intros Hid.
    apply (frame_ctrl _ _ _ _ (preserves_set_ctrl_leaf id Hid st)), none_not.
Qed.

Lemma vmax_group_accepted_when_only_exposure_fails v st :
  regmap st = fails_at IMX662_EXPOSURE ->
  fst (imx662_write_buffered_reg IMX662_VMAX 3 v st) = 0.
Proof.
  intros Hr. rewrite imx662_write_buffered_reg_eq.
  destruct (write_all_trace (buffered_sequence IMX662_VMAX 3 v) st)
    as [[H _] | (k & w & e & Hn & _ & Ho & _)]; [exact H|].
  exfalso. rewrite Hr in Ho. unfold fails_at in Ho.
  destruct (Z.eqb_spec (fst w) IMX662_EXPOSURE) as [E|E]; [|discriminate Ho].
  unfold buffered_sequence, buffered_bytes in Hn. cbn [seq map app] in Hn.
  do 5 (destruct k as [|k]; [cbn in Hn; injection Hn as <-; cbn in E;
                              vm_compute in E; discriminate E|]).
  destruct k; discriminate Hn.
Qed.

Lemma exposure_group_refused x st :
  regmap st = fails_at IMX662_EXPOSURE ->
  write_all (buffered_sequence IMX662_EXPOSURE 3 x) st =
  (-5, set_bus st (bus st ++ [RegWrite IMX662_REGHOLD 1 0;
                              RegWrite IMX662_EXPOSURE (u8 (Z.shiftr x 0)) (-5)])).
Proof.
  intros Hr. unfold buffered_sequence, buffered_bytes.
  cbn [seq map app write_all fst snd].
  rewrite bind_unfold, imx662_write_reg_eq. cbn [fst snd]. rewrite Hr.
  assert (K1 : fails_at IMX662_EXPOSURE (bus st) IMX662_REGHOLD 1 = None)
    by reflexivity.
  rewrite K1. cbn [errno_result Z.eqb negb].
  rewrite bind_unfold, imx662_write_reg_eq. cbn [fst snd regmap set_bus bus].
  rewrite Hr.
  assert (K2 : forall h b,
            fails_at IMX662_EXPOSURE h (u16 (IMX662_EXPOSURE + Z.of_nat 0)) b
            = Some 5%positive) by reflexivity.
  rewrite K2. cbn [errno_result Z.eqb negb Z.opp]. rewrite Ret_eq.
  rewrite <- app_assoc. reflexivity.
Qed.

(** X8: [imx662_set_vmax] reports the VMAX group only.  On a transport that
    refuses the writes to the exposure register and accepts all others, it
    returns 0 although the exposure group it rewrites at the end stops at
    the refused write, after the hold marker and without release. *)
Theorem set_vmax_hides_exposure_fault v st :
  regmap st = fails_at IMX662_EXPOSURE ->
  fst (imx662_set_vmax v st) = 0 /\
  exists pre b,
    bus (snd (imx662_set_vmax v st)) =
      pre ++ [RegWrite IMX662_REGHOLD 1 0; RegWrite IMX662_EXPOSURE b (-5)].
Proof.
  intros Hr. split.
  { rewrite set_vmax_ret. apply vmax_group_accepted_when_only_exposure_fails.
    exact Hr. }
  unfold imx662_set_vmax. rewrite bind_unfold, gets_eq. cbn [fst snd].
  rewrite bind_unfold.
  pose proof (preserves_write_buffered_reg none IMX662_VMAX 3
                (u32 (v + height (current_mode st))) st) as F1.
  destruct (imx662_write_buffered_reg _ _ _ st) as [r1 st1]. cbn [fst snd] in *.
  rewrite bind_unfold.
  assert (F2 : frame (also none V4L2_CID_EXPOSURE) st1
                 (snd (__v4l2_ctrl_modify_range imx662_set_ctrl_nested
                         V4L2_CID_EXPOSURE IMX662_EXPOSURE_MIN
                         (u32 (u32 (v + height (current_mode st))
                               - IMX662_EXPOSURE_OFFSET))
                         IMX662_EXPOSURE_STEP
                         (u32 (u32 (v + height (current_mode st))
                               - IMX662_EXPOSURE_OFFSET)) st1))).
  { destruct (Z.eq_dec (check_range V4L2_CTRL_TYPE_INTEGER IMX662_EXPOSURE_MIN
                (u32 (u32 (v + height (current_mode st)) - IMX662_EXPOSURE_OFFSET))
                IMX662_EXPOSURE_STEP
                (u32 (u32 (v + height (current_mode st)) - IMX662_EXPOSURE_OFFSET)))
              0) as [H|H].
    - apply (modify_range_spec none); auto using preserves_set_ctrl_nested, none_not.
    - rewrite modify_range_rejected by exact H. apply frame_refl. }
  destruct (__v4l2_ctrl_modify_range _ _ _ _ _ _ st1) as [r2 st2].
  cbn [fst snd] in *.
  rewrite bind_unfold, get_ctrl_eq. cbn [fst snd].
  rewrite bind_unfold, Ret_eq. cbn [snd].
  assert (Hr2 : regmap st2 = fails_at IMX662_EXPOSURE).
  { rewrite (frame_regmap _ _ _ F2), (frame_regmap _ _ _ F1). exact Hr. }
  rewrite imx662_set_exposure_eq, (exposure_group_refused _ st2 Hr2).
  cbn [snd bus set_bus]. eexists. eexists. reflexivity.
Qed.

Lemma set_vmax_hides_exposure_fault_witness :
  let st := set_regmap streaming_state (fails_at IMX662_EXPOSURE) in
  regmap st = fails_at IMX662_EXPOSURE /\
  fst (imx662_set_vmax 200 st) = 0.
Proof.
  split; [reflexivity|].
  apply (set_vmax_hides_exposure_fault 200
           (set_regmap streaming_state (fails_at IMX662_EXPOSURE)) eq_refl).
Defined.

(** ** Held groups decode to the value written *)





(** ** Horizontal timing *)

(** X10: for a horizontal blank [v] with [0 <= v] and
    [v + width <= 2 * HMAX_MAX + 1] (every value of the published range
    qualifies), on a transport without faults [imx662_set_hmax] writes, as
    a held two-byte group at the HMAX register, exactly
    [(v + width) / 2]. *)
Theorem set_hmax_encoding st v :
  fault_free st ->
  0 <= v -> 0 <= width (current_mode st) ->
  v + width (current_mode st) <= 2 * IMX662_HMAX_MAX + 1 ->
  let h := (v + width (current_mode st)) / 2 in
  imx662_set_hmax v st =
    (0, set_bus st (bus st ++
          [ RegWrite IMX662_REGHOLD 1 0;
            RegWrite IMX662_HMAX (h mod 256) 0;
            RegWrite (IMX662_HMAX + 1) (h / 256 mod 256) 0;
            RegWrite IMX662_REGHOLD 0 0 ])) /\
  h mod 256 + 256 * (h / 256 mod 256) = h /\
  0 <= h <= IMX662_HMAX_MAX.
Proof.
  intros Hff Hv Hw Hmax h.
  change IMX662_HMAX_MAX with 65535 in *.
  assert (Hh : 0 <= h <= 65535).
  { unfold h. split; [apply Z.div_pos; lia|].
    assert (Hlt : (v + width (current_mode st)) / 2 < 65536)
      by (apply Z.div_lt_upper_bound; lia).
    lia. }
  split.
  - unfold imx662_set_hmax. rewrite bind_unfold, gets_eq. cbn [fst snd].
    rewrite imx662_write_buffered_reg_eq, write_all_fault_free by exact Hff.
    rewrite u32_small by (change (2 ^ 32) with 4294967296; lia).
    rewrite Z.shiftr_div_pow2 by lia. change (2 ^ 1) with 2. fold h.
    unfold buffered_sequence, buffered_bytes, ok_writes.
    cbn [seq map fst snd app].
    change (Z.of_nat 0) with 0. change (Z.of_nat 1) with 1.
    change (u16 (IMX662_HMAX + 0)) with IMX662_HMAX.
    change (u16 (IMX662_HMAX + 1)) with (IMX662_HMAX + 1).
    change (0 * 8) with 0. change (1 * 8) with 8.
    rewrite Z.shiftr_0_r, Z.shiftr_div_pow2 by lia. reflexivity.
  - split; [|exact Hh].
    assert (H2 : h / 256 mod 256 = h / 256).
    { apply Z.mod_small. split; [apply Z.div_pos; lia|].
      apply Z.div_lt_upper_bound; lia. }
    rewrite H2. pose proof (Z.div_mod h 256 ltac:(lia)). lia.
Qed.

Lemma set_hmax_encoding_witness :
  let st := probed no_fault in
  fault_free st /\
  imx662_set_hmax 44 st =
    (0, set_bus st [ RegWrite 0x3001 1 0; RegWrite 0x302c 0xde 0;
                     RegWrite 0x302d 0x03 0; RegWrite 0x3001 0 0 ]).
Proof.
  assert (Hff : fault_free (probed no_fault)) by (intros h a v; reflexivity).
  split; [exact Hff|].
  destruct (set_hmax_encoding (probed no_fault) 44 Hff
              ltac:(discriminate) ltac:(vm_compute; discriminate)
              ltac:(vm_compute; discriminate)) as (H & _).
  rewrite H. reflexivity.
Defined.

(** ** Format negotiation *)

Lemma find_format_loop_bounds l c : forall i,
  i <= find_format_loop l c i <= i + Z.of_nat (length l).
Proof.
  induction l as [|f l IH]; intros i; cbn [find_format_loop length].
  - lia.
  - destruct (code f =? c); [lia|]. specialize (IH (i + 1)). lia.
Qed.

Lemma find_format_loop_found l c : forall i,
  find_format_loop l c i < i + Z.of_nat (length l) ->
  code (nth (Z.to_nat (find_format_loop l c i - i)) l
          {| code := 0; pixfmt_bpp := 0 |}) = c.
Proof.
  induction l as [|f l IH]; intros i; cbn [find_format_loop length].
  - lia.
  - destruct (Z.eqb_spec (code f) c) as [E|E].
    + intros _. rewrite Z.sub_diag. exact E.
    + intros H. pose proof (find_format_loop_bounds l c (i + 1)) as B.
      replace (find_format_loop l c (i + 1) - i)
        with (Z.succ (find_format_loop l c (i + 1) - (i + 1))) by lia.
      rewrite Z2Nat.inj_succ by lia. cbn [nth]. apply IH. lia.
Qed.

Lemma find_format_loop_missing l c : forall i,
  find_format_loop l c i = i + Z.of_nat (length l) ->
  ~ In c (map code l).
Proof.
  induction l as [|f l IH]; intros i; cbn [find_format_loop length map In].
  - intros _ [].
  - destruct (Z.eqb_spec (code f) c) as [E|E].
    + lia.
    + intros H [H1|H1]; [contradiction|].
      apply (IH (i + 1)); [lia | exact H1].
Qed.

Lemma set_fmt_index_range fmts c :
  length fmts = 2%nat -> 0 <= set_fmt_index fmts c < 2.
Proof.
  intros Hlen. pose proof (find_format_loop_bounds fmts c 0) as B.
  unfold set_fmt_index. change IMX662_NUM_FORMATS with 2.
  destruct (Z.leb_spec 2 (find_format_loop fmts c 0)); lia.
Qed.

Lemma set_fmt_index_keeps fmts c :
  length fmts = 2%nat -> In c (map code fmts) ->
  code (format_at fmts (set_fmt_index fmts c)) = c.
Proof.
  intros Hlen Hc. unfold set_fmt_index. change IMX662_NUM_FORMATS with 2.
  destruct (Z.leb_spec 2 (find_format_loop fmts c 0)) as [H2|H2].
  - exfalso. apply (find_format_loop_missing fmts c 0); [|exact Hc].
    pose proof (find_format_loop_bounds fmts c 0) as B.
    rewrite Hlen in *. cbn in *. lia.
  - pose proof (find_format_loop_found fmts c 0) as Hfound.
    rewrite Hlen, Z.sub_0_r in Hfound. unfold format_at. apply Hfound.
    cbn. lia.
Qed.

Lemma set_fmt_index_fallback fmts c :
  length fmts = 2%nat -> ~ In c (map code fmts) -> set_fmt_index fmts c = 0.
Proof.
  intros Hlen Hn. unfold set_fmt_index. change IMX662_NUM_FORMATS with 2.
  destruct (Z.leb_spec 2 (find_format_loop fmts c 0)) as [H2|H2];
    [reflexivity|].
  exfalso. apply Hn.
  pose proof (find_format_loop_found fmts c 0) as Hfound.
  pose proof (find_format_loop_bounds fmts c 0) as B.
  rewrite Hlen, Z.sub_0_r in Hfound.
  rewrite <- Hfound by (cbn; lia).
  apply in_map, nth_In. rewrite Hlen. lia.
Qed.

Lemma format_at_in fmts i :
  length fmts = 2%nat -> 0 <= i < 2 ->
  In (code (format_at fmts i)) (map code fmts).
Proof.
  intros Hlen Hi. apply in_map. unfold format_at. apply nth_In.
  rewrite Hlen. lia.
Qed.

(** The format [imx662_set_fmt] hands back. *)
Lemma set_fmt_format fmt st :
  fst (imx662_set_fmt fmt st) =
  (0, {| which := which fmt;
         format := set_fmt_result (formats st) (fmt_code (format fmt)) |}).
Proof.
  destruct (which fmt) eqn:Hw.
  - rewrite (set_fmt_try_eq fmt st Hw), Hw. reflexivity.
  - destruct (set_fmt_active_spec fmt st Hw) as (Hr & _).
    rewrite Hr, Hw. reflexivity.
Qed.

(** X11: format negotiation in [imx662_set_fmt].  With the two formats of
    the sensor variant, the format handed back always has the size of the
    catalog mode and a code of the variant's list, field NONE and
    colorspace RAW; a requested code of the list is kept, any other code is
    replaced by the first one of the list; and asking again for the format
    handed back gives the same format. *)
Theorem set_fmt_negotiates fmt st :
  length (formats st) = 2%nat ->
  let f := format (snd (fst (imx662_set_fmt fmt st))) in
  let codes := map code (formats st) in
  fmt_width f = 1936 /\ fmt_height f = 1100 /\
  fmt_field f = V4L2_FIELD_NONE /\ fmt_colorspace f = V4L2_COLORSPACE_RAW /\
  In (fmt_code f) codes /\
  (In (fmt_code (format fmt)) codes -> fmt_code f = fmt_code (format fmt)) /\
  (~ In (fmt_code (format fmt)) codes -> fmt_code f = nth 0 codes 0) /\
  set_fmt_result (formats st) (fmt_code f) = f.
Proof.
  intros Hlen. cbv zeta. rewrite set_fmt_format. cbn [fst snd format].
  set (c := fmt_code (format fmt)).
  unfold set_fmt_result at 1 2 3 4 5 6 7.
  cbn [fmt_width fmt_height fmt_field fmt_colorspace fmt_code].
  pose proof (set_fmt_index_range (formats st) c Hlen) as Hidx.
  pose proof (format_at_in (formats st) _ Hlen Hidx) as Hin.
  split; [reflexivity|]. split; [reflexivity|].
  split; [reflexivity|]. split; [reflexivity|].
  split; [exact Hin|].
  split; [apply set_fmt_index_keeps; exact Hlen|].
  split.
  - intros Hn. rewrite (set_fmt_index_fallback _ _ Hlen Hn).
    unfold format_at. cbn [Z.to_nat].
    exact (eq_sym (map_nth code (formats st)
                     {| code := 0; pixfmt_bpp := 0 |} 0)).
  - unfold set_fmt_result.
    cbn [fmt_code].
    rewrite (set_fmt_index_keeps _ _ Hlen Hin). reflexivity.
Qed.

Lemma set_fmt_negotiates_witness :
  let st := probed no_fault in
  length (formats st) = 2%nat /\
  fmt_code (format (snd (fst (imx662_set_fmt
                (active_fmt MEDIA_BUS_FMT_SRGGB12_1X12) st))))
    = MEDIA_BUS_FMT_SRGGB12_1X12 /\
  fmt_code (format (snd (fst (imx662_set_fmt
                (active_fmt MEDIA_BUS_FMT_Y10_1X10) st))))
    = MEDIA_BUS_FMT_SRGGB10_1X10.
Proof.
  assert (H : length (formats (probed no_fault)) = 2%nat) by reflexivity.
  split; [exact H|]. split.
  - destruct (set_fmt_negotiates (active_fmt MEDIA_BUS_FMT_SRGGB12_1X12)
                (probed no_fault) H) as (_ & _ & _ & _ & _ & K & _).
    apply K. vm_compute. right. left. reflexivity.
  - destruct (set_fmt_negotiates (active_fmt MEDIA_BUS_FMT_Y10_1X10)
                (probed no_fault) H) as (_ & _ & _ & _ & _ & _ & K & _).
    rewrite K; [reflexivity|].
    vm_compute. intros [E|[E|[]]]; discriminate E.
Defined.

(** ** Reading the format back *)

(** X12: [imx662_get_fmt] returns what [imx662_set_fmt] handed back.  After
    a set-format request, reading the format of the same kind (try or
    active) returns 0 and exactly the format the request handed back, without
    changing the device context; and a try request leaves the active format
    that is read back as it was. *)
Theorem get_fmt_after_set_fmt fmt st :
  let res := imx662_set_fmt fmt st in
  imx662_get_fmt (which fmt) (snd res) = ((0, snd (fst res)), snd res) /\
  (which fmt = V4L2_SUBDEV_FORMAT_TRY ->
   fst (imx662_get_fmt V4L2_SUBDEV_FORMAT_ACTIVE (snd res))
   = fst (imx662_get_fmt V4L2_SUBDEV_FORMAT_ACTIVE st)).
Proof.
  cbv zeta. unfold imx662_get_fmt.
  rewrite !bind_unfold, !gets_eq, !Ret_eq. cbn [fst snd].
  rewrite set_fmt_format. cbn [fst snd].
  destruct (which fmt) eqn:Hw.
  - rewrite (set_fmt_try_eq fmt st Hw). cbn [snd try_format set_try_format
      current_format].
    split; [reflexivity|]. intros _. reflexivity.
  - destruct (set_fmt_active_spec fmt st Hw) as (_ & _ & _ & Hf & _).
    rewrite Hf. split; [reflexivity|]. intros H; discriminate H.
Qed.

(** ** Enumeration *)

Lemma enum_frame_size_listed st c index :
  In c (map code (formats st)) -> length (formats st) = 2%nat ->
  imx662_enum_frame_size st c index =
  if IMX662_NUM_MODES <=? index then (- EINVAL, None)
  else (0, Some {| min_width := width (mode_at index);
                   max_width := width (mode_at index);
                   min_height := height (mode_at index);
                   max_height := height (mode_at index) |}).
Proof.
  intros Hc Hlen. unfold imx662_enum_frame_size.
  destruct (formats st) as [|f0 [|f1 [|f2 l]]]; try discriminate Hlen.
  unfold format_at. cbn [Z.to_nat nth Pos.to_nat Pos.iter_op Nat.add].
  cbn [map In] in Hc. destruct Hc as [E|[E|[]]]; rewrite <- E.
  - rewrite Z.eqb_refl. reflexivity.
  - rewrite Z.eqb_refl. rewrite andb_false_r. reflexivity.
Qed.

(** X13: enumeration agrees with format negotiation.  With the two formats
    of the sensor variant, [imx662_enum_mbus_code] fails with [-EINVAL] from
    index 2 on; for index 0 and 1 it returns a code for which
    [imx662_enum_frame_size] reports, at index 0, the fixed size 1936x1100
    and fails with [-EINVAL] at every further index, and which
    [imx662_set_fmt] hands back unchanged with that size. *)
Theorem enumeration_agrees_with_set_fmt st index :
  length (formats st) = 2%nat -> 0 <= index ->
  match imx662_enum_mbus_code st index with
  | (r, Some c) =>
      r = 0 /\ index < 2 /\
      imx662_enum_frame_size st c 0 =
        (0, Some {| min_width := 1936; max_width := 1936;
                    min_height := 1100; max_height := 1100 |}) /\
      (forall i, 1 <= i -> imx662_enum_frame_size st c i = (- EINVAL, None)) /\
      (forall w,
         let f := format (snd (fst (imx662_set_fmt
                    {| which := w; format := {| fmt_width := 1936;
                         fmt_height := 1100; fmt_code := c; fmt_field := 0;
                         fmt_colorspace := 0 |} |} st))) in
         fmt_code f = c /\ fmt_width f = 1936 /\ fmt_height f = 1100)
  | (r, None) => r = - EINVAL /\ 2 <= index
  end.
Proof.
  intros Hlen Hi. unfold imx662_enum_mbus_code. change IMX662_NUM_FORMATS with 2.
  destruct (Z.leb_spec 2 index) as [H2|H2].
  - split; [reflexivity | exact H2].
  - assert (Hc : In (code (format_at (formats st) index)) (map code (formats st)))
      by (apply format_at_in; [exact Hlen | lia]).
    split; [reflexivity|]. split; [exact H2|].
    split; [rewrite enum_frame_size_listed by assumption; reflexivity|].
    split.
    + intros i Hi1. rewrite enum_frame_size_listed by assumption.
      change IMX662_NUM_MODES with 1.
      destruct (Z.leb_spec 1 i); [reflexivity | lia].
    + intros w. cbv zeta. rewrite set_fmt_format. cbn [fst snd format fmt_code].
      unfold set_fmt_result. cbn [fmt_code fmt_width fmt_height].
      split; [apply set_fmt_index_keeps; assumption|]. split; reflexivity.
Qed.

Lemma enumeration_agrees_with_set_fmt_witness :
  let st := probed no_fault in
  length (formats st) = 2%nat /\ 0 <= 1 /\
  imx662_enum_mbus_code st 1 = (0, Some MEDIA_BUS_FMT_SRGGB12_1X12) /\
  imx662_enum_frame_size st MEDIA_BUS_FMT_SRGGB12_1X12 0 =
    (0, Some {| min_width := 1936; max_width := 1936;
                min_height := 1100; max_height := 1100 |}).
Proof.
  assert (H : length (formats (probed no_fault)) = 2%nat) by reflexivity.
  assert (H1 : 0 <= 1) by discriminate.
  pose proof (enumeration_agrees_with_set_fmt (probed no_fault) 1 H H1) as K.
  split; [exact H|]. split; [exact H1|].
  assert (E : imx662_enum_mbus_code (probed no_fault) 1
              = (0, Some MEDIA_BUS_FMT_SRGGB12_1X12)) by reflexivity.
  rewrite E in K. destruct K as (_ & _ & K & _).
  split; [exact E | exact K].
Defined.

(** ** Firmware description *)

Lemma link_freq_listed_in f ep : link_freq_listed f ep = true <-> In f ep.
Proof.
  induction ep as [|g ep IH]; cbn [link_freq_listed In].
  - split; [discriminate | intros []].
  - destruct (Z.eqb_spec f g) as [E|E].
    + split; [intros _; left; symmetry; exact E | reflexivity].
    + rewrite IH. split; [intros H; right; exact H|].
      intros [H|H]; [congruence | exact H].
Qed.

Lemma check_link_freqs_loop_zero freqs ep :
  ~ In 0 freqs ->
  (check_link_freqs_loop freqs ep = 0 <-> forall f, In f freqs -> In f ep).
Proof.
  induction freqs as [|f freqs IH]; intros Hnz; cbn [check_link_freqs_loop].
  - split; [intros _ f [] | reflexivity].
  - assert (Hnz' : ~ In 0 freqs) by (intros H; apply Hnz; right; exact H).
    destruct (link_freq_listed f ep) eqn:E.
    + rewrite (IH Hnz'). apply link_freq_listed_in in E. split.
      * intros H g [<-|Hg]; [exact E | apply H, Hg].
      * intros H g Hg. apply H. right. exact Hg.
    + split.
      * intros H. exfalso. apply Hnz. left. exact H.
      * intros H. exfalso.
        assert (Hin : In f ep) by (apply H; left; reflexivity).
        apply link_freq_listed_in in Hin. congruence.
Qed.

Lemma check_link_freqs_loop_missing freqs ep :
  check_link_freqs_loop freqs ep <> 0 ->
  In (check_link_freqs_loop freqs ep) freqs /\
  ~ In (check_link_freqs_loop freqs ep) ep.
Proof.
  induction freqs as [|f freqs IH]; cbn [check_link_freqs_loop].
  - intros H. contradiction.
  - destruct (link_freq_listed f ep) eqn:E.
    + intros H. destruct (IH H) as [H1 H2]. split; [right; exact H1 | exact H2].
    + intros _. split; [left; reflexivity|].
      intros Hin. apply link_freq_listed_in in Hin. congruence.
Qed.

Lemma check_link_freqs_zero lanes ep :
  imx662_check_link_freqs lanes ep = 0 <->
  In (if lanes =? 2 then 594000000 else 297000000) ep.
Proof.
  unfold imx662_check_link_freqs.
  rewrite check_link_freqs_loop_zero.
  - unfold imx662_link_freqs_ptr. destruct (lanes =? 2); split.
    + intros H. apply H. left. reflexivity.
    + intros H f [<-|[]]. exact H.
    + intros H. apply H. left. reflexivity.
    + intros H f [<-|[]]. exact H.
  - unfold imx662_link_freqs_ptr. destruct (lanes =? 2);
      intros [H|[]]; discriminate H.
Qed.

(** X14: [imx662_check_link_freqs] returns 0 exactly when every link
    frequency the driver uses for the lane count (594 MHz on two lanes,
    297 MHz otherwise) is listed by the endpoint; otherwise it returns a
    frequency of the driver that the endpoint does not list. *)
Theorem check_link_freqs_correct lanes ep :
  (imx662_check_link_freqs lanes ep = 0 <->
   forall f, In f (imx662_link_freqs_ptr lanes) -> In f ep) /\
  (imx662_check_link_freqs lanes ep = 0 \/
   (In (imx662_check_link_freqs lanes ep) (imx662_link_freqs_ptr lanes) /\
    ~ In (imx662_check_link_freqs lanes ep) ep)) /\
  imx662_link_freqs_ptr lanes = [if lanes =? 2 then 594000000 else 297000000] /\
  imx662_link_freqs_num lanes = Z.of_nat (length (imx662_link_freqs_ptr lanes)).
Proof.
  unfold imx662_check_link_freqs. split; [|split; [|split]].
  - apply check_link_freqs_loop_zero.
    unfold imx662_link_freqs_ptr. destruct (lanes =? 2);
      intros [H|[]]; discriminate H.
  - destruct (Z.eq_dec (check_link_freqs_loop (imx662_link_freqs_ptr lanes) ep) 0)
      as [H|H]; [left; exact H|].
    right. apply check_link_freqs_loop_missing. exact H.
  - unfold imx662_link_freqs_ptr. destruct (lanes =? 2); reflexivity.
  - unfold imx662_link_freqs_num, imx662_link_freqs_ptr.
    destruct (lanes =? 2); reflexivity.
Qed.

Lemma inck_sel_of_xclk_some f c :
  inck_sel_of_xclk f = Some c <->
  (f = 74250000 /\ c = 0) \/ (f = 37125000 /\ c = 1) \/
  (f = 72000000 /\ c = 2) \/ (f = 27000000 /\ c = 3) \/
  (f = 24000000 /\ c = 4).
Proof.
  unfold inck_sel_of_xclk.
  change IMX662_INCK_SEL_74_25 with 0. change IMX662_INCK_SEL_37_125 with 1.
  change IMX662_INCK_SEL_72 with 2. change IMX662_INCK_SEL_27 with 3.
  change IMX662_INCK_SEL_24 with 4.
  destruct (Z.eqb_spec f 74250000); [split; [intros H; injection H as <-; lia|intros; f_equal; lia]|].
  destruct (Z.eqb_spec f 37125000); [split; [intros H; injection H as <-; lia|intros; f_equal; lia]|].
  destruct (Z.eqb_spec f 72000000); [split; [intros H; injection H as <-; lia|intros; f_equal; lia]|].
  destruct (Z.eqb_spec f 27000000); [split; [intros H; injection H as <-; lia|intros; f_equal; lia]|].
  destruct (Z.eqb_spec f 24000000); [split; [intros H; injection H as <-; lia|intros; f_equal; lia]|].
  split; [discriminate | lia].
Qed.

(** X15: what the first part of [imx662_probe] accepts, from the allocation
    of the context to the choice of the clock-select code.  It goes on
    exactly when the allocation and the register map succeed, a device id
    matches, an endpoint node exists and parses with result 0, the lane
    count is 2 or 4, the endpoint lists the link frequency of that lane
    count (594 MHz for two lanes, 297 MHz for four), the clock is found, its
    frequency is read with result 0 and is 74.25, 37.125, 72, 27 or 24 MHz;
    the clock-select code kept is then 0, 1, 2, 3 or 4 in that order, with
    the formats of the device id and the lane count.  A rejection is
    [-ENOMEM], [-ENODEV], [-EINVAL], or the non-zero result of parsing the
    endpoint, of getting the clock or of reading the clock frequency; and
    when all those calls succeed, every rejection is [-EINVAL]. *)
Theorem probe_config_accepts env :
  (forall fmts lanes c,
     imx662_probe_config env = inr (fmts, lanes, c) <->
     kzalloc_ok env = true /\ regmap_init_ok env = true /\
     of_match_data env = Some fmts /\
     (exists ep, graph_endpoint env = Some (0, ep) /\
                 num_data_lanes ep = lanes /\
                 In (if lanes =? 2 then 594000000 else 297000000)
                    (link_frequencies ep)) /\
     (lanes = 2 \/ lanes = 4) /\
     clk_get_error env = None /\
     (exists f, clock_frequency env = (0, f) /\
        ((f = 74250000 /\ c = 0) \/ (f = 37125000 /\ c = 1) \/
         (f = 72000000 /\ c = 2) \/ (f = 27000000 /\ c = 3) \/
         (f = 24000000 /\ c = 4)))) /\
  (forall e,
     imx662_probe_config env = inl e ->
     e = - ENOMEM \/ e = - ENODEV \/ e = - EINVAL \/
     (exists ep, graph_endpoint env = Some (e, ep) /\ e <> 0) \/
     (exists p, clk_get_error env = Some p /\ e = - Z.pos p) \/
     (exists f, clock_frequency env = (e, f) /\ e <> 0)) /\
  (kzalloc_ok env = true -> regmap_init_ok env = true ->
   of_match_data env <> None ->
   (exists ep, graph_endpoint env = Some (0, ep)) ->
   clk_get_error env = None -> fst (clock_frequency env) = 0 ->
   forall e, imx662_probe_config env = inl e -> e = - EINVAL).
Proof.
  destruct env as [ka ra md ge ce [cr cf]].
  unfold imx662_probe_config.
  cbn [kzalloc_ok regmap_init_ok of_match_data graph_endpoint clk_get_error
       clock_frequency fst].
  destruct ka; cbn [negb].
  2:{ split; [|split].
      - intros fmts lanes c. split; [discriminate|]. intros (H & _). discriminate H.
      - intros e H. injection H as <-. left. reflexivity.
      - intros H. discriminate H. }
  destruct ra; cbn [negb].
  2:{ split; [|split].
      - intros fmts lanes c. split; [discriminate|]. intros (_ & H & _). discriminate H.
      - intros e H. injection H as <-. right. left. reflexivity.
      - intros _ H. discriminate H. }
  destruct md as [fmts0|].
  2:{ split; [|split].
      - intros fmts lanes c. split; [discriminate|]. intros (_ & _ & H & _). discriminate H.
      - intros e H. injection H as <-. right. left. reflexivity.
      - intros _ _ H. contradiction. }
  destruct ge as [[ret ep0]|].
  2:{ split; [|split].
      - intros fmts lanes c. split; [discriminate|].
        intros (_ & _ & _ & (ep & H & _) & _). discriminate H.
      - intros e H. injection H as <-. right. right. left. reflexivity.
      - intros _ _ _ (ep & H). discriminate H. }
  destruct (Z.eqb_spec ret 0) as [->|Nret]; cbn [negb].
  2:{ split; [|split].
      - intros fmts lanes c. split; [discriminate|].
        intros (_ & _ & _ & (ep & H & _) & _). injection H as H _. contradiction.
      - intros e H. injection H as <-. right. right. right. left.
        exists ep0. split; [reflexivity | exact Nret].
      - intros _ _ _ (ep & H). injection H as H _. contradiction. }
  cbv zeta.
  pose proof (check_link_freqs_zero (num_data_lanes ep0) (link_frequencies ep0))
    as Hz.
  assert (Hl : negb (num_data_lanes ep0 =? 2) && negb (num_data_lanes ep0 =? 4)
               = false <-> num_data_lanes ep0 = 2 \/ num_data_lanes ep0 = 4).
  { destruct (Z.eqb_spec (num_data_lanes ep0) 2);
      destruct (Z.eqb_spec (num_data_lanes ep0) 4); cbn; split; intros;
      try discriminate; try lia; auto. }
  destruct (negb (num_data_lanes ep0 =? 2) && negb (num_data_lanes ep0 =? 4))
    eqn:EL.
  { assert (NL : ~ (num_data_lanes ep0 = 2 \/ num_data_lanes ep0 = 4)).
    { intros H. apply Hl in H. discriminate H. }
    split; [|split].
    - intros fmts lanes c. split; [discriminate|].
      intros (_ & _ & _ & (ep & H & <- & _) & HL & _).
      injection H as <-. contradiction.
    - intros e H. injection H as <-. right. right. left. reflexivity.
    - intros _ _ _ _ _ _ e H. injection H as <-. reflexivity. }
  assert (HL : num_data_lanes ep0 = 2 \/ num_data_lanes ep0 = 4)
    by (apply Hl; reflexivity).
  destruct (Z.eqb_spec (Z.of_nat (length (link_frequencies ep0))) 0) as [E0|E0].
  { assert (Hn : link_frequencies ep0 = []).
    { destruct (link_frequencies ep0); [reflexivity | cbn in E0; lia]. }
    split; [|split].
    - intros fmts lanes c. split; [discriminate|].
      intros (_ & _ & _ & (ep & H & <- & Hin) & _).
      injection H as <-. rewrite Hn in Hin. destruct Hin.
    - intros e H. injection H as <-. right. right. left. reflexivity.
    - intros _ _ _ _ _ _ e H. injection H as <-. reflexivity. }
  destruct (Z.eqb_spec (imx662_check_link_freqs (num_data_lanes ep0)
                          (link_frequencies ep0)) 0) as [C|C]; cbn [negb].
  2:{ split; [|split].
      - intros fmts lanes c. split; [discriminate|].
        intros (_ & _ & _ & (ep & H & <- & Hin) & _).
        injection H as <-. apply Hz in Hin. contradiction.
      - intros e H. injection H as <-. right. right. left. reflexivity.
      - intros _ _ _ _ _ _ e H. injection H as <-. reflexivity. }
  apply Hz in C.
  destruct ce as [p|].
  { split; [|split].
    - intros fmts lanes c. split; [discriminate|].
      intros (_ & _ & _ & _ & _ & H & _). discriminate H.
    - intros e H. injection H as <-. right. right. right. right. left.
      exists p. split; reflexivity.
    - intros _ _ _ _ H. discriminate H. }
  destruct (Z.eqb_spec cr 0) as [->|Ncr]; cbn [negb].
  2:{ split; [|split].
      - intros fmts lanes c. split; [discriminate|].
        intros (_ & _ & _ & _ & _ & _ & (f & H & _)).
        injection H as H _. contradiction.
      - intros e H. injection H as <-. right. right. right. right. right.
        exists cf. split; [reflexivity | exact Ncr].
      - intros _ _ _ _ _ H. contradiction. }
  destruct (inck_sel_of_xclk cf) as [k|] eqn:K.
  - apply inck_sel_of_xclk_some in K.
    split; [|split].
    + intros fmts lanes c. split.
      * intros H. injection H as <- <- <-.
        split; [reflexivity|]. split; [reflexivity|]. split; [reflexivity|].
        split; [exists ep0; split; [reflexivity|]; split; [reflexivity | exact C]|].
        split; [exact HL|]. split; [reflexivity|].
        exists cf. split; [reflexivity | exact K].
      * intros (_ & _ & Hm & (ep & He & <- & _) & _ & _ & (f & Hf & Hc)).
        injection Hm as <-. injection He as <-. injection Hf as <-.
        assert (c = k) by lia. subst c. reflexivity.
    + intros e H. discriminate H.
    + intros _ _ _ _ _ _ e H. discriminate H.
  - split; [|split].
    + intros fmts lanes c. split; [discriminate|].
      intros (_ & _ & _ & _ & _ & _ & (f & Hf & Hc)).
      injection Hf as <-. apply inck_sel_of_xclk_some in Hc. congruence.
    + intros e H. injection H as <-. right. right. left. reflexivity.
    + intros _ _ _ _ _ _ e H. injection H as <-. reflexivity.
Qed.

(** ** Power sequencing *)

(** X16: from a powered-off device, [imx662_power_on] either succeeds, with
    the clock and the supplies enabled, the reset line released and the
    30 ms wait as the last thing done, or fails with the error of the step
    that failed and leaves the clock and the supplies disabled and the reset
    line asserted; after a successful power-on, [imx662_power_off] returns 0
    and the device is powered off again. *)
Theorem power_on_succeeds_or_rolls_back clk_fault reg_fault p :
  powered_off p ->
  let res := imx662_power_on clk_fault reg_fault p in
  match clk_fault, reg_fault with
  | None, None =>
      fst res = 0 /\
      xclk_enabled (snd res) = true /\ supplies_enabled (snd res) = true /\
      rst_gpio (snd res) = 0 /\
      power_trace (snd res) =
        power_trace p ++ [ ClkPrepareEnable 0; RegulatorBulkEnable 0;
                           PowerSleep 1 2; GpiodSetValue 0;
                           PowerSleep 30000 31000 ] /\
      fst (imx662_power_off (snd res)) = 0 /\
      powered_off (snd (imx662_power_off (snd res)))
  | Some e, _ =>
      fst res = - Z.pos e /\ powered_off (snd res) /\
      power_trace (snd res) = power_trace p ++ [ClkPrepareEnable (- Z.pos e)]
  | None, Some e =>
      fst res = - Z.pos e /\ powered_off (snd res) /\
      power_trace (snd res) =
        power_trace p ++ [ ClkPrepareEnable 0;
                           RegulatorBulkEnable (- Z.pos e);
                           ClkDisableUnprepare ]
  end.
Proof.
  intros (Hc & Hs & Hr). cbv zeta. unfold imx662_power_on, powered_off.
  destruct clk_fault as [e|]; cbn.
  - rewrite Hc, Hs, Hr. repeat split; reflexivity.
  - destruct reg_fault as [e|]; cbn.
    + rewrite Hs, Hr. rewrite <- !app_assoc. repeat split; reflexivity.
    + rewrite <- !app_assoc. repeat split; reflexivity.
Qed.

Lemma power_on_succeeds_or_rolls_back_witness :
  let p := {| xclk_enabled := false; supplies_enabled := false;
              rst_gpio := 1; power_trace := [] |} in
  powered_off p /\
  fst (imx662_power_on None (Some 19%positive) p) = -19 /\
  xclk_enabled (snd (imx662_power_on None (Some 19%positive) p)) = false.
Proof.
  assert (H : powered_off {| xclk_enabled := false; supplies_enabled := false;
                             rst_gpio := 1; power_trace := [] |})
    by (repeat split; reflexivity).
  split; [exact H|].
  destruct (power_on_succeeds_or_rolls_back None (Some 19%positive) _ H)
    as (R & (C & _) & _).
  split; [exact R | exact C].
Defined.

(** ** Stream-on republishes the exposure range *)

Lemma preserves_set_register_array X l :
  preserves (frame X) (imx662_set_register_array l).
Proof.
  unfold imx662_set_register_array. apply preserves_bind.
  - intros st. rewrite imx662_set_register_array_loop_eq.
    apply preserves_write_all.
  - intros r. destruct (r <? 0); [apply preserves_ret|].
    apply preserves_bind; [apply preserves_usleep|]. intros _.
    apply preserves_ret.
Qed.

Lemma preserves_write_current_format X :
  preserves (frame X) imx662_write_current_format.
Proof.
  intros st. rewrite imx662_write_current_format_eq.
  destruct (ad_md_bit _); [apply preserves_write_all | apply frame_refl].
Qed.

Lemma restaged_refl st : restaged st st.
Proof. intros id. split; reflexivity. Qed.

Lemma restaged_trans st1 st2 st3 :
  restaged st1 st2 -> restaged st2 st3 -> restaged st1 st3.
Proof.
  intros H1 H2 id. destruct (H1 id) as [A1 B1]. destruct (H2 id) as [A2 B2].
  split; congruence.
Qed.

Lemma restaged_frame_none st st' : frame none st st' -> restaged st st'.
Proof.
  intros F id. rewrite (frame_ctrl _ _ _ id F (none_not id)).
  split; reflexivity.
Qed.

Lemma restaged_cur_to_new id st :
  restaged st (upd_ctrl st id (cur_to_new (ctrls st id))).
Proof.
  intros id'. destruct (ctrl_id_eqb_spec id' id) as [->|N].
  - rewrite ctrls_upd_same. split; reflexivity.
  - rewrite ctrls_upd_other by exact N. split; reflexivity.
Qed.

Lemma handler_setup_loop_app cb l1 : forall l2 st,
  v4l2_ctrl_handler_setup_loop cb (l1 ++ l2) st =
  if fst (v4l2_ctrl_handler_setup_loop cb l1 st) =? 0
  then v4l2_ctrl_handler_setup_loop cb l2
         (snd (v4l2_ctrl_handler_setup_loop cb l1 st))
  else v4l2_ctrl_handler_setup_loop cb l1 st.
Proof.
  induction l1 as [|id l1 IH]; intros l2 st; simpl.
  - reflexivity.
  - rewrite !bind_unfold, get_ctrl_eq. cbn [fst snd].
    destruct (read_only (ctrls st id)); [apply IH|].
    rewrite !bind_unfold, modify_ctrl_eq. cbn [fst snd].
    rewrite ?bind_unfold.
    destruct (cb id _) as [r st2]. cbn [fst snd].
    destruct (Z.eqb_spec r 0) as [->|N]; cbn [negb]; [apply IH|].
    rewrite Ret_eq. cbn [fst snd].
    destruct (Z.eqb_spec r 0); [contradiction | reflexivity].
Qed.

(** Walking controls other than the vertical blank only restages values. *)
Lemma handler_setup_loop_restages l :
  ~ In V4L2_CID_VBLANK l ->
  forall st,
    restaged st (snd (v4l2_ctrl_handler_setup_loop imx662_set_ctrl l st)).
Proof.
  induction l as [|id l IH]; intros Hn st; simpl.
  - apply restaged_refl.
  - assert (Hid : id <> V4L2_CID_VBLANK)
      by (intros ->; apply Hn; left; reflexivity).
    assert (Hl : ~ In V4L2_CID_VBLANK l)
      by (intros H; apply Hn; right; exact H).
    rewrite bind_unfold, get_ctrl_eq. cbn [fst snd].
    destruct (read_only (ctrls st id)); [apply IH; exact Hl|].
    rewrite bind_unfold, modify_ctrl_eq. cbn [fst snd].
    rewrite bind_unfold.
    pose proof (restaged_cur_to_new id st) as R1.
    set (st1 := upd_ctrl st id (cur_to_new (ctrls st id))) in *.
    pose proof (restaged_frame_none _ _
                  (preserves_set_ctrl_leaf id Hid st1)) as R2.
    destruct (imx662_set_ctrl id st1) as [r st2]. cbn [fst snd] in *.
    pose proof (restaged_trans _ _ _ R1 R2) as R12.
    destruct (negb (r =? 0)).
    + rewrite Ret_eq. exact R12.
    + eapply restaged_trans; [exact R12 | apply IH; exact Hl].
Qed.

Lemma evolves_mode st st' : evolves st st' -> current_mode st' = current_mode st.
Proof. intros (H & _). unfold fixed_part in H. congruence. Qed.

Lemma setup_pre_stable v st st' :
  evolves st st' -> restaged st st' -> setup_pre v st -> setup_pre v st'.
Proof.
  intros E R ((Hp & (Hm & Hr & Hc) & Hf) & Hv).
  destruct (R V4L2_CID_VBLANK) as [Rr Rc].
  pose proof E as (_ & Epm & _).
  split; [split; [lia | split]|congruence].
  - unfold vblank_published. rewrite (evolves_mode _ _ E), Rr, Rc.
    split; [exact Hm|]. split; [exact Hr|].
    unfold range_of in Rr. inversion Rr as [[A B C D]]. rewrite A, B. exact Hc.
  - eapply flags_as_probed_evolves; eassumption.
Qed.

Lemma setup_post_stable v st st' :
  evolves st st' -> restaged st st' -> setup_post v st -> setup_post v st'.
Proof.
  intros E R (Hs & Hv).
  destruct (R V4L2_CID_VBLANK) as [_ Rc].
  destruct (R V4L2_CID_EXPOSURE) as [Re _].
  split; [|congruence].
  unfold exposure_in_sync. rewrite (evolves_mode _ _ E), Re, Rc. exact Hs.
Qed.

(** The vertical-blank step of the walk: on a device in use the callback
    runs [imx662_set_vmax] on the committed vertical blank, which republishes
    the exposure range whatever the bus answers. *)
Lemma handler_setup_vblank_step v st :
  setup_pre v st ->
  setup_post v (snd (v4l2_ctrl_handler_setup_loop imx662_set_ctrl
                       [V4L2_CID_VBLANK] st)).
Proof.
  intros ((Hp & (Hm & Hr & Hc) & Hf) & Hv).
  destruct (range_of_inv _ _ _ _ _ Hr) as (Hmin & Hmax & _).
  rewrite Hmin, Hmax, Hv in Hc.
  assert (K1 : vmax imx662_mode_1080p - height imx662_mode_1080p = 150)
    by (vm_compute; reflexivity).
  assert (K2 : IMX662_VMAX_MAX - height imx662_mode_1080p = 261043)
    by (vm_compute; reflexivity).
  assert (K3 : height imx662_mode_1080p = 1100) by (vm_compute; reflexivity).
  rewrite K1, K2 in Hc.
  simpl v4l2_ctrl_handler_setup_loop.
  rewrite bind_unfold, get_ctrl_eq. cbn [fst snd].
  rewrite (Hf V4L2_CID_VBLANK). cbn [writable negb].
  rewrite bind_unfold, modify_ctrl_eq. cbn [fst snd].
  rewrite bind_unfold.
  set (st1 := upd_ctrl st V4L2_CID_VBLANK
                (cur_to_new (ctrls st V4L2_CID_VBLANK))).
  assert (Hp1 : 0 < pm_usage st1) by exact Hp.
  rewrite (set_ctrl_vblank_powered st1 Hp1). cbn [fst snd].
  assert (Hval : val (ctrls st1 V4L2_CID_VBLANK) = v).
  { unfold st1. rewrite ctrls_upd_same. exact Hv. }
  rewrite Hval.
  set (st1' := set_pm_usage st1 (pm_usage st1 + 1)).
  assert (Hm1 : current_mode st1' = imx662_mode_1080p) by exact Hm.
  assert (Hu : u32 v = v) by (apply u32_small; lia).
  assert (Hu2 : u32 (v + 1100) = v + 1100) by (apply u32_small; lia).
  assert (Hu3 : u32 (v + 1100 - IMX662_EXPOSURE_OFFSET) = v + 1100 - 4)
    by (apply u32_small; unfold IMX662_EXPOSURE_OFFSET; lia).
  pose proof (set_vmax_spec (u32 v) st1') as S. cbv zeta in S.
  rewrite Hm1, K3, Hu, Hu2, Hu3 in S.
  destruct S as (F & R & _); [unfold IMX662_EXPOSURE_MIN; lia|].
  rewrite Hu.
  set (res := imx662_set_vmax v st1') in *.
  assert (Hfin : forall r st2,
            setup_post v st2 ->
            setup_post v (snd ((if negb (r =? 0) then Ret r else Ret 0) st2))).
  { intros r st2 H. destruct (negb (r =? 0)); exact H. }
  apply Hfin.
  assert (Evb : ctrls (snd res) V4L2_CID_VBLANK = ctrls st1 V4L2_CID_VBLANK).
  { apply (frame_ctrl _ _ _ _ F). intros [[]|H]. discriminate H. }
  assert (Ecur : cur_val (ctrls (snd res) V4L2_CID_VBLANK) = v).
  { rewrite Evb. unfold st1. rewrite ctrls_upd_same. exact Hv. }
  split; [|exact Ecur].
  unfold exposure_in_sync.
  cbn [ctrls current_mode set_pm_usage].
  rewrite (frame_mode _ _ _ F), Hm1, K3, Ecur, R.
  unfold IMX662_EXPOSURE_OFFSET.
  replace (1100 + v - 4) with (v + 1100 - 4) by lia. reflexivity.
Qed.

Lemma handler_setup_resyncs v :
  establishes (setup_pre v) (setup_post v)
    (v4l2_ctrl_handler_setup imx662_set_ctrl).
Proof.
  intros st Hpre. unfold v4l2_ctrl_handler_setup, imx662_ctrl_order.
  change [V4L2_CID_ANALOGUE_GAIN; V4L2_CID_HBLANK; V4L2_CID_VBLANK;
          V4L2_CID_EXPOSURE; V4L2_CID_HFLIP; V4L2_CID_VFLIP;
          V4L2_CID_LINK_FREQ; V4L2_CID_PIXEL_RATE]
    with ([V4L2_CID_ANALOGUE_GAIN; V4L2_CID_HBLANK] ++
          [V4L2_CID_VBLANK] ++
          [V4L2_CID_EXPOSURE; V4L2_CID_HFLIP; V4L2_CID_VFLIP;
           V4L2_CID_LINK_FREQ; V4L2_CID_PIXEL_RATE]).
  rewrite handler_setup_loop_app.
  set (l1 := [V4L2_CID_ANALOGUE_GAIN; V4L2_CID_HBLANK]).
  set (l3 := [V4L2_CID_EXPOSURE; V4L2_CID_HFLIP; V4L2_CID_VFLIP;
              V4L2_CID_LINK_FREQ; V4L2_CID_PIXEL_RATE]).
  assert (N1 : ~ In V4L2_CID_VBLANK l1).
  { intros [H|[H|[]]]; discriminate H. }
  assert (N3 : ~ In V4L2_CID_VBLANK l3).
  { intros [H|[H|[H|[H|[H|[]]]]]]; discriminate H. }
  pose proof (handler_setup_loop_restages l1 N1 st) as R1.
  pose proof (evolves_handler_setup_loop imx662_set_ctrl l1
                evolves_set_ctrl st) as E1.
  destruct (v4l2_ctrl_handler_setup_loop imx662_set_ctrl l1 st) as [r1 st1].
  cbn [fst snd] in *.
  destruct (Z.eqb_spec r1 0) as [_|N]; [|intros H; contradiction].
  pose proof (setup_pre_stable v _ _ E1 R1 Hpre) as Hpre1.
  rewrite handler_setup_loop_app.
  pose proof (handler_setup_vblank_step v st1 Hpre1) as Hpost2.
  destruct (v4l2_ctrl_handler_setup_loop imx662_set_ctrl
              [V4L2_CID_VBLANK] st1) as [r2 st2].
  cbn [fst snd] in *.
  destruct (Z.eqb_spec r2 0) as [_|N]; [|intros H; contradiction].
  intros _.
  apply (setup_post_stable v st2); [| |exact Hpost2].
  - apply (evolves_handler_setup_loop imx662_set_ctrl l3 evolves_set_ctrl).
  - apply handler_setup_loop_restages. exact N3.
Qed.

(** Guarded sequencing keeps "a zero result means the exposure range is in
    sync". *)
Lemma establishes_bind {A} v (m : M A) (k : A -> M Z) :
  preserves (frame none) m -> preserves evolves m ->
  (forall a, establishes (setup_pre v) (setup_post v) (k a)) ->
  establishes (setup_pre v) (setup_post v) (bind m k).
Proof.
  intros F E Hk st Hpre. rewrite bind_unfold. apply Hk.
  apply (setup_pre_stable v st); [apply E | | exact Hpre].
  apply restaged_frame_none, F.
Qed.

Lemma establishes_guard_lt {Pre Post} (r : Z) (k : M Z) :
  establishes Pre Post k ->
  establishes Pre Post (if r <? 0 then Ret r else k).
Proof.
  intros Hk st Hpre. destruct (Z.ltb_spec r 0); [|apply Hk; exact Hpre].
  rewrite Ret_eq. cbn [fst]. intros H0. exfalso. lia.
Qed.

Lemma establishes_then v (m : M Z) (k : M Z) :
  establishes (setup_pre v) (setup_post v) m ->
  preserves (frame none) k -> preserves evolves k ->
  establishes (setup_pre v) (setup_post v)
    (r <- m ;; if negb (r =? 0) then Ret r else k).
Proof.
  intros Hm F E st Hpre. rewrite bind_unfold.
  pose proof (Hm st Hpre) as H.
  destruct (m st) as [r st1]. cbn [fst snd] in *.
  destruct (Z.eqb_spec r 0) as [->|N]; cbn [negb].
  - intros _. apply (setup_post_stable v st1); [apply E | | apply H; reflexivity].
    apply restaged_frame_none, F.
  - rewrite Ret_eq. cbn [fst]. intros H0. contradiction.
Qed.

Lemma start_streaming_resyncs v :
  establishes (setup_pre v) (setup_post v) imx662_start_streaming.
Proof.
  unfold imx662_start_streaming.
  apply establishes_bind;
    [apply preserves_set_register_array | apply evolves_set_register_array|].
  intros r1. apply establishes_guard_lt.
  apply establishes_bind; [apply preserves_gets | apply evolves_gets|].
  intros inck.
  apply establishes_bind; [apply preserves_write_reg | apply evolves_write_reg|].
  intros r2. apply establishes_guard_lt.
  apply establishes_bind;
    [apply preserves_write_current_format | apply evolves_write_current_format|].
  intros r3. apply establishes_guard_lt.
  apply establishes_bind; [apply preserves_gets | apply evolves_gets|].
  intros m.
  apply establishes_bind;
    [apply preserves_set_register_array | apply evolves_set_register_array|].
  intros r4. apply establishes_guard_lt.
  apply establishes_bind; [apply preserves_gets | apply evolves_gets|].
  intros lanes.
  apply establishes_bind; [apply preserves_write_reg | apply evolves_write_reg|].
  intros r5. apply establishes_guard_lt.
  apply establishes_bind; [apply preserves_write_reg | apply evolves_write_reg|].
  intros r6. apply establishes_guard_lt.
  apply establishes_then; [apply handler_setup_resyncs | |].
  - apply preserves_bind; [apply preserves_write_reg|]. intros r.
    destruct (r <? 0); [apply preserves_ret|].
    apply preserves_bind; [apply preserves_sleep|]. intros _.
    apply preserves_write_reg.
  - apply evolves_bind; [apply evolves_write_reg|]. intros r.
    destruct (r <? 0); [apply evolves_ret|].
    apply evolves_bind; [apply evolves_msleep|]. intros _.
    apply evolves_write_reg.
Qed.

(** X17: a stream-on that succeeds leaves the exposure range in sync with the
    vertical blank: on a device whose vertical-blank control is as published,
    whose controls carry the probe flags and whose usage counter is not
    negative, after [imx662_set_stream 1] returns 0 the exposure control's
    range is [1, height + vblank - 4] with the upper bound as default, for
    the vertical blank committed before the call, which the call leaves as
    it was.  Whatever range was published before, stale or not, is
    replaced. *)
Theorem stream_on_resyncs_exposure_range st :
  0 <= pm_usage st ->
  vblank_published st ->
  flags_as_probed st ->
  fst (imx662_set_stream 1 st) = 0 ->
  let st' := snd (imx662_set_stream 1 st) in
  exposure_in_sync st' /\
  cur_val (ctrls st' V4L2_CID_VBLANK) = cur_val (ctrls st V4L2_CID_VBLANK).
Proof.
  intros Hp Hvb Hfl. cbv zeta. rewrite set_stream_on_eq.
  destruct (power_fault st) as [e|].
  { cbn [fst]. intros H. exfalso. lia. }
  cbv zeta.
  set (st1 := set_pm_usage st (pm_usage st + 1)).
  assert (Hpre : setup_pre (cur_val (ctrls st V4L2_CID_VBLANK)) st1).
  { split; [|reflexivity]. split; [cbn; lia|]. split; [exact Hvb | exact Hfl]. }
  pose proof (start_streaming_resyncs _ st1 Hpre) as H.
  destruct (imx662_start_streaming st1) as [r st2]. cbn [fst snd] in *.
  destruct (Z.eqb_spec r 0) as [->|N]; cbn [fst snd]; [|intros H0; contradiction].
  intros _. destruct (H eq_refl) as (Hs & Hv).
  unfold exposure_in_sync.
  rewrite !ctrls_upd_other by discriminate.
  split; [exact Hs | exact Hv].
Qed.

Lemma stream_on_resyncs_exposure_range_witness :
  maximum (ctrls stale_exposure_state V4L2_CID_EXPOSURE) = 262139 /\
  cur_val (ctrls stale_exposure_state V4L2_CID_VBLANK) = 150 /\
  exposure_in_sync (snd (imx662_set_stream 1 stale_exposure_state)).
Proof.
  split; [vm_compute; reflexivity|]. split; [vm_compute; reflexivity|].
  apply (stream_on_resyncs_exposure_range stale_exposure_state).
  - vm_compute. discriminate.
  - vm_compute. repeat split; discriminate.
  - intros id. destruct id; vm_compute; reflexivity.
  - vm_compute. reflexivity.
Defined.

(** ** An invariant of the device context *)

Lemma keeps_pm_flags_refl st : keeps_pm_flags st st.
Proof. split; reflexivity. Qed.

Lemma keeps_pm_flags_trans st1 st2 st3 :
  keeps_pm_flags st1 st2 -> keeps_pm_flags st2 st3 -> keeps_pm_flags st1 st3.
Proof.
  intros [A1 B1] [A2 B2]. split; [congruence|].
  intros id. rewrite B2. apply B1.
Qed.

Lemma keeps_pm_flags_evolves st st' : evolves st st' -> keeps_pm_flags st st'.
Proof.
  intros (_ & P & _ & G). split; [exact P|]. intros id. apply (proj1 (G id)).
Qed.

Lemma keeps_pm_flags_bind {A B} (m : M A) (k : A -> M B) :
  preserves keeps_pm_flags m -> (forall a, preserves keeps_pm_flags (k a)) ->
  preserves keeps_pm_flags (bind m k).
Proof.
  intros Hm Hk st. rewrite bind_unfold.
  eapply keeps_pm_flags_trans; [apply Hm | apply Hk].
Qed.

Lemma keeps_pm_flags_of_evolves {A} (m : M A) :
  preserves evolves m -> preserves keeps_pm_flags m.
Proof. intros H st. apply keeps_pm_flags_evolves, H. Qed.

Lemma keeps_pm_flags_modify f :
  (forall st, pm_usage (f st) = pm_usage st /\ ctrls (f st) = ctrls st) ->
  preserves keeps_pm_flags (modify f).
Proof.
  intros H st. rewrite modify_eq. cbn [snd]. destruct (H st) as [P C].
  split; [exact P|]. intros id. rewrite C. reflexivity.
Qed.

Lemma keeps_pm_flags_set_fmt fmt : preserves keeps_pm_flags (imx662_set_fmt fmt).
Proof.
  unfold imx662_set_fmt.
  apply keeps_pm_flags_bind; [apply keeps_pm_flags_of_evolves, evolves_gets|].
  intros fmts. cbv zeta.
  apply keeps_pm_flags_bind;
    [|intros _; apply keeps_pm_flags_of_evolves, evolves_ret].
  destruct (which fmt).
  - apply keeps_pm_flags_modify. intros st. split; reflexivity.
  - repeat (apply keeps_pm_flags_bind;
            [first [ apply keeps_pm_flags_of_evolves, evolves_s_ctrl,
                       evolves_set_ctrl
                   | apply keeps_pm_flags_of_evolves, evolves_s_ctrl_int64,
                       evolves_set_ctrl
                   | apply keeps_pm_flags_of_evolves, evolves_modify_range,
                       evolves_set_ctrl
                   | apply keeps_pm_flags_modify; intros st; split; reflexivity ]
            | intros _]).
    apply keeps_pm_flags_modify. intros st. split; reflexivity.
Qed.

Lemma flags_as_probed_kept st st' :
  keeps_pm_flags st st' -> flags_as_probed st -> flags_as_probed st'.
Proof. intros [_ G] H id. rewrite G. apply H. Qed.

Lemma vblank_kept_refl st : vblank_kept st st.
Proof. repeat split. Qed.

Lemma vblank_kept_trans st1 st2 st3 :
  vblank_kept st1 st2 -> vblank_kept st2 st3 -> vblank_kept st1 st3.
Proof. intros (A1 & B1 & C1) (A2 & B2 & C2). repeat split; congruence. Qed.

Lemma vblank_kept_frame X st st' :
  frame X st st' -> ~ X V4L2_CID_VBLANK -> vblank_kept st st'.
Proof.
  intros F HX. unfold vblank_kept.
  rewrite (frame_mode _ _ _ F), (frame_ctrl _ _ _ _ F HX). repeat split.
Qed.

Lemma vblank_kept_restaged st st' :
  current_mode st' = current_mode st -> restaged st st' -> vblank_kept st st'.
Proof.
  intros Hm R. destruct (R V4L2_CID_VBLANK) as [A B]. repeat split; assumption.
Qed.

Lemma vblank_kept_bind {A B} (m : M A) (k : A -> M B) :
  preserves vblank_kept m -> (forall a, preserves vblank_kept (k a)) ->
  preserves vblank_kept (bind m k).
Proof.
  intros Hm Hk st. rewrite bind_unfold.
  eapply vblank_kept_trans; [apply Hm | apply Hk].
Qed.

Lemma vblank_kept_of_frame {A} X (m : M A) :
  ~ X V4L2_CID_VBLANK -> preserves (frame X) m -> preserves vblank_kept m.
Proof. intros HX H st. eapply vblank_kept_frame; [apply H | exact HX]. Qed.

Lemma exposure_is_not_vblank : ~ also none V4L2_CID_EXPOSURE V4L2_CID_VBLANK.
Proof. intros [[]|H]. discriminate H. Qed.

Lemma vblank_published_kept st st' :
  vblank_kept st st' -> vblank_published st -> vblank_published st'.
Proof.
  intros (Km & Kr & Kc) (Hm & Hr & Hc). unfold vblank_published.
  rewrite Km, Kr, Kc. split; [exact Hm|]. split; [exact Hr|].
  unfold range_of in Kr. inversion Kr as [[A B C D]]. rewrite A, B. exact Hc.
Qed.

(** The walk over the controls keeps the vertical-blank control's range and
    committed value, whatever the callbacks return. *)
Lemma vblank_kept_handler_setup_loop l :
  preserves vblank_kept (v4l2_ctrl_handler_setup_loop imx662_set_ctrl l).
Proof.
  induction l as [|id l IH]; simpl.
  - intros st. apply vblank_kept_refl.
  - apply vblank_kept_bind;
      [apply (vblank_kept_of_frame none), preserves_gets; apply none_not|].
    intros c. destruct (read_only c); [exact IH|].
    apply vblank_kept_bind.
    { intros st. rewrite modify_ctrl_eq. cbn [snd].
      apply vblank_kept_restaged; [reflexivity | apply restaged_cur_to_new]. }
    intros _. apply vblank_kept_bind.
    { apply (vblank_kept_of_frame (also none V4L2_CID_EXPOSURE));
        [apply exposure_is_not_vblank | apply preserves_set_ctrl]. }
    intros r. destruct (negb (r =? 0)); [|exact IH].
    intros st. apply vblank_kept_refl.
Qed.

Lemma vblank_kept_start_streaming : preserves vblank_kept imx662_start_streaming.
Proof.
  assert (B : forall {A} (m : M A),
             preserves (frame none) m -> preserves vblank_kept m).
  { intros A m. apply vblank_kept_of_frame, none_not. }
  assert (R : forall r : Z, preserves vblank_kept (Ret r)).
  { intros r st. apply vblank_kept_refl. }
  unfold imx662_start_streaming.
  apply vblank_kept_bind; [apply B, preserves_set_register_array|]. intros r1.
  destruct (r1 <? 0); [apply R|].
  apply vblank_kept_bind; [apply B, preserves_gets|]. intros inck.
  apply vblank_kept_bind; [apply B, preserves_write_reg|]. intros r2.
  destruct (r2 <? 0); [apply R|].
  apply vblank_kept_bind; [apply B, preserves_write_current_format|]. intros r3.
  destruct (r3 <? 0); [apply R|].
  apply vblank_kept_bind; [apply B, preserves_gets|]. intros m.
  apply vblank_kept_bind; [apply B, preserves_set_register_array|]. intros r4.
  destruct (r4 <? 0); [apply R|].
  apply vblank_kept_bind; [apply B, preserves_gets|]. intros lanes.
  apply vblank_kept_bind; [apply B, preserves_write_reg|]. intros r5.
  destruct (r5 <? 0); [apply R|].
  apply vblank_kept_bind; [apply B, preserves_write_reg|]. intros r6.
  destruct (r6 <? 0); [apply R|].
  apply vblank_kept_bind; [apply vblank_kept_handler_setup_loop|]. intros r7.
  destruct (negb (r7 =? 0)); [apply R|].
  apply vblank_kept_bind; [apply B, preserves_write_reg|]. intros r8.
  destruct (r8 <? 0); [apply R|].
  apply vblank_kept_bind; [apply B, preserves_sleep|]. intros _.
  apply B, preserves_write_reg.
Qed.

Lemma driver_invariant_set_fmt fmt st :
  driver_invariant st -> driver_invariant (snd (imx662_set_fmt fmt st)).
Proof.
  intros (Hvb & Hfl & Hp).
  pose proof (keeps_pm_flags_set_fmt fmt st) as K.
  split; [|split; [eapply flags_as_probed_kept; eassumption
                  | rewrite (proj1 K); exact Hp]].
  destruct (which fmt) eqn:Hw.
  - rewrite (set_fmt_try_eq fmt st Hw). exact Hvb.
  - destruct Hvb as (Hm & Hr & Hc).
    destruct (range_of_inv _ _ _ _ _ Hr) as (Rmin & Rmax & _ & _).
    assert (K1 : vmax imx662_mode_1080p - height imx662_mode_1080p = 150)
      by (vm_compute; reflexivity).
    assert (K2 : IMX662_VMAX_MAX - height imx662_mode_1080p = 261043)
      by (vm_compute; reflexivity).
    rewrite Rmin, Rmax, K1, K2 in Hc.
    apply (set_fmt_establishes_exposure_bound fmt st Hw Hc).
Qed.

Lemma driver_invariant_set_ctrl id v st :
  driver_invariant st -> driver_invariant (snd (user_set_ctrl id v st)).
Proof.
  intros (Hvb & Hfl & Hp).
  pose proof (keeps_pm_flags_evolves _ _
                (evolves_s_ctrl imx662_set_ctrl id v (evolves_set_ctrl id) st))
    as K.
  fold (user_set_ctrl id v) in K.
  split; [|split; [eapply flags_as_probed_kept; eassumption
                  | rewrite (proj1 K); exact Hp]].
  unfold user_set_ctrl.
  destruct (ctrl_id_eqb_spec id V4L2_CID_VBLANK) as [->|N].
  - destruct (s_ctrl_spec (also none V4L2_CID_EXPOSURE) imx662_set_ctrl
                V4L2_CID_VBLANK v st eq_refl (preserves_set_ctrl V4L2_CID_VBLANK)
                exposure_is_not_vblank)
      as (F & (S1 & S2 & S3 & S4 & _) & V & C & _).
    destruct Hvb as (Hm & Hr & Hc).
    destruct (range_of_inv _ _ _ _ _ Hr) as (Rmin & Rmax & Rs & Rd).
    unfold vblank_published. rewrite (frame_mode _ _ _ F).
    split; [exact Hm|]. split.
    + unfold range_of. rewrite S1, S2, S3, S4, Rmin, Rmax, Rs, Rd. reflexivity.
    + rewrite S1, S2. destruct C as [C|C]; [rewrite C; exact Hc|].
      rewrite C, V. apply clamp_range. lia.
  - destruct (s_ctrl_any none imx662_set_ctrl id v st
                (preserves_set_ctrl_leaf id N) (none_not id)) as (F & _).
    eapply vblank_published_frame; [exact F | | exact Hvb].
    intros [[]|H]. apply N. symmetry. exact H.
Qed.

Lemma driver_invariant_grab st (g : bool) :
  driver_invariant st ->
  driver_invariant
    (upd_ctrl (upd_ctrl st V4L2_CID_VFLIP
                 (with_grabbed (ctrls st V4L2_CID_VFLIP) g))
       V4L2_CID_HFLIP
       (with_grabbed (ctrls (upd_ctrl st V4L2_CID_VFLIP
                               (with_grabbed (ctrls st V4L2_CID_VFLIP) g))
                        V4L2_CID_HFLIP) g)).
Proof.
  intros (Hvb & Hfl & Hp). split; [|split; [|exact Hp]].
  - destruct Hvb as (Hm & Hr & Hc). unfold vblank_published.
    rewrite !ctrls_upd_other by discriminate.
    split; [exact Hm|]. split; [exact Hr | exact Hc].
  - intros id.
    destruct (ctrl_id_eqb_spec id V4L2_CID_HFLIP) as [->|N1].
    { rewrite ctrls_upd_same. rewrite ctrls_upd_other by discriminate.
      apply (Hfl V4L2_CID_HFLIP). }
    rewrite ctrls_upd_other by exact N1.
    destruct (ctrl_id_eqb_spec id V4L2_CID_VFLIP) as [->|N2].
    { rewrite ctrls_upd_same. apply (Hfl V4L2_CID_VFLIP). }
    rewrite ctrls_upd_other by exact N2. apply Hfl.
Qed.

Lemma driver_invariant_set_stream (on : bool) st :
  driver_invariant st ->
  driver_invariant (snd (imx662_set_stream (if on then 1 else 0) st)).
Proof.
  intros Inv. destruct on.
  - rewrite set_stream_on_eq.
    destruct (power_fault st) as [e|]; [exact Inv|].
    cbv zeta. destruct Inv as (Hvb & Hfl & Hp).
    set (st1 := set_pm_usage st (pm_usage st + 1)).
    pose proof (vblank_kept_start_streaming st1) as K.
    pose proof (evolves_start_streaming st1) as E.
    assert (Inv2 : driver_invariant (snd (imx662_start_streaming st1))).
    { split; [|split].
      - apply (vblank_published_kept st1); [exact K | exact Hvb].
      - apply (flags_as_probed_evolves st1); [exact E | exact Hfl].
      - destruct E as (_ & P & _). rewrite P. cbn. lia. }
    destruct (imx662_start_streaming st1) as [r st2]. cbn [fst snd] in *.
    destruct (r =? 0); cbn [snd].
    + apply driver_invariant_grab. exact Inv2.
    + destruct Inv2 as (A & B & C). split; [exact A|]. split; [exact B|].
      cbn. lia.
  - rewrite set_stream_off_eq. cbv zeta. cbn [snd].
    apply driver_invariant_grab.
    destruct Inv as (Hvb & Hfl & Hp).
    pose proof (evolves_stop_streaming st) as E.
    assert (F : frame none st (snd (imx662_stop_streaming st))).
    { unfold imx662_stop_streaming.
      apply preserves_bind; [apply preserves_write_reg|]. intros r.
      destruct (r <? 0); [apply preserves_ret|].
      apply preserves_bind; [apply preserves_sleep|]. intros _.
      apply preserves_write_reg. }
    split; [|split].
    + apply (vblank_published_frame none st); [|apply none_not | exact Hvb].
      destruct F as [F1 F2]. split; [exact F1 | exact F2].
    + intros id.
      rewrite <- (Hfl id). destruct E as (_ & _ & _ & G). apply (proj1 (G id)).
    + cbn. lia.
Qed.

Lemma driver_invariant_run_op o st :
  driver_invariant st -> driver_invariant (run_op o st).
Proof.
  destruct o as [fmt | id v | on]; simpl.
  - apply driver_invariant_set_fmt.
  - apply driver_invariant_set_ctrl.
  - apply driver_invariant_set_stream.
Qed.

Lemma driver_invariant_probe fmts lanes inck transport pf :
  driver_invariant (imx662_probe_ctx fmts lanes inck transport pf).
Proof.
  split; [apply probe_within_exposure_bound|].
  rewrite imx662_probe_ctx_eq.
  pose proof (keeps_pm_flags_set_fmt (active_fmt 0)
                (imx662_probe_ctrls_created fmts lanes inck transport pf))
    as [P G].
  split.
  - intros id. rewrite G. destruct id; reflexivity.
  - rewrite P. cbn. lia.
Qed.

(** X18: the vertical-blank control as published, the read-only flags of the
    probe and a usage counter that is not negative are an invariant of the
    device context: they hold when [imx662_probe] is done, and every
    [imx662_set_fmt], control change and [imx662_set_stream], whatever it
    returns and whatever the bus answers, keeps them. *)
Theorem driver_invariant_reachable fmts lanes inck transport pf ops :
  driver_invariant
    (run_ops ops (imx662_probe_ctx fmts lanes inck transport pf)).
Proof.
  generalize (driver_invariant_probe fmts lanes inck transport pf).
  generalize (imx662_probe_ctx fmts lanes inck transport pf).
  induction ops as [|o ops IH]; intros st Inv; simpl.
  - exact Inv.
  - apply IH, driver_invariant_run_op, Inv.
Qed.

(** ** The bit depth written at stream-on *)

Lemma variant_formats_length fmts : variant_formats fmts -> length fmts = 2%nat.
Proof. intros [->| ->]; reflexivity. Qed.

Lemma format_consistent_fixed st st' :
  fixed_part st' = fixed_part st -> format_consistent st -> format_consistent st'.
Proof.
  unfold fixed_part. intros H. inversion H as [[A B C D E F G I J]].
  unfold format_consistent. rewrite F, G, E. exact (fun x => x).
Qed.

Lemma fixed_part_set_stream (on : bool) st :
  fixed_part (snd (imx662_set_stream (if on then 1 else 0) st)) = fixed_part st.
Proof.
  destruct on.
  - rewrite set_stream_on_eq. destruct (power_fault st); [reflexivity|].
    cbv zeta.
    pose proof (evolves_start_streaming
                  (set_pm_usage st (pm_usage st + 1))) as (E & _).
    destruct (imx662_start_streaming _) as [r st2]. cbn [fst snd] in *.
    destruct (r =? 0); cbn [snd]; exact E.
  - rewrite set_stream_off_eq. cbv zeta. cbn [snd].
    pose proof (evolves_stop_streaming st) as (E & _). exact E.
Qed.

Lemma format_consistent_set_fmt fmt st :
  variant_formats (formats st) ->
  (which fmt = V4L2_SUBDEV_FORMAT_TRY -> format_consistent st) ->
  format_consistent (snd (imx662_set_fmt fmt st)).
Proof.
  intros Hv Htry. destruct (which fmt) eqn:Hw.
  - rewrite (set_fmt_try_eq fmt st Hw). cbn [snd]. apply Htry. reflexivity.
  - destruct (set_fmt_active_spec fmt st Hw)
      as (_ & _ & Hb & Hc & Hf & _).
    pose proof (set_fmt_index_range (formats st) (fmt_code (format fmt))
                  (variant_formats_length _ Hv)) as Hi.
    split; [rewrite Hf; exact Hv|].
    exists (set_fmt_index (formats st) (fmt_code (format fmt))).
    split; [lia|]. rewrite Hf, Hc, Hb. split; reflexivity.
Qed.

Lemma format_consistent_run_op o st :
  format_consistent st -> format_consistent (run_op o st).
Proof.
  intros H. destruct o as [fmt | id v | on]; simpl.
  - apply format_consistent_set_fmt; [apply H | intros _; exact H].
  - apply (format_consistent_fixed st); [|exact H].
    apply (evolves_s_ctrl imx662_set_ctrl id v (evolves_set_ctrl id) st).
  - apply (format_consistent_fixed st); [|exact H].
    apply fixed_part_set_stream.
Qed.

Lemma format_consistent_probe fmts lanes inck transport pf :
  variant_formats fmts ->
  format_consistent (imx662_probe_ctx fmts lanes inck transport pf).
Proof.
  intros Hv. rewrite imx662_probe_ctx_eq.
  apply format_consistent_set_fmt; [exact Hv|]. intros H. discriminate H.
Qed.

Lemma format_consistent_bits st :
  format_consistent st ->
  (bpp st = 10 \/ bpp st = 12) /\
  ad_md_bit (fmt_code (current_format st)) =
    Some (if bpp st =? 10 then 0x00 else 0x01).
Proof.
  intros (Hv & i & Hi & Hc & Hb). rewrite Hc, Hb.
  destruct Hv as [-> | ->]; destruct Hi as [-> | ->];
    split; try reflexivity; (left; reflexivity) || (right; reflexivity).
Qed.

(** X19: on a colour or a monochrome sensor, in every state the device
    context reaches from [imx662_probe] by format, control and stream
    requests, the stored bit depth is 10 or 12 and
    [imx662_write_current_format] is the write of ADBIT followed, if that
    write is accepted, by the write of MDBIT, both with 0 for 10 bits and 1
    for 12 bits; its [-EINVAL] arm is never taken. *)
Theorem write_current_format_matches_bpp fmts lanes inck transport pf ops :
  variant_formats fmts ->
  let st := run_ops ops (imx662_probe_ctx fmts lanes inck transport pf) in
  let b := if bpp st =? 10 then 0x00 else 0x01 in
  (bpp st = 10 \/ bpp st = 12) /\
  imx662_write_current_format st =
    write_all [(IMX662_ADBIT, b); (IMX662_MDBIT, b)] st.
Proof.
  intros Hv. cbv zeta.
  pose proof (format_consistent_probe fmts lanes inck transport pf Hv) as H.
  revert H. generalize (imx662_probe_ctx fmts lanes inck transport pf).
  induction ops as [|o ops IH]; intros st H; simpl.
  - destruct (format_consistent_bits st H) as (Hb & Hbits).
    split; [exact Hb|]. rewrite imx662_write_current_format_eq, Hbits.
    reflexivity.
  - apply IH, format_consistent_run_op, H.
Qed.

Lemma write_current_format_matches_bpp_witness :
  variant_formats imx662_mono_formats /\
  bpp (run_ops [OpSetFmt (active_fmt MEDIA_BUS_FMT_Y12_1X12); OpSetStream true]
         (imx662_probe_ctx imx662_mono_formats 2 IMX662_INCK_SEL_37_125
            no_fault None)) = 12.
Proof.
  assert (H : variant_formats imx662_mono_formats) by (right; reflexivity).
  split; [exact H|].
  destruct (write_current_format_matches_bpp imx662_mono_formats 2
              IMX662_INCK_SEL_37_125 no_fault None
              [OpSetFmt (active_fmt MEDIA_BUS_FMT_Y12_1X12); OpSetStream true]
              H) as ([B|B] & _).
  - exfalso. revert B. vm_compute. discriminate.
  - exact B.
Defined.

(** ** Selection rectangles *)

Lemma imx662_get_selection_state try_crop which target r st :
  snd (imx662_get_selection try_crop which target r st) = st.
Proof.
  unfold imx662_get_selection, __imx662_get_pad_crop.
  destruct (target =? V4L2_SEL_TGT_CROP).
  - destruct which; reflexivity.
  - destruct (target =? V4L2_SEL_TGT_NATIVE_SIZE); [reflexivity|].
    destruct ((target =? V4L2_SEL_TGT_CROP_DEFAULT)
              || (target =? V4L2_SEL_TGT_CROP_BOUNDS)); reflexivity.
Qed.

(** X20: [imx662_get_selection] never changes the device context.  It
    returns 0 exactly for the four targets CROP, CROP_DEFAULT, CROP_BOUNDS
    and NATIVE_SIZE, and for any other target returns [-EINVAL] and leaves
    the rectangle of the selection as it was.  The default and the bounds
    rectangle are the same, 1936 by 1100 at (0, 20); a try request for CROP
    returns the caller's rectangle and an active one the crop rectangle of
    the current mode.  The bounds rectangle reaches row 1120 and so does not
    lie inside the native size of 1956 by 1110; and in the catalog mode the
    active crop rectangle is 1956 by 1110 at (0, 20), which lies neither
    inside the bounds rectangle nor inside the native size. *)
Theorem get_selection_rectangles try_crop which target r st :
  let res := fst (imx662_get_selection try_crop which target r st) in
  let sel t w := snd (fst (imx662_get_selection try_crop w t r st)) in
  snd (imx662_get_selection try_crop which target r st) = st /\
  (fst res = 0 <->
   target = V4L2_SEL_TGT_CROP \/ target = V4L2_SEL_TGT_CROP_DEFAULT \/
   target = V4L2_SEL_TGT_CROP_BOUNDS \/ target = V4L2_SEL_TGT_NATIVE_SIZE) /\
  (fst res <> 0 -> res = (- EINVAL, r)) /\
  sel V4L2_SEL_TGT_CROP_DEFAULT which = sel V4L2_SEL_TGT_CROP_BOUNDS which /\
  ~ rect_inside (sel V4L2_SEL_TGT_CROP_BOUNDS which)
                (sel V4L2_SEL_TGT_NATIVE_SIZE which) /\
  sel V4L2_SEL_TGT_CROP V4L2_SUBDEV_FORMAT_TRY = try_crop /\
  sel V4L2_SEL_TGT_CROP V4L2_SUBDEV_FORMAT_ACTIVE = crop (current_mode st) /\
  (current_mode st = imx662_mode_1080p ->
   ~ rect_inside (sel V4L2_SEL_TGT_CROP V4L2_SUBDEV_FORMAT_ACTIVE)
                 (sel V4L2_SEL_TGT_CROP_BOUNDS which) /\
   ~ rect_inside (sel V4L2_SEL_TGT_CROP V4L2_SUBDEV_FORMAT_ACTIVE)
                 (sel V4L2_SEL_TGT_NATIVE_SIZE which)).
Proof.
  cbv zeta. split; [apply imx662_get_selection_state|].
  split; [|split].
  - unfold imx662_get_selection, V4L2_SEL_TGT_CROP, V4L2_SEL_TGT_CROP_DEFAULT,
      V4L2_SEL_TGT_CROP_BOUNDS, V4L2_SEL_TGT_NATIVE_SIZE, __imx662_get_pad_crop.
    destruct (Z.eqb_spec target 0) as [->|N0].
    { split; [intros _; left; reflexivity|]. intros _.
      destruct which; reflexivity. }
    destruct (Z.eqb_spec target 3) as [->|N3].
    { split; [intros _; right; right; right; reflexivity | reflexivity]. }
    destruct (Z.eqb_spec target 1) as [->|N1].
    { split; [intros _; right; left; reflexivity | reflexivity]. }
    destruct (Z.eqb_spec target 2) as [->|N2].
    { split; [intros _; right; right; left; reflexivity | reflexivity]. }
    cbn. split; [intros H; discriminate H|]. intros [H|[H|[H|H]]]; lia.
  - unfold imx662_get_selection, V4L2_SEL_TGT_CROP, V4L2_SEL_TGT_CROP_DEFAULT,
      V4L2_SEL_TGT_CROP_BOUNDS, V4L2_SEL_TGT_NATIVE_SIZE, __imx662_get_pad_crop.
    destruct (Z.eqb_spec target 0) as [->|N0].
    { intros H. exfalso. apply H. destruct which; reflexivity. }
    destruct (Z.eqb_spec target 3) as [->|N3].
    { intros H. exfalso. apply H. reflexivity. }
    destruct (Z.eqb_spec target 1) as [->|N1].
    { intros H. exfalso. apply H. reflexivity. }
    destruct (Z.eqb_spec target 2) as [->|N2].
    { intros H. exfalso. apply H. reflexivity. }
    intros _. reflexivity.
  - split; [reflexivity|].
    split.
    { unfold rect_inside. cbn.
      unfold IMX662_PIXEL_ARRAY_TOP, IMX662_PIXEL_ARRAY_HEIGHT,
        IMX662_NATIVE_HEIGHT. intros H. lia. }
    split; [reflexivity|]. split; [reflexivity|].
    intros Hm.
    change (snd (fst (imx662_get_selection try_crop V4L2_SUBDEV_FORMAT_ACTIVE
                        V4L2_SEL_TGT_CROP r st)))
      with (crop (current_mode st)).
    rewrite Hm. unfold rect_inside. cbn.
    unfold IMX662_PIXEL_ARRAY_LEFT, IMX662_PIXEL_ARRAY_TOP,
      IMX662_PIXEL_ARRAY_WIDTH, IMX662_PIXEL_ARRAY_HEIGHT,
      IMX662_NATIVE_WIDTH, IMX662_NATIVE_HEIGHT.
    split; intros H; lia.
Qed.

Lemma get_selection_rectangles_witness :
  current_mode (probed no_fault) = imx662_mode_1080p /\
  ~ rect_inside
      (snd (fst (imx662_get_selection (crop imx662_mode_1080p)
                   V4L2_SUBDEV_FORMAT_ACTIVE V4L2_SEL_TGT_CROP
                   (crop imx662_mode_1080p) (probed no_fault))))
      (snd (fst (imx662_get_selection (crop imx662_mode_1080p)
                   V4L2_SUBDEV_FORMAT_ACTIVE V4L2_SEL_TGT_CROP_BOUNDS
                   (crop imx662_mode_1080p) (probed no_fault)))).
Proof.
  assert (H : current_mode (probed no_fault) = imx662_mode_1080p)
    by (vm_compute; reflexivity).
  split; [exact H|].
  destruct (get_selection_rectangles (crop imx662_mode_1080p)
              V4L2_SUBDEV_FORMAT_ACTIVE V4L2_SEL_TGT_CROP
              (crop imx662_mode_1080p) (probed no_fault))
    as (_ & _ & _ & _ & _ & _ & _ & K).
  exact (proj1 (K H)).
Defined.
